(** * The transcript archive server: indexing pipeline and search engine

    A shallow embedding of [web-app/server/index.js] (the current version,
    with best-of support, the trigram table and the [show_links] table):
    - the JavaScript string primitives the server uses ([trim],
      [startsWith], [includes], [split], [replace] with a character class,
      [toLowerCase], [toUpperCase]);
    - [getDateFromFilename];
    - the show-file and best-of parsers of [buildIndex];
    - the SQLite store (two FTS5 tables, [shows], [show_links], [metadata])
      with [db.transaction], and [buildIndex] as a state-and-exception
      computation over it;
    - [expandQuery], [getSearchResults] and the [/api/search] handler;
    - the [/api/shows] and [/api/transcript] handlers;
    - [stringifyLine] of [apply_updates.js], which writes the CSV lines
      that [buildIndex] reads.

    Strings are sequences of code units.  The embedding works with the code
    units below 256 (Rocq's [ascii]); within that range the whitespace class
    and the case mappings are those of ECMAScript.

    What is not in the repository is taken as a parameter: the file system
    (a partial map from paths to contents) and the FTS5 engine (how a MATCH
    expression is compiled for a table, how rows are ranked, how LIKE
    compares). *)

From Stdlib Require Import ZArith NArith Ascii String List Lia Bool DecimalString DecimalNat
  Sorted.
From stdpp Require Import base option strings gmap list.

Local Open Scope N_scope.

(** ** JavaScript string primitives *)

Module Js.

Definition code (c : ascii) : N := N_of_ascii c.

Definition chr (n : N) : ascii := ascii_of_N n.

Definition LF : ascii := chr 10.
Definition DQUOTE : ascii := chr 34.
Definition quote : string := String DQUOTE EmptyString.
Definition CR : ascii := chr 13.

(** ECMAScript WhiteSpace and LineTerminator code units below 256:
    TAB, LF, VT, FF, CR, SP and NBSP.  This is the class of [\s] and the
    class [trim] removes. *)
Definition isWhiteSpace (c : ascii) : bool :=
  let n := code c in
  ((9 <=? n) && (n <=? 13)) || (n =? 32) || (n =? 160).

(** [\d] *)
Definition isDigit (c : ascii) : bool :=
  let n := code c in (48 <=? n) && (n <=? 57).

(** [\w], that is [A-Za-z0-9_] *)
Definition isWord (c : ascii) : bool :=
  let n := code c in
  ((65 <=? n) && (n <=? 90)) || ((97 <=? n) && (n <=? 122))
  || isDigit c || (n =? 95).

Definition lowerChar (c : ascii) : ascii :=
  let n := code c in
  if ((65 <=? n) && (n <=? 90))
     || ((192 <=? n) && (n <=? 222) && negb (n =? 215))
  then chr (n + 32) else c.

(** Upper-casing of one code unit.  The three code units below 256 whose
    upper case lies outside that range or is longer than one unit (U+00B5,
    U+00DF, U+00FF) are left as they are: none of them maps to a letter of
    [" AND "], the only text an upper-cased string is searched for. *)
Definition upperChar (c : ascii) : ascii :=
  let n := code c in
  if ((97 <=? n) && (n <=? 122))
     || ((224 <=? n) && (n <=? 254) && negb (n =? 247))
  then chr (n - 32) else c.

Fixpoint smap (f : ascii -> ascii) (s : string) : string :=
  match s with
  | EmptyString => EmptyString
  | String c s' => String (f c) (smap f s')
  end.

Definition toLowerCase : string -> string := smap lowerChar.
Definition toUpperCase : string -> string := smap upperChar.

(** [s.replace(re, empty)] for a global character-class pattern: the
    characters in the class are dropped, [sfilter keep s] keeps the others. *)
Fixpoint sfilter (keep : ascii -> bool) (s : string) : string :=
  match s with
  | EmptyString => EmptyString
  | String c s' => if keep c then String c (sfilter keep s') else sfilter keep s'
  end.

Fixpoint sall (p : ascii -> bool) (s : string) : bool :=
  match s with
  | EmptyString => true
  | String c s' => p c && sall p s'
  end.

Fixpoint startsWith (s p : string) {struct p} : bool :=
  match p, s with
  | EmptyString, _ => true
  | String a p', String b s' => (code a =? code b) && startsWith s' p'
  | String _ _, EmptyString => false
  end.

Fixpoint includes (s sub : string) : bool :=
  startsWith s sub ||
  match s with
  | EmptyString => false
  | String _ s' => includes s' sub
  end.

Fixpoint drop (n : nat) (s : string) : string :=
  match n, s with
  | O, _ => s
  | S n', String _ s' => drop n' s'
  | S _, EmptyString => EmptyString
  end.

Fixpoint take (n : nat) (s : string) : string :=
  match n, s with
  | O, _ => EmptyString
  | S n', String c s' => String c (take n' s')
  | S _, EmptyString => EmptyString
  end.

(** [s.substring(i, j)] for [i <= j]. *)
Definition substring (i j : nat) (s : string) : string :=
  take (j - i) (drop i s).

Fixpoint srev_onto (s acc : string) : string :=
  match s with
  | EmptyString => acc
  | String c s' => srev_onto s' (String c acc)
  end.

Definition srev (s : string) : string := srev_onto s EmptyString.

Fixpoint trimStart (s : string) : string :=
  match s with
  | EmptyString => EmptyString
  | String c s' => if isWhiteSpace c then trimStart s' else s
  end.

Definition trimEnd (s : string) : string := srev (trimStart (srev s)).

Definition trim (s : string) : string := trimEnd (trimStart s).

Definition endsWith (s p : string) : bool := startsWith (srev s) (srev p).

Definition isEmpty (s : string) : bool :=
  match s with EmptyString => true | _ => false end.

(** [xs.join(sep)] *)
Fixpoint join (sep : string) (xs : list string) : string :=
  match xs with
  | [] => EmptyString
  | [x] => x
  | x :: rest => x +:+ sep +:+ join sep rest
  end.

(** Splitting at every character of a class: one piece more than there
    are separator characters. *)
Fixpoint splitAt (sep : ascii -> bool) (s : string) : list string :=
  match s with
  | EmptyString => [EmptyString]
  | String c s' =>
      if sep c then EmptyString :: splitAt sep s'
      else match splitAt sep s' with
           | p :: ps => String c p :: ps
           | [] => [String c EmptyString]
           end
  end.

(** [s.split(",")] *)
Definition splitComma : string -> list string :=
  splitAt (fun c => code c =? 44).

(** [s.split(/\s+/)]: the separators are the maximal whitespace runs, so
    of the pieces between single whitespace characters the empty ones that
    are neither first nor last disappear. *)
Definition splitWs (s : string) : list string :=
  match splitAt isWhiteSpace s with
  | [] => []
  | [p] => [p]
  | p :: rest =>
      p :: List.filter (fun w => negb (isEmpty w)) (removelast rest)
        ++ [List.last rest EmptyString]
  end.

(** [s.split(/\r?\n/)]: a line ends at LF, and a CR just before that LF
    belongs to the separator. *)
Fixpoint splitLines (s : string) : list string :=
  match s with
  | EmptyString => [EmptyString]
  | String c s' =>
      if code c =? 10 then EmptyString :: splitLines s'
      else if (code c =? 13) && startsWith s' (String LF EmptyString)
      then splitLines s'
      else match splitLines s' with
           | p :: ps => String c p :: ps
           | [] => [String c EmptyString]
           end
  end.

(** [s.split("\n")] *)
Definition splitLF : string -> list string :=
  splitAt (fun c => code c =? 10).

(** Decimal rendering of an index inside a template literal. *)
Definition ofNat (n : nat) : string := NilEmpty.string_of_uint (Nat.to_uint n).

End Js.

(** ** Dates from file names *)

(** The first [n] characters of [s] when there are [n] of them and all are
    digits: [\d{n}] at the start of [s]. *)
Definition digitsPrefix (n : nat) (s : string) : option string :=
  let d := Js.take n s in
  if (String.length d =? n)%nat && Js.sall Js.isDigit d then Some d else None.

(** [/(?:rogers|lassiter)-(\d{8})/] tried at the start of [s]; the result is
    the captured group. *)
Definition hostDateAt (s : string) : option string :=
  if Js.startsWith s "rogers-" then digitsPrefix 8 (Js.drop 7 s)
  else if Js.startsWith s "lassiter-" then digitsPrefix 8 (Js.drop 9 s)
  else None.

(** [filename.match(/(?:rogers|lassiter)-(\d{8})/)]: the leftmost position
    where the pattern matches. *)
Fixpoint matchHostDate (s : string) : option string :=
  match hostDateAt s with
  | Some d => Some d
  | None =>
      match s with
      | EmptyString => None
      | String _ s' => matchHostDate s'
      end
  end.

Definition unknownDate : string := "Unknown Date".

Definition getDateFromFilename (filename : string) : string :=
  match matchHostDate filename with
  | Some d =>
      Js.substring 0 4 d +:+ "-" +:+ Js.substring 4 6 d +:+ "-" +:+ Js.substring 6 8 d
  | None =>
      match digitsPrefix 4 filename with
      | Some y => y +:+ "-12-31"
      | None => unknownDate
      end
  end.

(** ** Segments and the two parsers of [buildIndex] *)

(** One row of an FTS5 table, the object [buildIndex] pushes on [batch]. *)
Record Doc := mkDoc {
  id : string;
  file : string;
  line : nat;
  date : string;
  text_content : string;
  type : string
}.

Definition setText (d : Doc) (t : string) : Doc :=
  mkDoc (id d) (file d) (line d) (date d) t (type d).

(** [line.startsWith("[") && line.includes("-->")] *)
Definition isMarker (line : string) : bool :=
  Js.startsWith line "[" && Js.includes line "-->".

(** The loop variables of the show branch: [currentDoc] and [batch]. *)
Definition ShowState : Type := option Doc * list Doc.

Definition pushCurrent (currentDoc : option Doc) (batch : list Doc) : list Doc :=
  match currentDoc with
  | Some d => batch ++ [d]
  | None => batch
  end.

(** The body of [for (let j = 0; j < lines.length; j++)] in the show
    branch, at index [j] with [lines[j] = raw]. *)
Definition showStep (relativePath date : string) (st : ShowState)
    (j : nat) (raw : string) : ShowState :=
  let '(currentDoc, batch) := st in
  let line := Js.trim raw in
  if Js.isEmpty line then st
  else if isMarker line then
    (Some (mkDoc (relativePath +:+ "::" +:+ Js.ofNat j) relativePath j date EmptyString "show"),
     pushCurrent currentDoc batch)
  else
    match currentDoc with
    | Some d => (Some (setText d (text_content d +:+ " " +:+ line)), batch)
    | None => st
    end.

Fixpoint showLoop (relativePath date : string) (lines : list string)
    (j : nat) (st : ShowState) : ShowState :=
  match lines with
  | [] => st
  | raw :: rest =>
      showLoop relativePath date rest (S j) (showStep relativePath date st j raw)
  end.

(** The show branch: the loop from [currentDoc = null], then
    [if (currentDoc) batch.push(currentDoc)]. *)
Definition parseShow (relativePath date : string) (lines : list string)
    (batch : list Doc) : list Doc :=
  let '(currentDoc, batch') := showLoop relativePath date lines 0%nat (None, batch) in
  pushCurrent currentDoc batch'.

(** The timestamp pattern of the best-of branch, anchored at the start of a
    trimmed line: one or two digits, a colon, two digits, optionally a
    colon and two more digits, then at least one whitespace character (the
    rest of the line is captured whatever it is). *)
Definition afterMinutes (s : string) : bool :=
  match s with
  | String c _ =>
      Js.isWhiteSpace c ||
      (Js.startsWith s ":" &&
       match digitsPrefix 2 (Js.drop 1 s) with
       | Some _ =>
           match Js.drop 3 s with
           | String c' _ => Js.isWhiteSpace c'
           | EmptyString => false
           end
       | None => false
       end)
  | EmptyString => false
  end.

Definition afterHours (s : string) : bool :=
  Js.startsWith s ":" &&
  match digitsPrefix 2 (Js.drop 1 s) with
  | Some _ => afterMinutes (Js.drop 3 s)
  | None => false
  end.

Definition tsMatch (line : string) : bool :=
  match digitsPrefix 2 line with
  | Some _ => afterHours (Js.drop 2 line)
  | None => false
  end
  ||
  match digitsPrefix 1 line with
  | Some _ => afterHours (Js.drop 1 line)
  | None => false
  end.

(** The body of [for (let j = 2; j < lines.length; j++)] in the best-of
    branch. *)
Definition bestOfStep (relativePath date : string) (batch : list Doc)
    (j : nat) (raw : string) : list Doc :=
  let line := Js.trim raw in
  if Js.isEmpty line || String.eqb line "." then batch
  else if tsMatch line then
    batch ++ [mkDoc (relativePath +:+ "::" +:+ Js.ofNat j) relativePath j date line "best_of"]
  else batch.

Fixpoint bestOfLoop (relativePath date : string) (lines : list string)
    (j : nat) (batch : list Doc) : list Doc :=
  match lines with
  | [] => batch
  | raw :: rest =>
      bestOfLoop relativePath date rest (S j) (bestOfStep relativePath date batch j raw)
  end.

Definition parseBestOf (relativePath date : string) (lines : list string)
    (batch : list Doc) : list Doc :=
  bestOfLoop relativePath date (List.skipn 2 lines) 2%nat batch.

(** ** The SQLite store *)

(** A row of [shows]; [file] is the primary key. *)
Record Show := mkShow {
  show_date : string;
  show_file : string;
  show_type : string;
  show_youtube_url : option string;
  show_custom_title : option string
}.

(** A row of [show_links], the array [[date, youtube_url, host,
    custom_title]] handed to [insertLink]; [date] is the primary key. *)
Record Link := mkLink {
  link_date : string;
  link_youtube_url : string;
  link_host : string;
  link_custom_title : string
}.

(** The FTS5 tables have no key; the other three are keyed, and
    [INSERT OR REPLACE] overwrites the row with the same key. *)
Record Db := mkDb {
  transcripts_fts : list Doc;
  transcripts_fts_trigram : list Doc;
  shows : gmap string Show;
  show_links : gmap string Link;
  metadata : gmap string string
}.

Definition insertPorter (doc : Doc) (d : Db) : Db :=
  mkDb (transcripts_fts d ++ [doc]) (transcripts_fts_trigram d)
       (shows d) (show_links d) (metadata d).

Definition insertTrigram (doc : Doc) (d : Db) : Db :=
  mkDb (transcripts_fts d) (transcripts_fts_trigram d ++ [doc])
       (shows d) (show_links d) (metadata d).

Definition insertShow (s : Show) (d : Db) : Db :=
  mkDb (transcripts_fts d) (transcripts_fts_trigram d)
       (<[show_file s := s]> (shows d)) (show_links d) (metadata d).

Definition insertLink (l : Link) (d : Db) : Db :=
  mkDb (transcripts_fts d) (transcripts_fts_trigram d)
       (shows d) (<[link_date l := l]> (show_links d)) (metadata d).

(** [DELETE FROM show_links] *)
Definition deleteLinks (d : Db) : Db :=
  mkDb (transcripts_fts d) (transcripts_fts_trigram d) (shows d) ∅ (metadata d).

(** [INSERT OR REPLACE INTO metadata (key, value) VALUES (?, ?)] *)
Definition setMetadata (k v : string) (d : Db) : Db :=
  mkDb (transcripts_fts d) (transcripts_fts_trigram d)
       (shows d) (show_links d) (<[k := v]> (metadata d)).

(** The three [DROP TABLE IF EXISTS] followed by [createTables()]:
    the FTS5 tables and [shows] come back empty, [show_links] and
    [metadata] exist already and are kept. *)
Definition resetTables (d : Db) : Db :=
  mkDb [] [] ∅ (show_links d) (metadata d).

(** ** The build as a computation with state and exceptions *)

Inductive Error :=
  | SqliteError
  | ReadError (path : string)
  | TypeError.

Inductive Outcome (A : Type) :=
  | Return (a : A)
  | Throw (e : Error).
Arguments Return {A} a.
Arguments Throw {A} e.

Inductive LogEvent :=
  | LogAlreadyIndexed
  | LogStatus (count : nat)
  | LogStarting
  | LogCritical
  | LogFound (shows bestOf : nat)
  | LogIndexed (done total : nat)
  | LogSyncing
  | LogSynced (links : nat)
  | LogComplete.

(** The module-level state of the server together with what the build
    leaves behind: the console, the number of statements run so far, and
    the database as it stood at each point where the build gave control
    back to the event loop. *)
Record World := mkWorld {
  db : Db;
  isIndexed : bool;
  progress_current : nat;
  progress_total : nat;
  console : list LogEvent;
  executed : nat;
  yields : list Db
}.

(** The surroundings of the build: the two glob results, the file system,
    and which statements the database refuses ([fault n] says that the
    [n]-th statement run raises). *)
Record Env := mkEnv {
  globTxt : list string;
  bestOfDirExists : bool;
  globMd : list string;
  existsSync : string -> bool;
  readFileSync : string -> option string;
  fault : nat -> bool
}.

Definition Build (A : Type) : Type := World -> Outcome A * World.

#[global] Instance build_ret : MRet Build := λ A a w, (Return a, w).

#[global] Instance build_bind : MBind Build := λ A B f m w,
  match m w with
  | (Return a, w') => f a w'
  | (Throw e, w') => (Throw e, w')
  end.

Definition withDb (w : World) (d : Db) : World :=
  mkWorld d (isIndexed w) (progress_current w) (progress_total w)
          (console w) (executed w) (yields w).

Definition tick (w : World) : World :=
  mkWorld (db w) (isIndexed w) (progress_current w) (progress_total w)
          (console w) (S (executed w)) (yields w).

Definition log (e : LogEvent) : Build unit := λ w,
  (Return (),
   mkWorld (db w) (isIndexed w) (progress_current w) (progress_total w)
           (console w ++ [e]) (executed w) (yields w)).

Definition setCurrent (n : nat) : Build unit := λ w,
  (Return (),
   mkWorld (db w) (isIndexed w) n (progress_total w)
           (console w) (executed w) (yields w)).

Definition setTotal (n : nat) : Build unit := λ w,
  (Return (),
   mkWorld (db w) (isIndexed w) (progress_current w) n
           (console w) (executed w) (yields w)).

Definition setIsIndexed (b : bool) : Build unit := λ w,
  (Return (),
   mkWorld (db w) b (progress_current w) (progress_total w)
           (console w) (executed w) (yields w)).

(** An [await]: other code may run and sees the database as it is now. *)
Definition yield : Build unit := λ w,
  (Return (),
   mkWorld (db w) (isIndexed w) (progress_current w) (progress_total w)
           (console w) (executed w) (yields w ++ [db w])).

(** DDL outside any transaction ([db.exec] of DROP and CREATE), taken
    not to fail. *)
Definition exec (f : Db -> Db) : Build unit := λ w, (Return (), withDb w (f (db w))).

Section Build.

Context (env : Env).

(** Where [__dirname] and [DATA_DIR] point. *)
Context (DIRNAME DATA_DIR : string).

Definition TRANSCRIPTS_DIR : string := DATA_DIR +:+ "/transcripts/timestamps".
Definition BEST_OF_DIR : string := DATA_DIR +:+ "/transcripts/best-of".

(** One prepared statement run: it raises when the database refuses it,
    and changes the tables otherwise. *)
Definition run (f : Db -> Db) : Build unit := λ w,
  if fault env (executed w) then (Throw SqliteError, tick w)
  else (Return (), tick (withDb w (f (db w)))).

(** [db.transaction(fn)(...)]: when [fn] raises, the tables are rolled back
    to what they were at BEGIN and the exception goes on to the caller. *)
Definition transaction {A : Type} (body : Build A) : Build A := λ w,
  match body w with
  | (Return a, w') => (Return a, w')
  | (Throw e, w') => (Throw e, withDb w' (db w))
  end.

Fixpoint forEach {A : Type} (f : A -> Build unit) (xs : list A) : Build unit :=
  match xs with
  | [] => mret ()
  | x :: rest => f x ;; forEach f rest
  end.

Definition insertMany (docs : list Doc) (shows : list Show) (links : list Link)
    : Build unit :=
  transaction (
    forEach (fun doc => run (insertPorter doc) ;; run (insertTrigram doc)) docs ;;
    forEach (fun show => run (insertShow show)) shows ;;
    forEach (fun link => run (insertLink link)) links).

Definition readFile (path : string) : Build string := λ w,
  match readFileSync env path with
  | Some content => (Return content, w)
  | None => (Throw (ReadError path), w)
  end.

Inductive FileType := show | best_of.

Definition typeName (t : FileType) : string :=
  match t with show => "show" | best_of => "best_of" end.

Record FileInfo := mkFileInfo { path : string; ftype : FileType }.

(** [path.basename(file)] for the paths glob returns. *)
Definition basename (file : string) : string :=
  List.last (Js.splitAt (fun c => Js.code c =? 47) file) EmptyString.

(** [path.relative(dir, file)] for a file that glob found under [dir]. *)
Definition relative (dir file : string) : string :=
  if Js.startsWith file (dir +:+ "/") then Js.drop (S (String.length dir)) file
  else file.

(** [x || y] on strings: the empty string is falsy. *)
Definition orElse (x y : string) : string := if Js.isEmpty x then y else x.

(** What one file adds to [batch] and [showsBatch]. *)
Definition ingest (fileInfo : FileInfo) (content : string)
    (batch : list Doc) (showsBatch : list Show) : list Doc * list Show :=
  let file := path fileInfo in
  let lines := Js.splitLines content in
  let filename := basename file in
  let date := getDateFromFilename filename in
  match ftype fileInfo with
  | best_of =>
      let relativePath := "best-of/" +:+ filename in
      let title := orElse (Js.trim (List.nth 0 lines EmptyString)) filename in
      let ytUrl := Js.trim (List.nth 1 lines EmptyString) in
      (parseBestOf relativePath date lines batch,
       showsBatch ++ [mkShow date relativePath "best_of" (Some ytUrl) (Some title)])
  | show =>
      let relativePath := relative TRANSCRIPTS_DIR file in
      (parseShow relativePath date lines batch,
       showsBatch ++ [mkShow date relativePath "show" None None])
  end.

(** [for (let i = 0; i < allFiles.length; i++)], from index [i] on, with
    the loop variables [batch] and [showsBatch]. *)
Fixpoint fileLoop (allFiles : list FileInfo) (i total : nat)
    (batch : list Doc) (showsBatch : list Show) : Build (list Doc * list Show) :=
  match allFiles with
  | [] => mret (batch, showsBatch)
  | fileInfo :: rest =>
      setCurrent (S i) ;;
      (if (i mod 50 =? 0)%nat then yield else mret ()) ;;
      content ← readFile (path fileInfo);
      let '(batch1, shows1) := ingest fileInfo content batch showsBatch in
      if (50 <=? length shows1)%nat then
        insertMany batch1 shows1 [] ;;
        log (LogIndexed (S i) total) ;;
        fileLoop rest (S i) total [] []
      else fileLoop rest (S i) total batch1 shows1
  end.

(** *** The metadata pass *)

(** The character loop that cuts one CSV line into fields.  [skip] stands
    for the extra [i++] after a doubled quote. *)
Fixpoint csvFields (line : string) (skip : bool) (current : string)
    (inQuotes : bool) (parts : list string) : list string :=
  match line with
  | EmptyString => parts ++ [current]
  | String char rest =>
      if skip then csvFields rest false current inQuotes parts
      else if Js.code char =? 34 then
        if inQuotes && Js.startsWith rest Js.quote
        then csvFields rest true (current +:+ Js.quote) inQuotes parts
        else csvFields rest false current (negb inQuotes) parts
      else if (Js.code char =? 44) && negb inQuotes then
        csvFields rest false EmptyString inQuotes (parts ++ [current])
      else csvFields rest false (current +:+ String char EmptyString) inQuotes parts
  end.

Definition parseCsvLine (line : string) : list string :=
  csvFields line false EmptyString false [].

(** A field, or the empty string when the row has none at that position,
    with every double quote removed and then trimmed. *)
Definition clean (field : string) : string :=
  Js.trim (Js.sfilter (fun c => negb (Js.code c =? 34)) field).

Definition cleanDate (row : list string) : string := clean (List.nth 0 row EmptyString).

Definition cleanYoutube (row : list string) : string := clean (List.nth 2 row EmptyString).

Definition cleanHost (row : list string) : string :=
  let h := clean (List.nth 5 row EmptyString) in
  if Js.startsWith h "http" then EmptyString else h.

Definition cleanCustomTitle (row : list string) : string :=
  clean (List.nth 6 row EmptyString).

(** The second [map] of the pass: a link, or [null]. *)
Definition toLink (row : list string) : option Link :=
  if negb (Js.isEmpty (cleanDate row)) && negb (Js.isEmpty (cleanYoutube row))
     && Js.startsWith (cleanYoutube row) "http"
  then Some (mkLink (cleanDate row) (cleanYoutube row) (cleanHost row) (cleanCustomTitle row))
  else None.

(** [lines.map(parse).filter(p => p.length >= 3).map(toLink).filter(Boolean)]
    over the lines after the header. *)
Definition csvRows (csvData : string) : list (list string) :=
  map parseCsvLine (List.skipn 1 (Js.splitLines csvData)).

Definition csvLinks (csvData : string) : list Link :=
  omap toLink (List.filter (fun p => (3 <=? length p)%nat) (csvRows csvData)).

Definition csvFile : string := DIRNAME +:+ "/nrs_shows.csv".

Definition syncLinks : Build unit :=
  if existsSync env csvFile then
    log LogSyncing ;;
    csvData ← readFile csvFile;
    let links := csvLinks csvData in
    transaction (run deleteLinks ;; forEach (fun link => run (insertLink link)) links) ;;
    log (LogSynced (length links))
  else mret ().

(** *** [buildIndex] *)

Definition versionKey : string := "is_indexed_v9".

Definition allFiles : list FileInfo :=
  map (fun f => mkFileInfo f show) (globTxt env)
  ++ map (fun f => mkFileInfo f best_of)
         (if bestOfDirExists env then globMd env else []).

Definition buildIndex : Build unit := λ w,
  if isIndexed w then
    (log LogAlreadyIndexed ;; log (LogStatus (size (shows (db w))))) w
  else
    (log LogStarting ;;
     exec resetTables ;;
     yield ;;
     (if bestOfDirExists env then yield else mret ()) ;;
     (if (length allFiles =? 0)%nat then log LogCritical else mret ()) ;;
     log (LogFound (length (globTxt env))
                   (length (if bestOfDirExists env then globMd env else []))) ;;
     setTotal (length allFiles) ;;
     '(batch, showsBatch) ← fileLoop allFiles 0%nat (length allFiles) [] [];
     (if (0 <? length batch)%nat || (0 <? length showsBatch)%nat
      then insertMany batch showsBatch [] else mret ()) ;;
     syncLinks ;;
     run (setMetadata versionKey "true") ;;
     setIsIndexed true ;;
     log LogComplete) w.

End Build.

(** The module-level [row ? row.value === "true" : false]. *)
Definition initiallyIndexed (d : Db) : bool :=
  match metadata d !! versionKey with
  | Some v => String.eqb v "true"
  | None => false
  end.

Definition startWorld (d : Db) : World :=
  mkWorld d (initiallyIndexed d) 0%nat 0%nat [] 0%nat [].

(** ** Query expansion *)

#[global] Instance outcome_ret : MRet Outcome := λ A a, Return a.

#[global] Instance outcome_bind : MBind Outcome := λ A B f m,
  match m with
  | Return a => f a
  | Throw e => Throw e
  end.

(** [xs.map(f)] where [f] may raise: the first exception ends the map. *)
Fixpoint mapM {A B : Type} (f : A -> Outcome B) (xs : list A) : Outcome (list B) :=
  match xs with
  | [] => Return []
  | x :: rest => y ← f x; ys ← mapM f rest; Return (y :: ys)
  end.

(** What [NEIL_THESAURUS[key]] evaluates to.  The table is an object
    literal, so besides its two own keys the lookup finds the properties
    it inherits from [Object.prototype]; of those only [constructor] and
    [__proto__] can be spelled by a lower-cased word of word characters.
    Both are truthy and have no [join]. *)
Inductive Property :=
  | Own (words : list string)
  | Inherited
  | Undefined.

Definition NEIL_THESAURUS (key : string) : Property :=
  if String.eqb key "jorge" then Own ["jorge"; "george"]
  else if String.eqb key "george" then Own ["jorge"; "george"]
  else if String.eqb key "constructor" || String.eqb key "__proto__" then Inherited
  else Undefined.

(** [query.startsWith(quote) && query.endsWith(quote) && query.length > 1] *)
Definition isVerbatim (query : string) : bool :=
  Js.startsWith query Js.quote && Js.endsWith query Js.quote
  && (1 <? String.length query)%nat.

(** Double quote, apostrophe and backtick: the class [expandQuery] strips. *)
Definition isQuoteChar (c : ascii) : bool :=
  let n := Js.code c in (n =? 34) || (n =? 39) || (n =? 96).

Definition expandWord (word : string) : Outcome string :=
  let cleanWord := Js.sfilter Js.isWord word in
  match NEIL_THESAURUS cleanWord with
  | Own words => Return ("(" +:+ Js.join " OR " words +:+ ")")
  | Inherited => Throw TypeError
  | Undefined => Return (orElse cleanWord word)
  end.

Definition expandQuery (query : string) : Outcome string :=
  if isVerbatim query then Return query
  else
    let sanitized := Js.sfilter (fun c => negb (isQuoteChar c)) query in
    let words :=
      List.filter (fun w => (0 <? String.length w)%nat)
                  (Js.splitWs (Js.toLowerCase sanitized)) in
    expandedParts ← mapM expandWord words;
    Return (Js.join " " expandedParts).

(** *** [query.split(/\s+AND\s+/i)] *)

Fixpoint wsRun (s : string) : nat :=
  match s with
  | String c s' => if Js.isWhiteSpace c then S (wsRun s') else 0%nat
  | EmptyString => 0%nat
  end.

Definition isAndWord (s : string) : bool :=
  match s with
  | String a (String n (String d _)) =>
      ((Js.code a =? 65) || (Js.code a =? 97))
      && ((Js.code n =? 78) || (Js.code n =? 110))
      && ((Js.code d =? 68) || (Js.code d =? 100))
  | _ => false
  end.

(** The length of the match of the separator pattern at the start of [s]:
    a whitespace run, the word AND in any case, a whitespace run. *)
Definition andSepLength (s : string) : option nat :=
  let w1 := wsRun s in
  let s1 := Js.drop w1 s in
  let w2 := wsRun (Js.drop 3 s1) in
  if (0 <? w1)%nat && isAndWord s1 && (0 <? w2)%nat
  then Some (w1 + 3 + w2)%nat else None.

(** The scan of [split]: [skip] characters of a separator are still to be
    passed over, [current] is the piece being collected. *)
Fixpoint splitAndFrom (s : string) (skip : nat) (current : string) : list string :=
  match s with
  | EmptyString => [current]
  | String c s' =>
      match skip with
      | S k => splitAndFrom s' k current
      | O =>
          match andSepLength s with
          | Some n => current :: splitAndFrom s' (Nat.pred n) EmptyString
          | None => splitAndFrom s' 0%nat (current +:+ String c EmptyString)
          end
      end
  end.

Definition splitAnd (query : string) : list string :=
  splitAndFrom query 0%nat EmptyString.

(** ** The FTS5 engine, as far as the server relies on it *)

Inductive Table := Porter | Trigram.

Definition tableName (t : Table) : string :=
  match t with
  | Porter => "transcripts_fts"
  | Trigram => "transcripts_fts_trigram"
  end.

Definition rowsOf (t : Table) (d : Db) : list Doc :=
  match t with
  | Porter => transcripts_fts d
  | Trigram => transcripts_fts_trigram d
  end.

(** [compile t e] is what [t MATCH e] means for a row of table [t], or
    [None] when FTS5 rejects the expression; [rank] is the value of the
    hidden [rank] column for a row under a MATCH expression; [snippetOf] is
    [snippet(t, 4, ...)]; [like p s] is [s LIKE p]. *)
Record Engine := mkEngine {
  compile : Table -> string -> option (Doc -> bool);
  rank : Table -> string -> list Doc -> Doc -> Z;
  snippetOf : Table -> string -> Doc -> string;
  like : string -> string -> bool
}.

(** A result row of the search SELECT. *)
Record Hit := mkHit {
  hit_doc : Doc;
  highlight : string;
  youtube_url : option string;
  host : option string;
  custom_title : option string
}.

Record Enriched := mkEnriched { hit : Hit; snippet : string }.

(** [parseInt(req.query.offset)], or 0 when the parameter is absent. *)
Inductive Offset := NaN | Num (n : Z).

Record Request := mkRequest {
  q : option string;
  years : option string;
  offset : Offset;
  rtype : option string
}.

Inductive Response :=
  | Indexing (current total : nat)
  | Results (hits : list Enriched)
  | ServerError (e : Error).

Definition status (r : Response) : nat :=
  match r with
  | Indexing _ _ => 503%nat
  | Results _ => 200%nat
  | ServerError _ => 500%nat
  end.

(** One execution of the search SELECT: the table, the first MATCH
    parameter and the MATCH parameters of the INTERSECT sub-selects. *)
Record Query := mkQuery {
  q_table : Table;
  q_match : string;
  q_clauses : list string
}.

Fixpoint insertBy {A : Type} (key : A -> Z) (x : A) (l : list A) : list A :=
  match l with
  | [] => [x]
  | y :: rest => if (key x <=? key y)%Z then x :: l else y :: insertBy key x rest
  end.

(** [ORDER BY rank], ties left in table order. *)
Definition orderBy {A : Type} (key : A -> Z) (l : list A) : list A :=
  List.fold_right (insertBy key) [] l.

Definition limit : nat := 100%nat.

Section Search.

Context (engine : Engine) (env : Env) (DATA_DIR : string).

Definition getFullPath (relPath : string) : string :=
  if Js.startsWith relPath "best-of/"
  then DATA_DIR +:+ "/transcripts" +:+ "/" +:+ relPath
  else TRANSCRIPTS_DIR DATA_DIR +:+ "/" +:+ relPath.

(** The callback of [results.map]: seven lines of the source file from the
    hit's line on, or the indexed text when the file cannot be read. *)
Definition enrich (h : Hit) : Enriched :=
  match readFileSync env (getFullPath (file (hit_doc h))) with
  | Some content =>
      let lines := Js.splitLF content in
      let startLine := line (hit_doc h) in
      let endLine := Nat.min (length lines - 1) (line (hit_doc h) + 6) in
      mkEnriched h (Js.join (String Js.LF EmptyString)
                      (List.firstn (S endLine - startLine) (List.skipn startLine lines)))
  | None => mkEnriched h (text_content (hit_doc h))
  end.

Definition compileOrThrow (t : Table) (e : string) : Outcome (Doc -> bool) :=
  match compile engine t e with
  | Some m => Return m
  | None => Throw SqliteError
  end.

(** The two LEFT JOINs and the COALESCEs of the SELECT list. *)
Definition decorate (d : Db) (t : Table) (matchQuery : string) (row : Doc) : Hit :=
  let l := show_links d !! date row in
  let s := shows d !! file row in
  mkHit row (snippetOf engine t matchQuery row)
        (match l with
         | Some l => Some (link_youtube_url l)
         | None => s ≫= show_youtube_url
         end)
        (link_host <$> l)
        (match l with
         | Some l => Some (link_custom_title l)
         | None => s ≫= show_custom_title
         end).

(** [t.file IN (SELECT file ... MATCH c1 INTERSECT ... MATCH cn)] *)
Definition inAllFileSets (rows : list Doc) (clauses : list (Doc -> bool)) (f : string) : bool :=
  forallb (fun c => existsb (fun r => c r && String.eqb (file r) f) rows) clauses.

(** [(t.date LIKE ? OR ...)] with the parameters [y%] *)
Definition yearFilter (yearsParam : option string) (row : Doc) : bool :=
  match yearsParam with
  | Some ys =>
      if Js.isEmpty ys then true
      else existsb (fun y => like engine (y +:+ "%") (date row)) (Js.splitComma ys)
  | None => true
  end.

(** The rows the WHERE clause keeps, in table order. *)
Definition selected (d : Db) (t : Table) (m : Doc -> bool) (cs : list (Doc -> bool))
    (typeValue : string) (yearsParam : option string) : list Doc :=
  List.filter
    (fun row => m row && inAllFileSets (rowsOf t d) cs (file row)
                && String.eqb (type row) typeValue && yearFilter yearsParam row)
    (rowsOf t d).

(** [db.prepare(sql).all(...queryParams)]: the statement with
    [OFFSET NaN] does not prepare; a negative offset counts as zero. *)
Definition runSelect (d : Db) (t : Table) (matchQuery : string) (clauses : list string)
    (typeValue : string) (yearsParam : option string) (currentOffset : Z)
    : Outcome (list Hit) :=
  m ← compileOrThrow t matchQuery;
  cs ← mapM (compileOrThrow t) clauses;
  let rows := selected d t m cs typeValue yearsParam in
  let ordered := orderBy (rank engine t matchQuery (rowsOf t d)) rows in
  Return (map (decorate d t matchQuery)
              (List.firstn limit (List.skipn (Z.to_nat currentOffset) ordered))).

(** The first MATCH parameter and the parameters of the sub-selects. *)
Definition matchParams (isAndSearch : bool) (query queryString : string)
    : Outcome (string * list string) :=
  if isAndSearch then
    expandedParts ← mapM (fun p => expandQuery (Js.trim p)) (splitAnd query);
    Return ("(" +:+ Js.join " OR " expandedParts +:+ ")", expandedParts)
  else Return (queryString, []).

(** [getSearchResults], a closure over the request: its result, and the
    statement it ran when it got as far as running one. *)
Definition getSearchResults (d : Db) (req : Request) (query : string) (isAndSearch : bool)
    (t : Table) (queryString : string) (currentOffset : Offset)
    : Outcome (list Hit) * list Query :=
  match matchParams isAndSearch query queryString with
  | Throw e => (Throw e, [])
  | Return (finalMatchQuery, clauses) =>
      let typeValue :=
        match rtype req with
        | Some ty => orElse ty "show"
        | None => "show"
        end in
      match currentOffset with
      | NaN => (Throw SqliteError, [])
      | Num k =>
          (runSelect d t finalMatchQuery clauses typeValue (years req) k,
           [mkQuery t finalMatchQuery clauses])
      end
  end.

Definition isAndSearchOf (expandedQuery : string) : bool :=
  Js.includes (Js.toUpperCase expandedQuery) " AND ".

(** The [/api/search] handler: the response, and the statements run
    against the two FTS5 tables on the way. *)
Definition search (w : World) (req : Request) : Response * list Query :=
  if negb (isIndexed w) then (Indexing (progress_current w) (progress_total w), [])
  else
    match q req with
    | None => (Results [], [])
    | Some query =>
        if Js.isEmpty (Js.trim query) then (Results [], [])
        else
          match expandQuery query with
          | Throw e => (ServerError e, [])
          | Return expandedQuery =>
              let cleanedQuery :=
                Js.trim (Js.sfilter
                           (fun c => negb ((Js.code c =? 34) || (Js.code c =? 40)
                                           || (Js.code c =? 41)))
                           expandedQuery) in
              if Js.isEmpty cleanedQuery then (Results [], [])
              else
                let isAndSearch := isAndSearchOf expandedQuery in
                match getSearchResults (db w) req query isAndSearch
                                       Porter expandedQuery (offset req) with
                | (Throw _, ran) => (Results [], ran)
                | (Return results, ran) =>
                    if negb (isVerbatim query) && (length results =? 0)%nat
                       && (3 <=? String.length query)%nat
                    then
                      match getSearchResults (db w) req query isAndSearch
                                             Trigram expandedQuery (offset req) with
                      | (Throw e, ran') => (ServerError e, ran ++ ran')
                      | (Return fuzzyResults, ran') =>
                          (Results (map enrich fuzzyResults), ran ++ ran')
                      end
                    else (Results (map enrich results), ran)
                end
          end
    end.

End Search.

(** ** A small engine to run the server on examples

    Words lower-cased; an expression is a disjunction (the word OR between
    groups) of groups of words, parentheses and double quotes only group.
    The stemmed table matches a row that has every word of some group
    among its words, the trigram table one that has every word of some
    group somewhere in its text.  An expression with any other character
    is a syntax error.  Every row ranks the same. *)

Module Toy.

Definition isExprChar (c : ascii) : bool :=
  Js.isWord c || (Js.code c =? 32) || (Js.code c =? 34)
  || (Js.code c =? 40) || (Js.code c =? 41).

Definition isGrouping (c : ascii) : bool :=
  (Js.code c =? 34) || (Js.code c =? 40) || (Js.code c =? 41).

Fixpoint groups (ws : list string) (current : list string) : list (list string) :=
  match ws with
  | [] => [current]
  | w :: rest =>
      if String.eqb w "OR" then current :: groups rest []
      else groups rest (current ++ [Js.toLowerCase w])
  end.

Definition alternatives (e : string) : list (list string) :=
  groups (List.filter (fun w => negb (Js.isEmpty w))
            (Js.splitAt (fun c => Js.code c =? 32)
               (Js.sfilter (fun c => negb (isGrouping c)) e))) [].

Definition wordsOf (text : string) : list string :=
  Js.splitAt (fun c => negb (Js.isWord c)) (Js.toLowerCase text).

Definition hasWord (text w : string) : bool :=
  existsb (String.eqb w) (wordsOf text).

Definition hasText (text w : string) : bool :=
  Js.includes (Js.toLowerCase text) w.

Definition matches (has : string -> string -> bool) (e : string) (row : Doc) : bool :=
  existsb (fun g => negb (length g =? 0)%nat && forallb (has (text_content row)) g)
          (alternatives e).

Definition compile (t : Table) (e : string) : option (Doc -> bool) :=
  if Js.sall isExprChar e then
    Some (matches (match t with Porter => hasWord | Trigram => hasText end) e)
  else None.

(** [s LIKE p] for a pattern that is a literal followed by one percent
    sign. *)
Definition like (p s : string) : bool :=
  Js.startsWith s (Js.take (String.length p - 1) p).

Definition engine : Engine :=
  mkEngine compile (fun _ _ _ _ => 0%Z) (fun _ _ row => text_content row) like.


End Toy.

Definition emptyDb : Db := mkDb [] [] ∅ ∅ ∅.

Definition noFault : nat -> bool := fun _ => false.

(** ** What the claims speak about, in the words of the specification *)

(** [d] is an 8-digit date that follows a host token and a hyphen in
    [filename], the token starting right after [pre]. *)
Definition hostDateOccurs (pre d filename : string) : Prop :=
  exists host post,
    (host = "rogers" \/ host = "lassiter")
    /\ filename = pre +:+ host +:+ "-" +:+ d +:+ post
    /\ String.length d = 8%nat /\ Js.sall Js.isDigit d = true.

Definition hasHostDate (filename : string) : Prop :=
  exists pre d, hostDateOccurs pre d filename.

Definition startsWithYear (y filename : string) : Prop :=
  exists rest, filename = y +:+ rest
    /\ String.length y = 4%nat /\ Js.sall Js.isDigit y = true.

(** YYYY-MM-DD from eight digits. *)
Definition isoDate (d : string) : string :=
  Js.take 4 d +:+ "-" +:+ Js.take 2 (Js.drop 4 d) +:+ "-" +:+ Js.take 2 (Js.drop 6 d).

(** A line of a show file is a marker when, trimmed, it starts with an
    opening bracket and contains an arrow; it is blank when nothing is
    left of it after trimming. *)
Definition isMarkerLine (raw : string) : bool := isMarker (Js.trim raw).

Definition isBlankLine (raw : string) : bool := Js.isEmpty (Js.trim raw).

(** The dialogue that follows a marker: the trimmed non-blank lines up to
    the next marker or the end of the file, in source order. *)
Fixpoint dialogue (lines : list string) : list string :=
  match lines with
  | [] => []
  | raw :: rest =>
      if isMarkerLine raw then []
      else if isBlankLine raw then dialogue rest
      else Js.trim raw :: dialogue rest
  end.

(** Plain concatenation, and concatenation with a space before each
    line. *)
Fixpoint concatLines (ls : list string) : string :=
  match ls with
  | [] => EmptyString
  | l :: rest => l +:+ concatLines rest
  end.

Fixpoint spacedLines (ls : list string) : string :=
  match ls with
  | [] => EmptyString
  | l :: rest => " " +:+ l +:+ spacedLines rest
  end.

(** One segment per marker, from line [j] on: the marker at index [k]
    gives the segment with that line number whose text is [glue] of the
    dialogue after it; lines before the first marker give nothing. *)
Fixpoint segmentsFrom (glue : list string -> string) (relativePath date : string)
    (j : nat) (lines : list string) : list Doc :=
  match lines with
  | [] => []
  | raw :: rest =>
      if isMarkerLine raw then
        mkDoc (relativePath +:+ "::" +:+ Js.ofNat j) relativePath j date
              (glue (dialogue rest)) "show"
        :: segmentsFrom glue relativePath date (S j) rest
      else segmentsFrom glue relativePath date (S j) rest
  end.

(** ** Vocabulary for the build *)

(** Everything of the world but the tables and the statement counter. *)
Definition sameRest (w w' : World) : Prop :=
  isIndexed w' = isIndexed w /\ progress_current w' = progress_current w
  /\ progress_total w' = progress_total w /\ console w' = console w
  /\ yields w' = yields w.

(** A list of statements run one after the other, and what they do to the
    tables when none is refused. *)
Definition runAll (env : Env) (fs : list (Db -> Db)) : Build unit :=
  forEach (run env) fs.

Definition applyAll (fs : list (Db -> Db)) (d : Db) : Db :=
  List.fold_left (fun d f => f d) fs d.

Definition docStatements (docs : list Doc) : list (Db -> Db) :=
  flat_map (fun doc => [insertPorter doc; insertTrigram doc]) docs.

(** The statements of one [insertMany], in the order they are run. *)
Definition manyStatements (docs : list Doc) (shows : list Show) (links : list Link)
    : list (Db -> Db) :=
  docStatements docs ++ map insertShow shows ++ map insertLink links.

(** The two FTS5 tables hold the same rows. *)
Definition lockstep (d : Db) : Prop :=
  transcripts_fts d = transcripts_fts_trigram d.

(** The states of the database that anything outside the build can see
    while the build runs from [w] and after it has ended in [w']: those at
    the points where the build yields, and the one it leaves. *)
Definition observed (w w' : World) : list Db :=
  List.skipn (length (yields w)) (yields w') ++ [db w'].

(** The invariant of the build: the tables are in lockstep now and were at
    every yield since [base]. *)
Definition Inv (base : list Db) (w : World) : Prop :=
  lockstep (db w)
  /\ exists new, yields w = base ++ new /\ Forall lockstep new.

Definition Preserves {A : Type} (P : World -> Prop) (m : Build A) : Prop :=
  forall w, P w -> P (snd (m w)).

(** A statement that leaves both FTS5 tables alone. *)
Definition keepsFts (f : Db -> Db) : Prop :=
  forall d, transcripts_fts (f d) = transcripts_fts d
            /\ transcripts_fts_trigram (f d) = transcripts_fts_trigram d.

(** A statement that leaves the version marker and the link table alone. *)
Definition keepsSide (f : Db -> Db) : Prop :=
  forall d, metadata (f d) = metadata d /\ show_links (f d) = show_links d.

(** [buildIndex] in three parts: what comes before the loop over the
    files, the loop, and what comes after it. *)
Definition prelude (env : Env) : Build unit :=
  log LogStarting ;;
  exec resetTables ;;
  yield ;;
  (if bestOfDirExists env then yield else mret ()) ;;
  (if (length (allFiles env) =? 0)%nat then log LogCritical else mret ()) ;;
  log (LogFound (length (globTxt env))
                (length (if bestOfDirExists env then globMd env else []))) ;;
  setTotal (length (allFiles env)).

Definition loopStart (env : Env) (w : World) : World := snd (prelude env w).

Definition finish (env : Env) (DIRNAME : string) (pending : list Doc * list Show)
    : Build unit :=
  let '(batch, showsBatch) := pending in
  (if (0 <? length batch)%nat || (0 <? length showsBatch)%nat
   then insertMany env batch showsBatch [] else mret ()) ;;
  syncLinks env DIRNAME ;;
  run env (setMetadata versionKey "true") ;;
  setIsIndexed true ;;
  log LogComplete.

(** Properties of the world that only look at the tables and at
    [isIndexed]. *)
Definition Quiet (P : World -> Prop) : Prop :=
  forall w w', db w' = db w -> isIndexed w' = isIndexed w -> P w -> P w'.

(** Such a property survives every committed [insertMany] of the loop. *)
Definition SurvivesInserts (P : World -> Prop) : Prop :=
  forall w w' docs shows,
    db w' = applyAll (manyStatements docs shows []) (db w) ->
    isIndexed w' = isIndexed w -> P w -> P w'.

(** The build has not touched the version marker, the link table or
    [isIndexed]. *)
Definition notCompleted (w0 w : World) : Prop :=
  isIndexed w = false
  /\ metadata (db w) = metadata (db w0)
  /\ show_links (db w) = show_links (db w0).

(** ** Example surroundings *)

Definition showsRoot : string := "/data/transcripts/timestamps/".

(** A header and four rows: two accepted rows with the same date, a row
    without date, a row whose URL is not an http URL. *)
Definition exampleCsv : string :=
  "Date,Init,YouTube,Notes,Info,Host,Title" +:+ String Js.LF
  "1999-01-05,x,http://a,n,i,Neil,First" +:+ String Js.LF
  "1999-01-05,x,http://b" +:+ String Js.LF
  ",x,http://c" +:+ String Js.LF
  "1999-01-06,x,ftp://d".

Definition exampleFiles (p : string) : option string :=
  if String.eqb p (showsRoot +:+ "1999/neil-rogers-19990105.txt") then
    Some ("[00:00 --> 00:05]" +:+ String Js.LF "hello jorge" +:+ String Js.LF
          "[00:05 --> 00:09]" +:+ String Js.LF "bye rick" +:+ String Js.LF
          "[00:09 --> 00:12]" +:+ String Js.LF "suds here")
  else if String.eqb p (showsRoot +:+ "neil-rogers-19990106.txt") then
    Some ("[00:00 --> 00:05]" +:+ String Js.LF "rick alone george" +:+ String Js.LF
          "[00:05 --> 00:09]" +:+ String Js.LF "reliance")
  else if String.eqb p "/data/transcripts/best-of/1988.md" then
    Some ("Title" +:+ String Js.LF "http://y" +:+ String Js.LF "1:23 best moment")
  else if String.eqb p "/srv/nrs_shows.csv" then Some exampleCsv
  else None.

(** Two show files, one best-of file and a metadata CSV; the database
    refuses statement number [n] when [refused n] holds. *)
Definition exampleEnv (refused : nat -> bool) : Env :=
  mkEnv [showsRoot +:+ "1999/neil-rogers-19990105.txt";
         showsRoot +:+ "neil-rogers-19990106.txt"]
        true ["/data/transcripts/best-of/1988.md"]
        (fun p => String.eqb p "/srv/nrs_shows.csv")
        exampleFiles refused.

(** Three show files, the second of which cannot be read. *)
Definition unreadableEnv : Env :=
  mkEnv [showsRoot +:+ "1999/neil-rogers-19990105.txt";
         showsRoot +:+ "gone.txt";
         showsRoot +:+ "neil-rogers-19990106.txt"]
        false [] (fun _ => false)
        (fun p => if String.eqb p (showsRoot +:+ "gone.txt") then None
                  else exampleFiles p)
        noFault.

(** No file under either root, no metadata CSV. *)
Definition emptyEnv : Env :=
  mkEnv [] false [] (fun _ => false) (fun _ => None) noFault.



(** The link table that holds exactly the given links, a later link
    replacing an earlier one of the same date. *)
Definition linkTable (links : list Link) : gmap string Link :=
  List.fold_left (fun m l => <[link_date l := l]> m) links ∅.

Definition withLinks (d : Db) (links : gmap string Link) : Db :=
  mkDb (transcripts_fts d) (transcripts_fts_trigram d) (shows d) links (metadata d).

(** The statements of the metadata transaction. *)
Definition syncStatements (links : list Link) : list (Db -> Db) :=
  deleteLinks :: map insertLink links.

(** A request with only the query parameter. *)
Definition queryOnly (query : string) : Request :=
  mkRequest (Some query) None (Num 0) None.

(** What a build leaves of the FTS5 tables and of [shows]: nothing. *)
Definition indexesEmpty (d : Db) : Prop :=
  transcripts_fts d = [] /\ transcripts_fts_trigram d = [] /\ shows d = ∅.

(** ** Vocabulary for the search *)



(** Some row of the table with the given file matches the clause. *)
Definition fileMatches (engine : Engine) (t : Table) (d : Db) (f clause : string) : Prop :=
  exists m other,
    compile engine t clause = Some m
    /\ In other (rowsOf t d) /\ file other = f /\ m other = true.

(** The row matches the expression. *)
Definition rowMatches (engine : Engine) (t : Table) (e : string) (row : Doc) : Prop :=
  exists m, compile engine t e = Some m /\ m row = true.


Definition isTrigram (x : Query) : bool :=
  match q_table x with Trigram => true | Porter => false end.

(** Whether a list of executed statements touched the trigram table. *)
Definition queriedTrigram (ran : list Query) : bool := existsb isTrigram ran.

(** The expanded query with which the handler goes to the index, when it
    gets that far. *)
Definition reaches (w : World) (query : string) : option string :=
  if isIndexed w && negb (Js.isEmpty (Js.trim query)) then
    match expandQuery query with
    | Return expandedQuery =>
        if Js.isEmpty
             (Js.trim (Js.sfilter
                         (fun c => negb ((Js.code c =? 34) || (Js.code c =? 40)
                                         || (Js.code c =? 41)))
                         expandedQuery))
        then None else Some expandedQuery
    | Throw _ => None
    end
  else None.


(** The statement [getSearchResults] gets to run: none when expanding a
    clause raised or the offset is not a number. *)
Definition statementOf (t : Table) (isAndSearch : bool) (query queryString : string)
    (off : Offset) : list Query :=
  match matchParams isAndSearch query queryString, off with
  | Return (finalMatchQuery, clauses), Num _ => [mkQuery t finalMatchQuery clauses]
  | _, _ => []
  end.

(** ** An example database *)

(** The example surroundings, indexed. *)
Definition exampleWorld : World :=
  snd (buildIndex (exampleEnv noFault) "/srv" "/data" (startWorld emptyDb)).

Definition resultsOf (r : Response) : list Enriched :=
  match r with
  | Results hits => hits
  | _ => []
  end.

(** One segment that says elian and 101 that say reliance, in both
    tables. *)
Definition paginationDocs : list Doc :=
  mkDoc "a.txt::0" "a.txt" 0 "1999-01-05" " elian" "show"
  :: map (fun n => mkDoc ("b.txt::" +:+ Js.ofNat n) "b.txt" n "1999-01-06"
                         " reliance" "show")
         (List.seq 0 101).

Definition paginationWorld : World :=
  mkWorld (mkDb paginationDocs paginationDocs ∅ ∅ ∅) true 0 0 [] 0 [].

Definition atOffset (query : string) (n : Z) : Request :=
  mkRequest (Some query) None (Num n) None.

(** ** Vocabulary for the further properties *)

(** One segment per line that, trimmed, starts with a timestamp, from line
    [j] on: the segment carries the line's index and, as text, the whole
    trimmed line. *)
Fixpoint bestOfFrom (relativePath date : string) (j : nat) (lines : list string)
    : list Doc :=
  match lines with
  | [] => []
  | raw :: rest =>
      if tsMatch (Js.trim raw) then
        mkDoc (relativePath +:+ "::" +:+ Js.ofNat j) relativePath j date
              (Js.trim raw) "best_of"
        :: bestOfFrom relativePath date (S j) rest
      else bestOfFrom relativePath date (S j) rest
  end.

(** Four digits, a hyphen, two digits, a hyphen, two digits. *)
Definition isIsoShaped (s : string) : bool :=
  (String.length s =? 10)%nat
  && Js.sall Js.isDigit (Js.take 4 s)
  && String.eqb (Js.take 1 (Js.drop 4 s)) "-"
  && Js.sall Js.isDigit (Js.take 2 (Js.drop 5 s))
  && String.eqb (Js.take 1 (Js.drop 7 s)) "-"
  && Js.sall Js.isDigit (Js.drop 8 s).




(** [req.query.type || "show"] *)
Definition typeValueOf (req : Request) : string :=
  match rtype req with
  | Some ty => orElse ty "show"
  | None => "show"
  end.


(** Two readings of one line: the same, or the first with a carriage
    return more at its end. *)
Definition sameLine (a b : string) : Prop :=
  a = b \/ a = b +:+ String Js.CR EmptyString.

(** The lines the search shows for a segment that starts at line [n]. *)
Definition window (n : nat) (content : string) : list string :=
  List.firstn 7 (List.skipn n (Js.splitLF content)).

Definition isSlash (c : ascii) : bool := Js.code c =? 47.

(** ** Writing the link file ([apply_updates.js]) *)

(** The [replace] of [stringifyLine]: every double quote (code 34) is
    written twice. *)
Fixpoint doubleQuotes (p : string) : string :=
  match p with
  | EmptyString => EmptyString
  | String c p' =>
      if Js.code c =? 34 then String c (String c (doubleQuotes p'))
      else String c (doubleQuotes p')
  end.

(** The callback of [parts.map] in [stringifyLine]. *)
Definition stringifyField (p : string) : string :=
  if Js.includes p "," || Js.includes p Js.quote
  then Js.quote +:+ doubleQuotes p +:+ Js.quote
  else p.

Definition stringifyLine (parts : list string) : string :=
  Js.join "," (map stringifyField parts).

(** ** What a file contributes to the index *)

(** The file as the build reads it. *)
Definition contentOf (env : Env) (f : FileInfo) : string :=
  match readFileSync env (path f) with
  | Some content => content
  | None => EmptyString
  end.

(** The segments and the [shows] row of one file taken on its own. *)
Definition segmentsOf (env : Env) (DATA_DIR : string) (f : FileInfo) : list Doc :=
  fst (ingest DATA_DIR f (contentOf env f) [] []).

Definition showRowsOf (env : Env) (DATA_DIR : string) (f : FileInfo) : list Show :=
  snd (ingest DATA_DIR f (contentOf env f) [] []).

(** [INSERT OR REPLACE INTO shows] for each row in turn. *)
Definition addShows (rows : list Show) (m : gmap string Show) : gmap string Show :=
  List.fold_left (fun m s => <[show_file s := s]> m) rows m.

Definition readable (env : Env) (f : FileInfo) : Prop :=
  readFileSync env (path f) <> None.

(** The FTS5 tables and [shows] hold what the given files contribute,
    and nothing else. *)
Definition holdsFiles (env : Env) (DATA_DIR : string) (files : list FileInfo) (d : Db)
    : Prop :=
  transcripts_fts d = flat_map (segmentsOf env DATA_DIR) files
  /\ transcripts_fts_trigram d = flat_map (segmentsOf env DATA_DIR) files
  /\ shows d = addShows (flat_map (showRowsOf env DATA_DIR) files) ∅.

(** ** The [/api/shows] handler *)

(** A result row of the listing SELECT. *)
Record Listed := mkListed {
  listed_show : Show;
  listed_youtube_url : option string;
  listed_host : option string;
  listed_custom_title : option string
}.

(** [ORDER BY s.date ASC]: dates compared code unit by code unit. *)
Definition dateLe (a b : Show) : bool :=
  match String.compare (show_date a) (show_date b) with
  | Gt => false
  | _ => true
  end.

Fixpoint insertSorted {A : Type} (le : A -> A -> bool) (x : A) (l : list A) : list A :=
  match l with
  | [] => [x]
  | y :: rest => if le x y then x :: l else y :: insertSorted le x rest
  end.

Definition sortBy {A : Type} (le : A -> A -> bool) (l : list A) : list A :=
  List.fold_right (insertSorted le) [] l.

(** The answer of the handler; the percentage sent with status 503 is
    left out. *)
Inductive ShowsResponse :=
  | ShowsIndexing
  | Listing (rows : list Listed).

Section Shows.

Context (engine : Engine).

(** [LEFT JOIN show_links l ON (s.date = l.date AND s.type = 'show')] *)
Definition linkFor (d : Db) (s : Show) : option Link :=
  if String.eqb (show_type s) "show" then show_links d !! show_date s else None.

(** The SELECT list with its two COALESCEs. *)
Definition listRow (d : Db) (s : Show) : Listed :=
  let l := linkFor d s in
  mkListed s
    (match l with
     | Some l => Some (link_youtube_url l)
     | None => show_youtube_url s
     end)
    (link_host <$> l)
    (match l with
     | Some l => Some (link_custom_title l)
     | None => show_custom_title s
     end).

(** [(s.date LIKE ? OR ...)] with the parameters [y%] *)
Definition showYearFilter (yearsParam : option string) (s : Show) : bool :=
  match yearsParam with
  | Some ys =>
      if Js.isEmpty ys then true
      else existsb (fun y => like engine (y +:+ "%") (show_date s)) (Js.splitComma ys)
  | None => true
  end.

Definition listedType (typeParam : option string) : string :=
  match typeParam with
  | Some ty => orElse ty "show"
  | None => "show"
  end.

Definition listShows (w : World) (yearsParam typeParam : option string) : ShowsResponse :=
  if negb (isIndexed w) then ShowsIndexing
  else
    let kept :=
      List.filter
        (fun s => String.eqb (show_type s) (listedType typeParam)
                  && showYearFilter yearsParam s)
        (map snd (map_to_list (shows (db w)))) in
    Listing (map (listRow (db w)) (sortBy dateLe kept)).

End Shows.

(** The path under which the build indexes a file. *)
Definition indexedPath (DATA_DIR : string) (f : FileInfo) : string :=
  match ftype f with
  | show => relative (TRANSCRIPTS_DIR DATA_DIR) (path f)
  | best_of => "best-of/" +:+ basename (path f)
  end.

Definition noColon (c : ascii) : bool := negb (Js.code c =? 58).

(** The indexed path of a file leads back to the file. *)
Definition wellPlaced (DATA_DIR : string) (f : FileInfo) : Prop :=
  getFullPath DATA_DIR (indexedPath DATA_DIR f) = path f.

(** ** The [/api/transcript] handler *)




(** * Properties *)

(** ** Strings *)

Lemma app_cons (c : ascii) (s t : string) : String c s +:+ t = String c (s +:+ t).
Proof. reflexivity. Qed.

Lemma app_nil_l (s : string) : EmptyString +:+ s = s.
Proof. reflexivity. Qed.

Lemma app_nil_r (s : string) : s +:+ EmptyString = s.
Proof.
  induction s as [|c s IH]; [reflexivity |]. now rewrite app_cons, IH.
Qed.

Lemma app_assoc (s t u : string) : (s +:+ t) +:+ u = s +:+ t +:+ u.
Proof.
  induction s as [|c s IH]; [reflexivity |]. now rewrite !app_cons, IH.
Qed.

Lemma length_app (s t : string) :
  String.length (s +:+ t) = (String.length s + String.length t)%nat.
Proof.
  induction s as [|c s IH]; [reflexivity |]. rewrite app_cons. simpl. now rewrite IH.
Qed.

Lemma code_inj (a b : ascii) : Js.code a = Js.code b -> a = b.
Proof.
  unfold Js.code. intros H.
  rewrite <- (ascii_N_embedding a), <- (ascii_N_embedding b). now rewrite H.
Qed.

Lemma code_eqb (a b : ascii) : (Js.code a =? Js.code b) = true <-> a = b.
Proof.
  rewrite N.eqb_eq. split; [apply code_inj | now intros ->].
Qed.

Lemma startsWith_app (p t : string) : Js.startsWith (p +:+ t) p = true.
Proof.
  induction p as [|c p IH]; [reflexivity |].
  rewrite app_cons. simpl. rewrite N.eqb_refl. exact IH.
Qed.

Lemma startsWith_inv (s p : string) :
  Js.startsWith s p = true -> s = p +:+ Js.drop (String.length p) s.
Proof.
  revert s. induction p as [|c p IH]; intros s H; [reflexivity |].
  destruct s as [|b s]; [discriminate |]. simpl in H.
  apply andb_true_iff in H as [Hc Hs].
  apply code_eqb in Hc as ->. rewrite app_cons. simpl. f_equal. now apply IH.
Qed.

Lemma startsWith_iff (s p : string) :
  Js.startsWith s p = true <-> exists t, s = p +:+ t.
Proof.
  split.
  - intros H. eexists. now apply startsWith_inv.
  - intros [t ->]. apply startsWith_app.
Qed.

Lemma take_app (s t : string) : Js.take (String.length s) (s +:+ t) = s.
Proof.
  induction s as [|c s IH]; [now destruct t |].
  rewrite app_cons. simpl. now rewrite IH.
Qed.

Lemma drop_app (s t : string) : Js.drop (String.length s) (s +:+ t) = t.
Proof.
  induction s as [|c s IH]; [reflexivity |]. rewrite app_cons. exact IH.
Qed.

Lemma take_drop (n : nat) (s : string) : Js.take n s +:+ Js.drop n s = s.
Proof.
  revert s. induction n as [|n IH]; intros [|c s]; try reflexivity.
  simpl. now rewrite app_cons, IH.
Qed.

Lemma digitsPrefix_iff (n : nat) (s d : string) :
  digitsPrefix n s = Some d <->
  exists t, s = d +:+ t /\ String.length d = n /\ Js.sall Js.isDigit d = true.
Proof.
  unfold digitsPrefix. split.
  - destruct (_ && _) eqn:E; [|discriminate]. intros [= <-].
    apply andb_true_iff in E as [Hlen Hdig]. apply Nat.eqb_eq in Hlen.
    exists (Js.drop n s). now rewrite take_drop.
  - intros (t & -> & <- & Hdig). rewrite take_app, Nat.eqb_refl, Hdig. reflexivity.
Qed.

Lemma app_inv_length (s1 s2 t1 t2 : string) :
  s1 +:+ t1 = s2 +:+ t2 -> String.length s1 = String.length s2 ->
  s1 = s2 /\ t1 = t2.
Proof.
  revert s2. induction s1 as [|a s1 IH]; intros [|b s2] H Hlen;
    try discriminate; [now split |].
  rewrite !app_cons in H. injection H as -> H. injection Hlen as Hlen.
  destruct (IH _ H Hlen) as [-> ->]. now split.
Qed.

(** ** Dates from file names *)

Lemma getDateFromFilename_match (filename d : string) :
  matchHostDate filename = Some d -> getDateFromFilename filename = isoDate d.
Proof. unfold getDateFromFilename. now intros ->. Qed.

Lemma hostDateAt_iff (s d : string) :
  hostDateAt s = Some d <-> hostDateOccurs EmptyString d s.
Proof.
  unfold hostDateAt, hostDateOccurs. split.
  - destruct (Js.startsWith s "rogers-") eqn:Hr;
      [| destruct (Js.startsWith s "lassiter-") eqn:Hl; [| discriminate]];
      intros H; apply digitsPrefix_iff in H as (t & Ht & Hlen & Hdig).
    + exists "rogers", t. apply startsWith_inv in Hr. rewrite Hr.
      change (String.length "rogers-") with 7%nat. rewrite Ht. auto.
    + exists "lassiter", t. apply startsWith_inv in Hl. rewrite Hl.
      change (String.length "lassiter-") with 9%nat. rewrite Ht. auto.
  - intros (host & post & [-> | ->] & -> & Hlen & Hdig).
    + change (Js.startsWith _ "rogers-") with true. cbv iota.
      apply digitsPrefix_iff. exists post. auto.
    + change (Js.startsWith _ "rogers-") with false.
      change (Js.startsWith _ "lassiter-") with true. cbv iota.
      apply digitsPrefix_iff. exists post. auto.
Qed.

Lemma hostDateOccurs_cons (c : ascii) (pre d s : string) :
  hostDateOccurs (String c pre) d (String c s) <-> hostDateOccurs pre d s.
Proof.
  unfold hostDateOccurs. split; intros (host & post & Hh & E & Hl & Hd);
    exists host, post; repeat split; auto.
  - rewrite app_cons in E. now injection E.
  - rewrite app_cons. now f_equal.
Qed.

Lemma hostDateOccurs_head (pre d s : string) :
  hostDateOccurs pre d s ->
  match pre, s with
  | EmptyString, _ => hostDateAt s = Some d
  | String c pre', String c' s' => c = c' /\ hostDateOccurs pre' d s'
  | String _ _, EmptyString => False
  end.
Proof.
  intros H. destruct pre as [|c pre'].
  - now apply hostDateAt_iff.
  - destruct H as (host & post & Hh & E & Hl & Hd). rewrite app_cons in E.
    destruct s as [|c' s']; [discriminate |]. injection E as -> E.
    split; [reflexivity |]. exists host, post. auto.
Qed.

Lemma matchHostDate_None (filename : string) :
  matchHostDate filename = None -> ~ hasHostDate filename.
Proof.
  induction filename as [|c s IH]; simpl; intros H (pre & d & Hocc);
    apply hostDateOccurs_head in Hocc.
  - destruct pre; [| contradiction]. vm_compute in Hocc. discriminate.
  - destruct (hostDateAt (String c s)) eqn:Hat; [discriminate |].
    destruct pre as [|c' pre']; [congruence |].
    destruct Hocc as [_ Hocc]. apply (IH H). now exists pre', d.
Qed.

Lemma matchHostDate_Some (filename d : string) :
  matchHostDate filename = Some d ->
  exists pre, hostDateOccurs pre d filename
    /\ forall pre' d', hostDateOccurs pre' d' filename ->
         (String.length pre <= String.length pre')%nat.
Proof.
  revert d. induction filename as [|c s IH]; simpl; intros d H.
  - discriminate.
  - destruct (hostDateAt (String c s)) eqn:Hat.
    + injection H as ->. exists EmptyString. split.
      * now apply hostDateAt_iff.
      * intros. simpl. lia.
    + destruct (IH _ H) as (pre & Hocc & Hleft). exists (String c pre). split.
      * now apply hostDateOccurs_cons.
      * intros pre' d' Hocc'. apply hostDateOccurs_head in Hocc'.
        destruct pre' as [|c' pre']; [congruence |].
        destruct Hocc' as [_ Hocc']. simpl. apply Hleft in Hocc'. lia.
Qed.

Lemma hostDateOccurs_unique (pre d d' filename : string) :
  hostDateOccurs pre d filename -> hostDateOccurs pre d' filename -> d = d'.
Proof.
  intros (h & p & Hh & E & Hl & _) (h' & p' & Hh' & E' & Hl' & _).
  rewrite E in E'. apply app_inv_length in E' as [_ E']; [| reflexivity].
  destruct Hh as [-> | ->], Hh' as [-> | ->];
    rewrite !app_cons, !app_nil_l in E'; try discriminate;
    injection E' as E'; apply app_inv_length in E' as [E' _]; congruence.
Qed.

Lemma matchHostDate_leftmost (pre d filename : string) :
  hostDateOccurs pre d filename ->
  (forall pre' d', hostDateOccurs pre' d' filename ->
     (String.length pre <= String.length pre')%nat) ->
  matchHostDate filename = Some d.
Proof.
  intros Hocc Hleft. destruct (matchHostDate filename) as [d0|] eqn:Hm.
  - apply matchHostDate_Some in Hm as (pre0 & Hocc0 & Hleft0). f_equal.
    assert (Hlen : String.length pre0 = String.length pre).
    { apply Hleft in Hocc0 as H1. apply Hleft0 in Hocc as H2. lia. }
    assert (pre0 = pre) as ->.
    { destruct Hocc as (h & p & _ & E & _), Hocc0 as (h0 & p0 & _ & E0 & _).
      rewrite E in E0. symmetry in E0. now apply app_inv_length in E0 as [? _]. }
    eapply hostDateOccurs_unique; eassumption.
  - exfalso. apply (matchHostDate_None _ Hm). now exists pre, d.
Qed.

Lemma startsWithYear_iff (y filename : string) :
  digitsPrefix 4 filename = Some y <-> startsWithYear y filename.
Proof. apply digitsPrefix_iff. Qed.

(** C7, as the code has it: a file name that holds a host token, a hyphen
    and eight digits gets the digits of the leftmost such place as
    YYYY-MM-DD; any other file name that begins with four digits gets that
    year with the day 12-31 (the best-of rule, applied whatever the kind of
    file); only the remaining file names get the unknown-date sentinel. *)
Theorem getDateFromFilename_cases (filename : string) :
  (forall pre d,
      hostDateOccurs pre d filename ->
      (forall pre' d', hostDateOccurs pre' d' filename ->
         (String.length pre <= String.length pre')%nat) ->
      getDateFromFilename filename = isoDate d)
  /\ (forall y,
        ~ hasHostDate filename -> startsWithYear y filename ->
        getDateFromFilename filename = y +:+ "-12-31")
  /\ (~ hasHostDate filename -> (forall y, ~ startsWithYear y filename) ->
      getDateFromFilename filename = unknownDate).
Proof.
  split; [| split].
  - intros pre d Hocc Hleft. apply getDateFromFilename_match.
    eapply matchHostDate_leftmost; eassumption.
  - intros y Hno Hy. unfold getDateFromFilename.
    destruct (matchHostDate filename) as [d|] eqn:Hm.
    + apply matchHostDate_Some in Hm as (pre & Hocc & _).
      exfalso. apply Hno. now exists pre, d.
    + apply startsWithYear_iff in Hy. now rewrite Hy.
  - intros Hno Hy. unfold getDateFromFilename.
    destruct (matchHostDate filename) as [d|] eqn:Hm.
    + apply matchHostDate_Some in Hm as (pre & Hocc & _).
      exfalso. apply Hno. now exists pre, d.
    + destruct (digitsPrefix 4 filename) as [y|] eqn:Hd; [| reflexivity].
      apply startsWithYear_iff in Hd. now apply Hy in Hd.
Qed.

(** C7 as stated fails: a show file named by its date alone has no host
    token, yet its date is not the sentinel (nor the date in its name). *)
Lemma getDateFromFilename_year_not_unknown :
  ~ hasHostDate "19990105.txt"
  /\ getDateFromFilename "19990105.txt" = "1999-12-31"
  /\ getDateFromFilename "19990105.txt" <> unknownDate.
Proof.
  split; [| split].
  - apply matchHostDate_None. vm_compute. reflexivity.
  - vm_compute. reflexivity.
  - vm_compute. discriminate.
Qed.

Lemma getDateFromFilename_cases_witness :
  getDateFromFilename "rogers-19990105.txt" = isoDate "19990105"
  /\ getDateFromFilename "1988.md" = "1988" +:+ "-12-31"
  /\ getDateFromFilename "notes.txt" = unknownDate.
Proof.
  split; [| split].
  - apply (proj1 (getDateFromFilename_cases "rogers-19990105.txt") EmptyString "19990105").
    + exists "rogers", ".txt". repeat split; auto.
    + intros pre' d' _. simpl. lia.
  - apply (proj1 (proj2 (getDateFromFilename_cases "1988.md")) "1988").
    + apply matchHostDate_None. vm_compute. reflexivity.
    + exists ".md". repeat split; auto.
  - apply (proj2 (proj2 (getDateFromFilename_cases "notes.txt"))).
    + apply matchHostDate_None. vm_compute. reflexivity.
    + intros y Hy. apply startsWithYear_iff in Hy. vm_compute in Hy. discriminate.
Defined.

(** ** The show-file parser *)

Lemma setText_same (d : Doc) : setText d (text_content d +:+ EmptyString) = d.
Proof. destruct d. unfold setText. simpl. now rewrite app_nil_r. Qed.

Lemma isMarker_nonblank (raw : string) :
  isBlankLine raw = true -> isMarkerLine raw = false.
Proof.
  unfold isBlankLine, isMarkerLine. destruct (Js.trim raw); [reflexivity | discriminate].
Qed.

(** What the loop leaves behind, whatever it started from: the segment
    that was open gets the dialogue up to the next marker, and every
    marker from there on opens a segment of its own. *)
Lemma showLoop_segments (relativePath date : string) (lines : list string) :
  forall (j : nat) (currentDoc : option Doc) (batch : list Doc),
    (let '(c, b) := showLoop relativePath date lines j (currentDoc, batch) in
     pushCurrent c b)
    = batch
      ++ match currentDoc with
         | Some d => [setText d (text_content d +:+ spacedLines (dialogue lines))]
         | None => []
         end
      ++ segmentsFrom spacedLines relativePath date j lines.
Proof.
  induction lines as [|raw rest IH]; intros j currentDoc batch.
  - simpl. destruct currentDoc as [d|]; simpl.
    + now rewrite setText_same.
    + now rewrite List.app_nil_r.
  - cbn [showLoop]. unfold showStep.
    cbn [dialogue segmentsFrom].
    destruct (isBlankLine raw) eqn:Hblank.
    + rewrite (isMarker_nonblank _ Hblank).
      unfold isBlankLine in Hblank. rewrite Hblank. apply IH.
    + unfold isBlankLine in Hblank. rewrite Hblank.
      fold (isMarkerLine raw). destruct (isMarkerLine raw) eqn:Hmark.
      * rewrite IH. cbn [spacedLines text_content setText].
        destruct currentDoc as [d|]; cbn [pushCurrent].
        -- rewrite setText_same, <- List.app_assoc. reflexivity.
        -- reflexivity.
      * destruct currentDoc as [d|].
        -- rewrite IH. cbn [spacedLines]. destruct d. unfold setText.
           cbn [text_content]. simpl. now rewrite !app_assoc.
        -- apply IH.
Qed.

(** C3, as the code has it: the show branch adds to the batch one segment
    per marker line, in source order, numbered by the marker's line index;
    its text is the trimmed non-blank lines between that marker and the
    next (or the end of the file), each preceded by one space; lines before
    the first marker go to no segment. *)
Theorem parseShow_segments (relativePath date : string) (lines : list string)
    (batch : list Doc) :
  parseShow relativePath date lines batch
  = batch ++ segmentsFrom spacedLines relativePath date 0 lines
  /\ length (segmentsFrom spacedLines relativePath date 0 lines)
     = length (List.filter isMarkerLine lines).
Proof.
  split.
  - unfold parseShow.
    pose proof (showLoop_segments relativePath date lines 0%nat None batch) as H.
    destruct (showLoop relativePath date lines 0%nat (None, batch)) as [c b].
    exact H.
  - generalize 0%nat. induction lines as [|raw rest IH]; intros j; simpl.
    + reflexivity.
    + destruct (isMarkerLine raw); simpl; now rewrite IH.
Qed.

(** C3 as stated fails: the text of a segment is not the plain
    concatenation of its dialogue lines. *)
Lemma parseShow_not_plain_concatenation :
  let lines := Js.splitLines
    ("[00:00:01 --> 00:00:05]" +:+ String Js.LF "hello" +:+ String Js.LF " world ") in
  List.filter isMarkerLine lines = ["[00:00:01 --> 00:00:05]"]
  /\ map text_content (segmentsFrom concatLines "f.txt" "d" 0 lines) = ["helloworld"]
  /\ map text_content (parseShow "f.txt" "d" lines []) = [" hello world"]
  /\ parseShow "f.txt" "d" lines [] <> segmentsFrom concatLines "f.txt" "d" 0 lines.
Proof.
  repeat split; try (vm_compute; reflexivity).
  intros H. apply (f_equal (map text_content)) in H. vm_compute in H. discriminate.
Qed.

(** ** The build *)

Section BuildFacts.

Context (env : Env) (DIRNAME DATA_DIR : string).

Lemma bind_unfold {A B : Type} (m : Build A) (f : A -> Build B) (w : World) :
  (m ≫= f) w = match m w with
               | (Return a, w') => f a w'
               | (Throw e, w') => (Throw e, w')
               end.
Proof. reflexivity. Qed.

Lemma sameRest_refl (w : World) : sameRest w w.
Proof. repeat split. Qed.

Lemma sameRest_trans (w1 w2 w3 : World) :
  sameRest w1 w2 -> sameRest w2 w3 -> sameRest w1 w3.
Proof. unfold sameRest. intuition congruence. Qed.

Lemma run_unfold (f : Db -> Db) (w : World) :
  run env f w = if fault env (executed w) then (Throw SqliteError, tick w)
                else (Return (), tick (withDb w (f (db w)))).
Proof. reflexivity. Qed.

Lemma runAll_cases (fs : list (Db -> Db)) (w : World) :
  sameRest w (snd (runAll env fs w))
  /\ ((fst (runAll env fs w) = Return () /\ db (snd (runAll env fs w)) = applyAll fs (db w))
      \/ fst (runAll env fs w) = Throw SqliteError).
Proof.
  revert w. induction fs as [|f fs IH]; intros w.
  - split; [apply sameRest_refl | left; split; reflexivity].
  - unfold runAll. cbn [forEach]. rewrite bind_unfold, run_unfold.
    destruct (fault env (executed w)) eqn:Hf; cbv beta iota.
    + split; [repeat split | right; reflexivity].
    + fold (runAll env fs). destruct (IH (tick (withDb w (f (db w))))) as [Hs Hc].
      split; [| exact Hc].
      eapply sameRest_trans; [| exact Hs]. repeat split.
Qed.

Lemma runAll_noFault (fs : list (Db -> Db)) (w : World) :
  (forall n, fault env n = false) -> fst (runAll env fs w) = Return ().
Proof.
  intros Hno. revert w. induction fs as [|f fs IH]; intros w; [reflexivity |].
  unfold runAll. cbn [forEach]. rewrite bind_unfold, run_unfold, Hno.
  cbv beta iota. apply IH.
Qed.

Lemma runAll_app (fs gs : list (Db -> Db)) (w : World) :
  runAll env (fs ++ gs) w = (runAll env fs ;; runAll env gs) w.
Proof.
  revert w. induction fs as [|f fs IH]; intros w.
  - reflexivity.
  - unfold runAll. cbn [forEach app]. rewrite !bind_unfold.
    destruct (run env f w) as [[[]|e] w1]; [| reflexivity].
    fold (runAll env (fs ++ gs)) (runAll env fs) (runAll env gs). rewrite IH. reflexivity.
Qed.

Lemma forEach_map {A : Type} (g : A -> Db -> Db) (xs : list A) (w : World) :
  forEach (fun x => run env (g x)) xs w = runAll env (map g xs) w.
Proof.
  revert w. induction xs as [|x xs IH]; intros w; [reflexivity |].
  unfold runAll. cbn [forEach map]. rewrite !bind_unfold.
  destruct (run env (g x) w) as [[[]|e] w1]; [apply IH | reflexivity].
Qed.

Lemma forEach_docs (docs : list Doc) (w : World) :
  forEach (fun doc => run env (insertPorter doc) ;; run env (insertTrigram doc)) docs w
  = runAll env (docStatements docs) w.
Proof.
  revert w. induction docs as [|doc docs IH]; intros w; [reflexivity |].
  unfold runAll. cbn [forEach docStatements flat_map app]. rewrite !bind_unfold.
  destruct (run env (insertPorter doc) w) as [[[]|e] w1]; [| reflexivity].
  rewrite !bind_unfold.
  destruct (run env (insertTrigram doc) w1) as [[[]|e] w2]; [apply IH | reflexivity].
Qed.

Lemma insertMany_runAll (docs : list Doc) (shows : list Show) (links : list Link)
    (w : World) :
  insertMany env docs shows links w
  = transaction (runAll env (manyStatements docs shows links)) w.
Proof.
  unfold insertMany, transaction, manyStatements.
  rewrite !runAll_app, !bind_unfold, forEach_docs.
  destruct (runAll env (docStatements docs) w) as [[[]|e] w1]; [| reflexivity].
  rewrite runAll_app, !bind_unfold, forEach_map.
  destruct (runAll env (map insertShow shows) w1) as [[[]|e] w2]; [| reflexivity].
  rewrite forEach_map. reflexivity.
Qed.

(** A transaction of statements either commits them all or leaves the
    tables as they were. *)
Lemma transaction_runAll_cases (fs : list (Db -> Db)) (w : World) :
  sameRest w (snd (transaction (runAll env fs) w))
  /\ ((fst (transaction (runAll env fs) w) = Return ()
       /\ db (snd (transaction (runAll env fs) w)) = applyAll fs (db w))
      \/ (fst (transaction (runAll env fs) w) = Throw SqliteError
          /\ db (snd (transaction (runAll env fs) w)) = db w)).
Proof.
  unfold transaction. destruct (runAll_cases fs w) as [Hs Hc].
  destruct (runAll env fs w) as [[[]|e] w1]; simpl in *.
  - split; [exact Hs |]. left. destruct Hc as [[_ Hd] | Hc]; [auto | discriminate].
  - split; [exact Hs |]. right. destruct Hc as [[Hc _] | Hc]; [discriminate |].
    split; [exact Hc | reflexivity].
Qed.

End BuildFacts.

(** ** The two FTS5 tables move together *)

Lemma applyAll_app (fs gs : list (Db -> Db)) (d : Db) :
  applyAll (fs ++ gs) d = applyAll gs (applyAll fs d).
Proof. apply List.fold_left_app. Qed.

Lemma applyAll_docs (docs : list Doc) (d : Db) :
  applyAll (docStatements docs) d
  = mkDb (transcripts_fts d ++ docs) (transcripts_fts_trigram d ++ docs)
         (shows d) (show_links d) (metadata d).
Proof.
  revert d. induction docs as [|doc docs IH]; intros d.
  - destruct d. simpl. now rewrite !List.app_nil_r.
  - change (applyAll (docStatements (doc :: docs)) d)
      with (applyAll (docStatements docs) (insertTrigram doc (insertPorter doc d))).
    rewrite IH. simpl. now rewrite <- !List.app_assoc.
Qed.

Lemma applyAll_keepsFts (fs : list (Db -> Db)) :
  Forall keepsFts fs -> keepsFts (applyAll fs).
Proof.
  induction 1 as [|f fs Hf _ IH]; intros d; [now split |].
  change (applyAll (f :: fs) d) with (applyAll fs (f d)).
  destruct (IH (f d)) as [-> ->]. apply Hf.
Qed.

Lemma keepsFts_lockstep (f : Db -> Db) (d : Db) :
  keepsFts f -> lockstep d -> lockstep (f d).
Proof. unfold lockstep. intros Hf H. destruct (Hf d) as [-> ->]. exact H. Qed.

Lemma keepsFts_insertShow (s : Show) : keepsFts (insertShow s).
Proof. intros d. now split. Qed.

Lemma keepsFts_insertLink (l : Link) : keepsFts (insertLink l).
Proof. intros d. now split. Qed.

Lemma keepsFts_deleteLinks : keepsFts deleteLinks.
Proof. intros d. now split. Qed.

Lemma keepsFts_setMetadata (k v : string) : keepsFts (setMetadata k v).
Proof. intros d. now split. Qed.

Lemma Forall_map_keepsFts {A : Type} (g : A -> Db -> Db) (xs : list A) :
  (forall x, keepsFts (g x)) -> Forall keepsFts (map g xs).
Proof. intros H. induction xs; constructor; auto. Qed.

Lemma lockstep_many (docs : list Doc) (shows : list Show) (links : list Link) (d : Db) :
  lockstep d -> lockstep (applyAll (manyStatements docs shows links) d).
Proof.
  intros H. unfold manyStatements. rewrite applyAll_app.
  apply keepsFts_lockstep.
  - apply applyAll_keepsFts. apply Forall_app. split.
    + apply Forall_map_keepsFts, keepsFts_insertShow.
    + apply Forall_map_keepsFts, keepsFts_insertLink.
  - rewrite applyAll_docs. unfold lockstep in *. simpl. now rewrite H.
Qed.

Section Lockstep.

Context (env : Env) (DIRNAME DATA_DIR : string) (base : list Db).

Lemma Inv_sameRest (w w' : World) :
  sameRest w w' -> lockstep (db w') -> Inv base w -> Inv base w'.
Proof.
  intros (_ & _ & _ & _ & Hy) Hl [_ (new & Hn & Hall)].
  split; [exact Hl |]. exists new. now rewrite Hy.
Qed.

Lemma preserves_ret {A : Type} (a : A) : Preserves (Inv base) (mret a).
Proof. intros w H. exact H. Qed.

Lemma preserves_bind {A B : Type} (m : Build A) (f : A -> Build B) :
  Preserves (Inv base) m -> (forall a, Preserves (Inv base) (f a)) ->
  Preserves (Inv base) (m ≫= f).
Proof.
  intros Hm Hf w H. rewrite bind_unfold. specialize (Hm w H).
  destruct (m w) as [[a|e] w1]; simpl in *; [now apply Hf | exact Hm].
Qed.

Lemma preserves_log (e : LogEvent) : Preserves (Inv base) (log e).
Proof. intros w H. exact H. Qed.

Lemma preserves_setCurrent (n : nat) : Preserves (Inv base) (setCurrent n).
Proof. intros w H. exact H. Qed.

Lemma preserves_setTotal (n : nat) : Preserves (Inv base) (setTotal n).
Proof. intros w H. exact H. Qed.

Lemma preserves_setIsIndexed (b : bool) : Preserves (Inv base) (setIsIndexed b).
Proof. intros w H. exact H. Qed.

Lemma preserves_readFile (p : string) : Preserves (Inv base) (readFile env p).
Proof.
  intros w H. unfold readFile. now destruct (readFileSync env p).
Qed.

Lemma preserves_yield : Preserves (Inv base) yield.
Proof.
  intros w [Hl (new & Hn & Hall)]. split; [exact Hl |].
  exists (new ++ [db w]). simpl. rewrite Hn, <- List.app_assoc. split; [reflexivity |].
  apply Forall_app. split; [exact Hall | now constructor].
Qed.

Lemma preserves_run (f : Db -> Db) :
  keepsFts f -> Preserves (Inv base) (run env f).
Proof.
  intros Hf w H. rewrite run_unfold.
  destruct (fault env (executed w)); simpl.
  - exact H.
  - eapply Inv_sameRest; [| | exact H]; [repeat split |].
    simpl. apply keepsFts_lockstep; [exact Hf | apply H].
Qed.

Lemma preserves_transaction (fs : list (Db -> Db)) :
  (forall d, lockstep d -> lockstep (applyAll fs d)) ->
  Preserves (Inv base) (transaction (runAll env fs)).
Proof.
  intros Hfs w H. destruct (transaction_runAll_cases env fs w) as [Hs Hc].
  eapply Inv_sameRest; [exact Hs | | exact H].
  destruct Hc as [[_ ->] | [_ ->]]; [apply Hfs |]; apply H.
Qed.

Lemma preserves_insertMany (docs : list Doc) (shows : list Show) (links : list Link) :
  Preserves (Inv base) (insertMany env docs shows links).
Proof.
  intros w H. rewrite insertMany_runAll.
  apply preserves_transaction; [| exact H]. intros d. apply lockstep_many.
Qed.

Lemma preserves_fileLoop (files : list FileInfo) :
  forall i total batch showsBatch,
    Preserves (Inv base) (fileLoop env DATA_DIR files i total batch showsBatch).
Proof.
  induction files as [|fileInfo rest IH]; intros i total batch showsBatch.
  - apply preserves_ret.
  - cbn [fileLoop].
    apply preserves_bind; [apply preserves_setCurrent | intros _].
    apply preserves_bind;
      [destruct (i mod 50 =? 0)%nat; [apply preserves_yield | apply preserves_ret]
      | intros _].
    apply preserves_bind; [apply preserves_readFile | intros content].
    destruct (ingest DATA_DIR fileInfo content batch showsBatch) as [batch1 shows1].
    destruct (50 <=? length shows1)%nat.
    + apply preserves_bind; [apply preserves_insertMany | intros _].
      apply preserves_bind; [apply preserves_log | intros _]. apply IH.
    + apply IH.
Qed.

Lemma preserves_syncLinks : Preserves (Inv base) (syncLinks env DIRNAME).
Proof.
  unfold syncLinks. destruct (existsSync env (csvFile DIRNAME)); [| apply preserves_ret].
  apply preserves_bind; [apply preserves_log | intros _].
  apply preserves_bind; [apply preserves_readFile | intros csvData].
  apply preserves_bind; [| intros _; apply preserves_log].
  intros w H.
  assert (E : forall w0,
    (run env deleteLinks ;;
     forEach (fun link => run env (insertLink link)) (csvLinks csvData)) w0
    = runAll env (deleteLinks :: map insertLink (csvLinks csvData)) w0).
  { intros w0. unfold runAll. cbn [forEach]. rewrite !bind_unfold.
    destruct (run env deleteLinks w0) as [[[]|e] w1]; [apply forEach_map | reflexivity]. }
  unfold transaction. rewrite E.
  apply (preserves_transaction (deleteLinks :: map insertLink (csvLinks csvData)));
    [| exact H].
  intros d Hd. apply keepsFts_lockstep; [| exact Hd].
  apply applyAll_keepsFts. constructor; [apply keepsFts_deleteLinks |].
  apply Forall_map_keepsFts, keepsFts_insertLink.
Qed.

End Lockstep.

(** C6: whatever the file system holds and whichever statements the
    database refuses, the two FTS5 tables hold the same rows at every
    point where the build can be observed: at each yield and when it has
    ended, whether it completed or was cut short.  A segment reaches both
    tables in one [insertMany] transaction or neither. *)
Theorem build_lockstep (env : Env) (DIRNAME DATA_DIR : string) (w : World) :
  isIndexed w = false \/ lockstep (db w) ->
  Forall lockstep (observed w (snd (buildIndex env DIRNAME DATA_DIR w))).
Proof.
  intros Hstart.
  assert (H : Inv (yields w) (snd (buildIndex env DIRNAME DATA_DIR w))).
  { unfold buildIndex. destruct (isIndexed w) eqn:Hidx.
    - destruct Hstart as [Hstart | Hstart]; [discriminate |].
      split; [exact Hstart |]. exists []. simpl. now rewrite List.app_nil_r.
    - match goal with
      | |- Inv _ (snd ((log LogStarting ;; exec resetTables ;; ?rest) w)) =>
          change (Inv (yields w)
                    (snd (rest (withDb (snd (log LogStarting w))
                                       (resetTables (db (snd (log LogStarting w))))))));
          assert (Hrest : Preserves (Inv (yields w)) rest)
      end.
      + apply preserves_bind; [apply preserves_yield | intros _].
        apply preserves_bind;
          [destruct (bestOfDirExists env);
             [apply preserves_yield | apply preserves_ret]
          | intros _].
        apply preserves_bind;
          [destruct (length (allFiles env) =? 0)%nat;
             [apply preserves_log | apply preserves_ret]
          | intros _].
        apply preserves_bind; [apply preserves_log | intros _].
        apply preserves_bind; [apply preserves_setTotal | intros _].
        apply preserves_bind; [apply preserves_fileLoop | intros [batch showsBatch]].
        apply preserves_bind;
          [destruct (_ || _); [apply preserves_insertMany | apply preserves_ret]
          | intros _].
        apply preserves_bind; [apply preserves_syncLinks | intros _].
        apply preserves_bind;
          [apply preserves_run, keepsFts_setMetadata | intros _].
        apply preserves_bind; [apply preserves_setIsIndexed | intros _].
        apply preserves_log.
      + apply Hrest. split; [reflexivity |].
        exists []. simpl. now rewrite List.app_nil_r. }
  destruct H as [Hl (new & Hn & Hall)]. unfold observed. rewrite Hn.
  rewrite List.skipn_app, List.skipn_all, Nat.sub_diag. simpl.
  apply Forall_app. split; [exact Hall | now constructor].
Qed.

Lemma build_lockstep_witness :
  Forall lockstep
    (observed (startWorld emptyDb)
       (snd (buildIndex (exampleEnv (fun n => (n =? 5)%nat)) "/srv" "/data"
                        (startWorld emptyDb)))).
Proof. apply build_lockstep. left. reflexivity. Defined.

(** ** A file that cannot be read *)

Section Stable.

Context (env : Env) (DIRNAME DATA_DIR : string).
Context (P : World -> Prop) (Hquiet : Quiet P) (Hins : SurvivesInserts P).

Lemma stable_insertMany (docs : list Doc) (shows : list Show) :
  Preserves P (insertMany env docs shows []).
Proof.
  intros w H. rewrite insertMany_runAll.
  destruct (transaction_runAll_cases env (manyStatements docs shows []) w)
    as [(Hi & _) [[_ Hd] | [_ Hd]]].
  - eapply Hins; eassumption.
  - eapply Hquiet; eassumption.
Qed.

Lemma stable_bind {A B : Type} (m : Build A) (f : A -> Build B) :
  Preserves P m -> (forall a, Preserves P (f a)) -> Preserves P (m ≫= f).
Proof.
  intros Hm Hf w H. rewrite bind_unfold. specialize (Hm w H).
  destruct (m w) as [[a|e] w1]; simpl in *; [now apply Hf | exact Hm].
Qed.

Lemma stable_quiet {A : Type} (m : Build A) :
  (forall w, db (snd (m w)) = db w /\ isIndexed (snd (m w)) = isIndexed w) ->
  Preserves P m.
Proof. intros Hm w H. destruct (Hm w). eapply Hquiet; eassumption. Qed.

Lemma stable_readFile (p : string) : Preserves P (readFile env p).
Proof.
  apply stable_quiet. intros w. unfold readFile.
  now destruct (readFileSync env p).
Qed.

Lemma stable_fileLoop (files : list FileInfo) :
  forall i total batch showsBatch,
    Preserves P (fileLoop env DATA_DIR files i total batch showsBatch).
Proof.
  induction files as [|fileInfo rest IH]; intros i total batch showsBatch.
  - intros w H. exact H.
  - cbn [fileLoop].
    apply stable_bind; [apply stable_quiet; now split | intros _].
    apply stable_bind;
      [destruct (i mod 50 =? 0)%nat; apply stable_quiet; now split | intros _].
    apply stable_bind; [apply stable_readFile | intros content].
    destruct (ingest DATA_DIR fileInfo content batch showsBatch) as [batch1 shows1].
    destruct (50 <=? length shows1)%nat.
    + apply stable_bind; [apply stable_insertMany | intros _].
      apply stable_bind; [apply stable_quiet; now split | intros _]. apply IH.
    + apply IH.
Qed.

End Stable.

Lemma applyAll_keepsSide (fs : list (Db -> Db)) :
  Forall keepsSide fs -> keepsSide (applyAll fs).
Proof.
  induction 1 as [|f fs Hf _ IH]; intros d; [now split |].
  change (applyAll (f :: fs) d) with (applyAll fs (f d)).
  destruct (IH (f d)) as [-> ->]. apply Hf.
Qed.

Lemma keepsSide_many (docs : list Doc) (shows : list Show) :
  keepsSide (applyAll (manyStatements docs shows [])).
Proof.
  apply applyAll_keepsSide. unfold manyStatements, docStatements.
  rewrite List.app_nil_r. apply Forall_app. split.
  - apply Forall_flat_map. apply Forall_forall. intros doc _.
    repeat constructor.
  - apply Forall_map. apply Forall_forall. intros s _. now split.
Qed.

Lemma notCompleted_quiet (w0 : World) : Quiet (notCompleted w0).
Proof. intros w w' Hd Hi. unfold notCompleted. now rewrite Hd, Hi. Qed.

Lemma notCompleted_survives (w0 : World) : SurvivesInserts (notCompleted w0).
Proof.
  intros w w' docs shows Hd Hi (H1 & H2 & H3). unfold notCompleted.
  destruct (keepsSide_many docs shows (db w)) as [Hm Hl].
  rewrite Hd, Hi, Hm, Hl. auto.
Qed.

Section Abort.

Context (env : Env) (DIRNAME DATA_DIR : string).

Lemma prelude_returns (w : World) : fst (prelude env w) = Return ().
Proof.
  unfold prelude.
  destruct (length (allFiles env) =? 0)%nat, (bestOfDirExists env); reflexivity.
Qed.

Lemma buildIndex_unfold (w : World) :
  isIndexed w = false ->
  buildIndex env DIRNAME DATA_DIR w
  = (fileLoop env DATA_DIR (allFiles env) 0 (length (allFiles env)) [] []
       ≫= finish env DIRNAME) (loopStart env w).
Proof.
  intros H. unfold buildIndex, loopStart, prelude, finish. rewrite H.
  destruct (length (allFiles env) =? 0)%nat, (bestOfDirExists env); reflexivity.
Qed.

Lemma loopStart_notCompleted (w : World) :
  isIndexed w = false -> notCompleted w (loopStart env w).
Proof.
  intros H. unfold loopStart, prelude, notCompleted.
  destruct (length (allFiles env) =? 0)%nat, (bestOfDirExists env); simpl; auto.
Qed.

Lemma fileLoop_app (before rest : list FileInfo) :
  forall i total batch showsBatch w,
    fileLoop env DATA_DIR (before ++ rest) i total batch showsBatch w
    = match fileLoop env DATA_DIR before i total batch showsBatch w with
      | (Return (batch', shows'), w') =>
          fileLoop env DATA_DIR rest (i + length before) total batch' shows' w'
      | (Throw e, w') => (Throw e, w')
      end.
Proof.
  induction before as [|f before IH]; intros i total batch showsBatch w.
  - simpl. now rewrite Nat.add_0_r.
  - cbn [fileLoop app length]. rewrite !bind_unfold.
    destruct (setCurrent (S i) w) as [[[]|e] w1]; [| reflexivity].
    rewrite !bind_unfold.
    destruct ((if (i mod 50 =? 0)%nat then yield else mret ()) w1)
      as [[[]|e] w2]; [| reflexivity].
    rewrite !bind_unfold.
    destruct (readFile env (path f) w2) as [[content|e] w3]; [| reflexivity].
    destruct (ingest DATA_DIR f content batch showsBatch) as [batch1 shows1].
    replace (i + S (length before))%nat with (S i + length before)%nat by lia.
    destruct (50 <=? length shows1)%nat.
    + rewrite !bind_unfold.
      destruct (insertMany env batch1 shows1 [] w3) as [[[]|e] w4]; [| reflexivity].
      rewrite !bind_unfold.
      destruct (log (LogIndexed (S i) total) w4) as [[[]|e] w5]; [| reflexivity].
      apply IH.
    + apply IH.
Qed.

Lemma insertMany_noFault (docs : list Doc) (shows : list Show) (links : list Link)
    (w : World) :
  (forall n, fault env n = false) ->
  fst (insertMany env docs shows links w) = Return ().
Proof.
  intros Hno. rewrite insertMany_runAll. unfold transaction.
  pose proof (runAll_noFault env (manyStatements docs shows links) w Hno) as H.
  destruct (runAll env (manyStatements docs shows links) w) as [[[]|e] w1];
    [reflexivity | discriminate].
Qed.

(** With no statement refused, the loop gets through files that can all
    be read. *)
Lemma fileLoop_returns (files : list FileInfo) :
  (forall n, fault env n = false) ->
  Forall (fun f => readFileSync env (path f) <> None) files ->
  forall i total batch showsBatch w,
    exists pending, fst (fileLoop env DATA_DIR files i total batch showsBatch w)
                    = Return pending.
Proof.
  intros Hno Hread. induction Hread as [|f files Hf _ IH];
    intros i total batch showsBatch w.
  - now exists (batch, showsBatch).
  - cbn [fileLoop]. rewrite !bind_unfold.
    destruct (setCurrent (S i) w) as [[[]|e] w1] eqn:E1; [| discriminate].
    rewrite !bind_unfold.
    destruct ((if (i mod 50 =? 0)%nat then yield else mret ()) w1)
      as [[[]|e] w2] eqn:E2; [| destruct (i mod 50 =? 0)%nat; discriminate].
    rewrite !bind_unfold. unfold readFile at 1.
    destruct (readFileSync env (path f)) as [content|]; [| contradiction].
    destruct (ingest DATA_DIR f content batch showsBatch) as [batch1 shows1].
    destruct (50 <=? length shows1)%nat.
    + rewrite !bind_unfold.
      pose proof (insertMany_noFault batch1 shows1 [] w2 Hno) as Hi.
      destruct (insertMany env batch1 shows1 [] w2) as [[[]|e] w4];
        [| discriminate].
      rewrite !bind_unfold.
      destruct (log (LogIndexed (S i) total) w4) as [[[]|e] w5] eqn:E5;
        [| discriminate].
      apply IH.
    + apply IH.
Qed.

(** The loop at a file that cannot be read. *)
Lemma fileLoop_unreadable (f : FileInfo) (rest : list FileInfo) :
  readFileSync env (path f) = None ->
  forall i total batch showsBatch w,
    fst (fileLoop env DATA_DIR (f :: rest) i total batch showsBatch w)
    = Throw (ReadError (path f))
    /\ db (snd (fileLoop env DATA_DIR (f :: rest) i total batch showsBatch w)) = db w
    /\ isIndexed (snd (fileLoop env DATA_DIR (f :: rest) i total batch showsBatch w))
       = isIndexed w
    /\ progress_current
         (snd (fileLoop env DATA_DIR (f :: rest) i total batch showsBatch w)) = S i.
Proof.
  intros Hf i total batch showsBatch w.
  assert (E : fileLoop env DATA_DIR (f :: rest) i total batch showsBatch w
              = (Throw (ReadError (path f)),
                 snd ((if (i mod 50 =? 0)%nat then yield else mret ())
                        (snd (setCurrent (S i) w))))).
  { cbn [fileLoop]. cbv [mbind build_bind setCurrent yield readFile mret build_ret].
    rewrite Hf. now destruct (i mod 50 =? 0)%nat. }
  rewrite E. destruct (i mod 50 =? 0)%nat; repeat split.
Qed.

End Abort.

(** C5, as the code has it: nothing in [buildIndex] catches a read
    failure.  When every statement is accepted and the files before [f]
    can be read but [f] cannot, the build ends at [f] with the read error.
    The tables are left as the loop had them after the files before [f]:
    the rows gathered since the last committed batch are not inserted and
    no later file is ingested.  The link table is not rebuilt, the version
    marker is not written and [isIndexed] stays false. *)
Theorem unreadable_file_aborts (env : Env) (DIRNAME DATA_DIR : string) (w : World)
    (before after : list FileInfo) (f : FileInfo) :
  isIndexed w = false ->
  allFiles env = before ++ f :: after ->
  (forall n, fault env n = false) ->
  Forall (fun g => readFileSync env (path g) <> None) before ->
  readFileSync env (path f) = None ->
  exists pending w1,
    fileLoop env DATA_DIR before 0 (length (allFiles env)) [] [] (loopStart env w)
    = (Return pending, w1)
    /\ fst (buildIndex env DIRNAME DATA_DIR w) = Throw (ReadError (path f))
    /\ db (snd (buildIndex env DIRNAME DATA_DIR w)) = db w1
    /\ progress_current (snd (buildIndex env DIRNAME DATA_DIR w)) = S (length before)
    /\ notCompleted w (snd (buildIndex env DIRNAME DATA_DIR w)).
Proof.
  intros Hidx Hfiles Hno Hread Hf.
  remember (length (allFiles env)) as total eqn:Htotal.
  destruct (fileLoop_returns env DATA_DIR before Hno Hread 0%nat
              total [] [] (loopStart env w)) as [pending Hret].
  destruct (fileLoop env DATA_DIR before 0 total [] [] (loopStart env w))
    as [r w1] eqn:Hloop.
  simpl in Hret. subst r. exists pending, w1. split; [reflexivity |].
  assert (Hw1 : notCompleted w w1).
  { pose proof (stable_fileLoop env DATA_DIR (notCompleted w)
                  (notCompleted_quiet w) (notCompleted_survives w) before
                  0%nat total [] [] (loopStart env w)
                  (loopStart_notCompleted env w Hidx)) as H.
    now rewrite Hloop in H. }
  destruct pending as [batch' shows'].
  destruct (fileLoop_unreadable env DATA_DIR f after Hf (0 + length before)%nat
              total batch' shows' w1) as (Hr & Hd & Hi & Hp).
  assert (E : buildIndex env DIRNAME DATA_DIR w
              = (Throw (ReadError (path f)),
                 snd (fileLoop env DATA_DIR (f :: after) (0 + length before)
                        total batch' shows' w1))).
  { rewrite (buildIndex_unfold env DIRNAME DATA_DIR w Hidx), bind_unfold.
    rewrite <- Htotal, Hfiles, fileLoop_app, Hloop.
    destruct (fileLoop env DATA_DIR (f :: after) (0 + length before)
                total batch' shows' w1) as [r w2].
    simpl in Hr. now subst r. }
  rewrite E. cbn [fst snd].
  split; [reflexivity |]. split; [exact Hd |]. split; [exact Hp |].
  eapply notCompleted_quiet; eassumption.
Qed.

(** C5 as stated fails: the build does not skip the file and go on.  Here
    the second of three files cannot be read; the build ends there with
    the error, the segments of the first file were still pending and are
    lost, the third file is never read, and the build is not marked
    complete. *)
Lemma unreadable_file_stops_build :
  let r := buildIndex unreadableEnv "/srv" "/data" (startWorld emptyDb) in
  fst r = Throw (ReadError (showsRoot +:+ "gone.txt"))
  /\ transcripts_fts (db (snd r)) = []
  /\ size (shows (db (snd r))) = 0%nat
  /\ progress_current (snd r) = 2%nat
  /\ isIndexed (snd r) = false
  /\ metadata (db (snd r)) !! versionKey = None.
Proof. vm_compute. repeat split. Qed.

Lemma unreadable_file_aborts_witness :
  fst (buildIndex unreadableEnv "/srv" "/data" (startWorld emptyDb))
  = Throw (ReadError (showsRoot +:+ "gone.txt"))
  /\ notCompleted (startWorld emptyDb)
       (snd (buildIndex unreadableEnv "/srv" "/data" (startWorld emptyDb))).
Proof.
  destruct (unreadable_file_aborts unreadableEnv "/srv" "/data" (startWorld emptyDb)
              [mkFileInfo (showsRoot +:+ "1999/neil-rogers-19990105.txt") show]
              [mkFileInfo (showsRoot +:+ "neil-rogers-19990106.txt") show]
              (mkFileInfo (showsRoot +:+ "gone.txt") show))
    as (pending & w1 & _ & Hr & _ & _ & Hn).
  - reflexivity.
  - reflexivity.
  - reflexivity.
  - repeat constructor. vm_compute. discriminate.
  - reflexivity.
  - split; assumption.
Defined.

(** ** The metadata pass *)









Lemma applyAll_insertLinks (links : list Link) (d : Db) :
  applyAll (map insertLink links) d
  = withLinks d (List.fold_left (fun m l => <[link_date l := l]> m) links (show_links d)).
Proof.
  revert d. induction links as [|l links IH]; intros d.
  - now destruct d.
  - change (applyAll (map insertLink (l :: links)) d)
      with (applyAll (map insertLink links) (insertLink l d)).
    now rewrite IH.
Qed.

Lemma applyAll_sync (links : list Link) (d : Db) :
  applyAll (syncStatements links) d = withLinks d (linkTable links).
Proof.
  unfold syncStatements.
  change (applyAll (deleteLinks :: map insertLink links) d)
    with (applyAll (map insertLink links) (deleteLinks d)).
  now rewrite applyAll_insertLinks.
Qed.

Section Sync.

Context (env : Env) (DIRNAME : string).

Lemma syncBody_runAll (links : list Link) (w : World) :
  (run env deleteLinks ;; forEach (fun link => run env (insertLink link)) links) w
  = runAll env (syncStatements links) w.
Proof.
  unfold runAll, syncStatements. cbn [forEach]. rewrite !bind_unfold.
  destruct (run env deleteLinks w) as [[[]|e] w1]; [apply forEach_map | reflexivity].
Qed.

Lemma syncLinks_unfold (csvData : string) (w : World) :
  existsSync env (csvFile DIRNAME) = true ->
  readFileSync env (csvFile DIRNAME) = Some csvData ->
  syncLinks env DIRNAME w
  = (transaction (runAll env (syncStatements (csvLinks csvData))) ;;
     log (LogSynced (length (csvLinks csvData)))) (snd (log LogSyncing w)).
Proof.
  intros He Hr. unfold syncLinks. rewrite He.
  rewrite bind_unfold.
  change (log LogSyncing w) with (@Return unit (), snd (log LogSyncing w)).
  cbv iota beta. rewrite bind_unfold. unfold readFile at 1. rewrite Hr.
  cbv iota beta. rewrite !bind_unfold.
  unfold transaction. now rewrite syncBody_runAll.
Qed.

(** The outcome of the metadata transaction: committed with the link
    table replaced, or refused with every table as before. *)
Lemma syncLinks_outcome (csvData : string) (w : World) :
  existsSync env (csvFile DIRNAME) = true ->
  readFileSync env (csvFile DIRNAME) = Some csvData ->
  (fst (syncLinks env DIRNAME w) = Return ()
   /\ db (snd (syncLinks env DIRNAME w))
      = withLinks (db w) (linkTable (csvLinks csvData)))
  \/ (fst (syncLinks env DIRNAME w) = Throw SqliteError
      /\ db (snd (syncLinks env DIRNAME w)) = db w).
Proof.
  intros He Hr. rewrite (syncLinks_unfold csvData w He Hr), bind_unfold.
  destruct (transaction_runAll_cases env (syncStatements (csvLinks csvData))
              (snd (log LogSyncing w))) as [_ Hc].
  destruct (transaction (runAll env (syncStatements (csvLinks csvData)))
              (snd (log LogSyncing w))) as [[[]|e] w1]; cbn [fst snd] in *.
  - left. destruct Hc as [[_ Hd] | [Hc _]]; [| discriminate].
    split; [reflexivity |].
    change (db (snd (log (LogSynced (length (csvLinks csvData))) w1))) with (db w1).
    rewrite Hd. apply applyAll_sync.
  - right. destruct Hc as [[Hc _] | [Hc Hd]]; [discriminate |]. now split.
Qed.

Lemma syncLinks_commits (csvData : string) (w : World) :
  existsSync env (csvFile DIRNAME) = true ->
  readFileSync env (csvFile DIRNAME) = Some csvData ->
  (forall n, fault env n = false) ->
  fst (syncLinks env DIRNAME w) = Return ().
Proof.
  intros He Hr Hno. rewrite (syncLinks_unfold csvData w He Hr), bind_unfold.
  unfold transaction.
  pose proof (runAll_noFault env (syncStatements (csvLinks csvData))
                (snd (log LogSyncing w)) Hno) as H.
  destruct (runAll env (syncStatements (csvLinks csvData)) (snd (log LogSyncing w)))
    as [[[]|e] w1]; [reflexivity | discriminate].
Qed.

End Sync.



(** ** A build that finds no file *)

Section NoSources.

Context (env : Env) (DIRNAME DATA_DIR : string).

(** Whatever happens in the metadata pass, it leaves the FTS5 tables,
    [shows], the version marker and [isIndexed] alone and only adds to the
    console. *)
Lemma syncLinks_world (w : World) :
  let w' := snd (syncLinks env DIRNAME w) in
  transcripts_fts (db w') = transcripts_fts (db w)
  /\ transcripts_fts_trigram (db w') = transcripts_fts_trigram (db w)
  /\ shows (db w') = shows (db w)
  /\ metadata (db w') = metadata (db w)
  /\ isIndexed w' = isIndexed w
  /\ exists extra, console w' = console w ++ extra.
Proof.
  destruct (existsSync env (csvFile DIRNAME)) eqn:He.
  - destruct (readFileSync env (csvFile DIRNAME)) as [csvData|] eqn:Hr.
    + rewrite (syncLinks_unfold env DIRNAME csvData w He Hr), bind_unfold.
      destruct (transaction_runAll_cases env (syncStatements (csvLinks csvData))
                  (snd (log LogSyncing w))) as [(Hi & _ & _ & Hc & _) Hd].
      destruct (transaction (runAll env (syncStatements (csvLinks csvData)))
                  (snd (log LogSyncing w))) as [[[]|e] w1]; cbn [fst snd] in *.
      * destruct Hd as [[_ Hd] | [Hd _]]; [| discriminate].
        unfold log. cbn [snd db console isIndexed].
        rewrite Hd, applyAll_sync, Hi, Hc. cbn.
        repeat split. eexists. rewrite <- List.app_assoc. reflexivity.
      * destruct Hd as [[Hd _] | [_ Hd]]; [discriminate |].
        rewrite Hd, Hi, Hc. cbn. repeat split. now eexists.
    + unfold syncLinks. rewrite He.
      cbv [mbind build_bind log readFile]. rewrite Hr. cbn.
      repeat split. now eexists.
  - unfold syncLinks. rewrite He. cbn. repeat split. exists []. now rewrite List.app_nil_r.
Qed.

Lemma syncLinks_returns (w : World) :
  (forall n, fault env n = false) ->
  (existsSync env (csvFile DIRNAME) = true -> readFileSync env (csvFile DIRNAME) <> None) ->
  fst (syncLinks env DIRNAME w) = Return ().
Proof.
  intros Hno Hcsv. destruct (existsSync env (csvFile DIRNAME)) eqn:He.
  - destruct (readFileSync env (csvFile DIRNAME)) as [csvData|] eqn:Hr.
    + now apply (syncLinks_commits env DIRNAME csvData w He Hr).
    + now destruct Hcsv.
  - unfold syncLinks. now rewrite He.
Qed.

Lemma loopStart_noSources (w : World) :
  allFiles env = [] ->
  indexesEmpty (db (loopStart env w))
  /\ metadata (db (loopStart env w)) = metadata (db w)
  /\ In LogCritical (console (loopStart env w)).
Proof.
  intros Hfiles. unfold loopStart, prelude. rewrite Hfiles.
  destruct (bestOfDirExists env).
  - split; [now cbn | split; [now cbn |]].
    change (In LogCritical
              (((console w ++ [LogStarting]) ++ [LogCritical])
               ++ [LogFound (length (globTxt env)) (length (globMd env))])).
    rewrite !List.in_app_iff. cbn. tauto.
  - split; [now cbn | split; [now cbn |]].
    change (In LogCritical
              (((console w ++ [LogStarting]) ++ [LogCritical])
               ++ [LogFound (length (globTxt env)) (length (@nil string))])).
    rewrite !List.in_app_iff. cbn. tauto.
Qed.

End NoSources.

(** With both tables empty a search that answers with results answers
    with none. *)
Lemma search_empty_tables (engine : Engine) (env : Env) (DATA_DIR : string)
    (w : World) (req : Request) :
  transcripts_fts (db w) = [] -> transcripts_fts_trigram (db w) = [] ->
  forall hits,
    fst (search engine env DATA_DIR w req) = Results hits -> hits = [].
Proof.
  intros Hp Ht.
  assert (Hsel : forall t isAnd query queryString off hs,
    fst (getSearchResults engine (db w) req query isAnd t queryString off) = Return hs ->
    hs = []).
  { intros t isAnd query queryString off hs. unfold getSearchResults.
    destruct (matchParams isAnd query queryString) as [[m cs]|e]; [| discriminate].
    destruct off as [|k]; [discriminate |]. cbn [fst].
    unfold runSelect, selected.
    replace (rowsOf t (db w)) with (@nil Doc) by (destruct t; simpl; congruence).
    destruct (compileOrThrow engine t m); [| discriminate].
    cbn [mbind outcome_bind].
    destruct (mapM (compileOrThrow engine t) cs); [| discriminate].
    cbn. rewrite List.skipn_nil. cbn. now intros [= <-]. }
  intros hits. unfold search.
  destruct (isIndexed w); [| discriminate]. cbn [negb].
  destruct (q req) as [query|]; [| now intros [= <-]].
  destruct (Js.isEmpty (Js.trim query)); [now intros [= <-] |].
  destruct (expandQuery query) as [expandedQuery|e]; [| discriminate].
  destruct (Js.isEmpty _); [now intros [= <-] |].
  destruct (getSearchResults engine (db w) req query (isAndSearchOf expandedQuery)
              Porter expandedQuery (offset req)) as [[results|e] ran] eqn:E1;
    [| now intros [= <-]].
  apply (f_equal fst) in E1. apply Hsel in E1. subst results.
  destruct (_ && _).
  - destruct (getSearchResults engine (db w) req query (isAndSearchOf expandedQuery)
                Trigram expandedQuery (offset req)) as [[results|e] ran'] eqn:E2;
      [| discriminate].
    apply (f_equal fst) in E2. apply Hsel in E2. subst results. now intros [= <-].
  - now intros [= <-].
Qed.

(** C8, the build: with no file under either root, no statement refused
    and the metadata CSV absent or readable, the build logs the critical
    line, ends normally with both FTS5 tables and [shows] empty, writes the
    version marker and sets [isIndexed].  C8, the searches: afterwards a
    search that answers with results answers with none, but the query
    [constructor] is answered with status 500: the thesaurus lookup finds
    the property every object inherits and the call of its [join] raises a
    TypeError, which only the outer handler catches. *)
Theorem noSources_build_then_search (engine : Engine) (env : Env)
    (DIRNAME DATA_DIR : string) (w : World) :
  isIndexed w = false ->
  allFiles env = [] ->
  (forall n, fault env n = false) ->
  (existsSync env (csvFile DIRNAME) = true -> readFileSync env (csvFile DIRNAME) <> None) ->
  let r := buildIndex env DIRNAME DATA_DIR w in
  fst r = Return ()
  /\ In LogCritical (console (snd r))
  /\ indexesEmpty (db (snd r))
  /\ metadata (db (snd r)) !! versionKey = Some "true"
  /\ isIndexed (snd r) = true
  /\ (forall req hits,
        fst (search engine env DATA_DIR (snd r) req) = Results hits -> hits = [])
  /\ search engine env DATA_DIR (snd r) (queryOnly "constructor")
     = (ServerError TypeError, [])
  /\ status (fst (search engine env DATA_DIR (snd r) (queryOnly "constructor")))
     = 500%nat.
Proof.
  intros Hidx Hfiles Hno Hcsv r.
  destruct (loopStart_noSources env w Hfiles) as ((Hp & Ht & Hs) & Hm & Hc).
  destruct (syncLinks_world env DIRNAME (loopStart env w))
    as (Hp' & Ht' & Hs' & Hm' & Hi' & extra & Hc').
  pose proof (syncLinks_returns env DIRNAME (loopStart env w) Hno Hcsv) as Hret.
  assert (E : r = (run env (setMetadata versionKey "true") ;;
                   setIsIndexed true ;; log LogComplete)
                    (snd (syncLinks env DIRNAME (loopStart env w)))).
  { subst r. rewrite (buildIndex_unfold env DIRNAME DATA_DIR w Hidx), Hfiles.
    cbn [fileLoop length]. unfold finish.
    cbv [mbind build_bind mret build_ret]. cbn [length Nat.ltb Nat.leb orb].
    destruct (syncLinks env DIRNAME (loopStart env w)) as [[[]|e] w2];
      [reflexivity | discriminate]. }
  remember (snd (syncLinks env DIRNAME (loopStart env w))) as w2 eqn:Hw2.
  assert (E' : r = (Return (),
                    snd (log LogComplete
                           (snd (setIsIndexed true
                                   (tick (withDb w2 (setMetadata versionKey "true" (db w2))))))))).
  { rewrite E, bind_unfold, run_unfold, Hno. reflexivity. }
  clearbody r. subst r. rewrite E'. cbn [fst snd].
  assert (Hempty : indexesEmpty
            (db (snd (log LogComplete
                   (snd (setIsIndexed true
                           (tick (withDb w2 (setMetadata versionKey "true" (db w2))))))))))
    by (unfold indexesEmpty; cbn [log setIsIndexed tick withDb setMetadata snd db transcripts_fts transcripts_fts_trigram shows]; rewrite Hp', Ht', Hs'; auto).
  split; [reflexivity |]. split.
  { cbn. apply in_or_app. left. rewrite Hc'. apply in_or_app. now left. }
  split; [exact Hempty |]. split; [cbn; apply lookup_insert_eq |].
  split; [reflexivity |]. split.
  { intros req hits. apply search_empty_tables; apply Hempty. }
  split; reflexivity.
Qed.

Lemma noSources_build_then_search_witness :
  let r := buildIndex emptyEnv "/srv" "/data" (startWorld emptyDb) in
  fst r = Return ()
  /\ isIndexed (snd r) = true
  /\ status (fst (search Toy.engine emptyEnv "/data" (snd r) (queryOnly "constructor")))
     = 500%nat.
Proof.
  destruct (noSources_build_then_search Toy.engine emptyEnv "/srv" "/data"
              (startWorld emptyDb))
    as (H1 & _ & _ & _ & H5 & _ & _ & H8).
  - reflexivity.
  - reflexivity.
  - intros n. reflexivity.
  - intros H. discriminate H.
  - repeat split; assumption.
Defined.

(** ** The search SELECT *)

Lemma In_insertBy {A : Type} (key : A -> Z) (x y : A) (l : list A) :
  In y (insertBy key x l) -> y = x \/ In y l.
Proof.
  induction l as [|z l IH]; simpl.
  - intros [<- | []]. now left.
  - destruct (key x <=? key z)%Z; simpl; intuition.
Qed.

Lemma In_orderBy {A : Type} (key : A -> Z) (y : A) (l : list A) :
  In y (orderBy key l) -> In y l.
Proof.
  unfold orderBy. induction l as [|x l IH]; simpl; [tauto |].
  intros H. apply In_insertBy in H as [-> | H]; auto.
Qed.

Lemma In_firstn {A : Type} (n : nat) (y : A) (l : list A) :
  In y (List.firstn n l) -> In y l.
Proof.
  revert l. induction n as [|n IH]; intros [|x l]; simpl; try tauto.
  intros [-> | H]; auto.
Qed.

Lemma In_page {A : Type} (n k : nat) (y : A) (l : list A) :
  In y (List.firstn n (List.skipn k l)) -> In y l.
Proof.
  intros H. apply In_firstn in H.
  rewrite <- (List.firstn_skipn k l). apply in_or_app. now right.
Qed.

Lemma mapM_Return {A B : Type} (f : A -> Outcome B) (xs : list A) (ys : list B) :
  mapM f xs = Return ys -> Forall2 (fun x y => f x = Return y) xs ys.
Proof.
  revert ys. induction xs as [|x xs IH]; intros ys; cbn [mapM].
  - intros [= <-]. constructor.
  - destruct (f x) as [y|e] eqn:Hx; [| discriminate]. cbn [mbind outcome_bind].
    destruct (mapM f xs) as [ys'|e]; [| discriminate]. cbn [mbind outcome_bind].
    intros [= <-]. constructor; auto.
Qed.

Section Select.

Context (engine : Engine) (env : Env) (DATA_DIR : string).

Lemma compileOrThrow_Return (t : Table) (e : string) (m : Doc -> bool) :
  compileOrThrow engine t e = Return m <-> compile engine t e = Some m.
Proof.
  unfold compileOrThrow. destruct (compile engine t e); split; congruence.
Qed.

Lemma inAllFileSets_sound (t : Table) (d : Db) (clauses : list string)
    (cs : list (Doc -> bool)) (f : string) :
  Forall2 (fun c m => compileOrThrow engine t c = Return m) clauses cs ->
  inAllFileSets (rowsOf t d) cs f = true ->
  forall c, In c clauses -> fileMatches engine t d f c.
Proof.
  unfold inAllFileSets. induction 1 as [|c m clauses cs Hc _ IH]; cbn [forallb].
  - intros _ c [].
  - intros H c' [<- | Hin]; apply andb_true_iff in H as [H1 H2]; [| now apply IH].
    apply existsb_exists in H1 as (other & Hother & Hm).
    apply andb_true_iff in Hm as [Hm Hf]. apply String.eqb_eq in Hf.
    exists m, other. split; [now apply compileOrThrow_Return | auto].
Qed.

(** Every row of a page satisfies the WHERE clause. *)
Lemma runSelect_sound (d : Db) (t : Table) (matchQuery : string)
    (clauses : list string) (typeValue : string) (yearsParam : option string)
    (k : Z) (hs : list Hit) :
  runSelect engine d t matchQuery clauses typeValue yearsParam k = Return hs ->
  forall h, In h hs ->
    In (hit_doc h) (rowsOf t d)
    /\ rowMatches engine t matchQuery (hit_doc h)
    /\ (forall c, In c clauses -> fileMatches engine t d (file (hit_doc h)) c)
    /\ type (hit_doc h) = typeValue
    /\ yearFilter engine yearsParam (hit_doc h) = true.
Proof.
  unfold runSelect.
  destruct (compileOrThrow engine t matchQuery) as [m|e] eqn:Hm; [| discriminate].
  cbn [mbind outcome_bind].
  destruct (mapM (compileOrThrow engine t) clauses) as [cs|e] eqn:Hcs; [| discriminate].
  cbn [mbind outcome_bind]. intros [= <-] h Hin.
  apply in_map_iff in Hin as (row & <- & Hin). cbn [hit_doc decorate].
  apply In_page, In_orderBy in Hin. unfold selected in Hin.
  apply filter_In in Hin as [Hrow Hcond].
  apply andb_true_iff in Hcond as [Hcond Hyear].
  apply andb_true_iff in Hcond as [Hcond Htype].
  apply andb_true_iff in Hcond as [Hmatch Hfiles].
  split; [exact Hrow |]. split.
  - exists m. split; [now apply compileOrThrow_Return | exact Hmatch].
  - split; [| split; [now apply String.eqb_eq | exact Hyear]].
    eapply inAllFileSets_sound; [apply mapM_Return; exact Hcs | exact Hfiles].
Qed.



Lemma hit_enrich (h : Hit) : hit (enrich env DATA_DIR h) = h.
Proof. unfold enrich. now destruct (readFileSync env _). Qed.


End Select.


(** ** Which statements a search runs *)

Section Trace.

Context (engine : Engine) (env : Env) (DATA_DIR : string).

Lemma getSearchResults_trace (d : Db) (req : Request) (query : string)
    (isAndSearch : bool) (t : Table) (queryString : string) (off : Offset) :
  snd (getSearchResults engine d req query isAndSearch t queryString off)
  = statementOf t isAndSearch query queryString off.
Proof.
  unfold getSearchResults, statementOf.
  destruct (matchParams isAndSearch query queryString) as [[fm cl]|e]; [| reflexivity].
  now destruct off.
Qed.


Lemma statementOf_porter_not_trigram (isAndSearch : bool) (query queryString : string)
    (off : Offset) :
  queriedTrigram (statementOf Porter isAndSearch query queryString off) = false.
Proof.
  unfold statementOf.
  destruct (matchParams isAndSearch query queryString) as [[fm cl]|e]; [| reflexivity].
  now destruct off.
Qed.



Lemma startsWith_quote_short (query : string) :
  Js.startsWith query Js.quote = true ->
  (1 <? String.length query)%nat = false ->
  query = Js.quote.
Proof.
  intros Hs Hlen. apply startsWith_inv in Hs. apply Nat.ltb_ge in Hlen.
  destruct query as [|c [|c' rest]]; [discriminate | | simpl in Hlen; lia].
  exact Hs.
Qed.

Lemma expandQuery_verbatim (query : string) :
  isVerbatim query = true -> expandQuery query = Return query.
Proof. unfold expandQuery. now intros ->. Qed.

(** What a search on a verbatim query runs: at most the statement on the
    exact table. *)
Lemma search_verbatim_trace (w : World) (req : Request) (query : string) :
  q req = Some query ->
  isVerbatim query = true ->
  snd (search engine env DATA_DIR w req) = []
  \/ snd (search engine env DATA_DIR w req)
     = statementOf Porter (isAndSearchOf query) query query (offset req).
Proof.
  intros Hq Hv. unfold search. rewrite Hq, (expandQuery_verbatim _ Hv), Hv.
  destruct (negb (isIndexed w)); [now left |].
  destruct (Js.isEmpty (Js.trim query)); [now left |].
  destruct (Js.isEmpty _); [now left |].
  pose proof (getSearchResults_trace (db w) req query (isAndSearchOf query)
                Porter query (offset req)) as Hran.
  destruct (getSearchResults engine (db w) req query (isAndSearchOf query)
              Porter query (offset req)) as [[results|e] ran];
    cbn [negb andb fst snd] in *; now right.
Qed.

End Trace.

(** C2, as the code has it: a request whose query starts and ends with a
    double quote never runs a statement on the trigram table.  When the
    query has at least two characters, [expandQuery] returns it unchanged;
    and unless it is an AND search, the only statement run is on the exact
    table with the query itself as the MATCH expression.  (In an AND search
    the clauses are cut from the raw query and expanded one by one, quotes
    stripped.) *)
Theorem verbatim_query (engine : Engine) (env : Env) (DATA_DIR : string)
    (w : World) (req : Request) (query : string) :
  q req = Some query ->
  Js.startsWith query Js.quote = true ->
  Js.endsWith query Js.quote = true ->
  queriedTrigram (snd (search engine env DATA_DIR w req)) = false
  /\ ((1 < String.length query)%nat ->
      expandQuery query = Return query
      /\ (isAndSearchOf query = false ->
          Forall (fun x => x = mkQuery Porter query [])
                 (snd (search engine env DATA_DIR w req)))).
Proof.
  intros Hq Hs He.
  destruct (1 <? String.length query)%nat eqn:Hlen.
  - assert (Hv : isVerbatim query = true) by (unfold isVerbatim; now rewrite Hs, He, Hlen).
    destruct (search_verbatim_trace engine env DATA_DIR w req query Hq Hv) as [-> | ->].
    + split; [reflexivity |]. intros _. split; [now apply expandQuery_verbatim |].
      intros _. constructor.
    + split; [apply statementOf_porter_not_trigram |].
      intros _. split; [now apply expandQuery_verbatim |].
      intros Hand. rewrite Hand. unfold statementOf, matchParams.
      destruct (offset req); repeat constructor.
  - split; [| intros H; apply Nat.ltb_ge in Hlen; lia].
    rewrite (startsWith_quote_short query Hs Hlen) in Hq.
    unfold search. rewrite Hq. now destruct (negb (isIndexed w)).
Qed.



(** C2 as stated fails.  In an AND search a verbatim query does not go to
    the index as it is: the statement that runs has the clauses expanded
    by the thesaurus and stripped of the quotes, and rows that say george
    come back for a quoted jorge.  And the query that is one double quote
    starts and ends with a double quote, yet [expandQuery] strips it. *)
Lemma verbatim_and_query_is_expanded :
  let query := Js.quote +:+ "jorge AND rick" +:+ Js.quote in
  let r := search Toy.engine (exampleEnv noFault) "/data" exampleWorld (queryOnly query) in
  Js.startsWith query Js.quote = true
  /\ Js.endsWith query Js.quote = true
  /\ snd r = [mkQuery Porter "((jorge OR george) OR rick)" ["(jorge OR george)"; "rick"]]
  /\ map (fun h => text_content (hit_doc (hit h))) (resultsOf (fst r))
     = [" hello jorge"; " bye rick"; " rick alone george"]
  /\ Js.startsWith Js.quote Js.quote = true
  /\ Js.endsWith Js.quote Js.quote = true
  /\ expandQuery Js.quote = Return EmptyString.
Proof. vm_compute. repeat split. Qed.

Lemma verbatim_query_witness :
  let query := Js.quote +:+ "elian" +:+ Js.quote in
  queriedTrigram
    (snd (search Toy.engine (exampleEnv noFault) "/data" exampleWorld (queryOnly query)))
  = false
  /\ expandQuery query = Return query
  /\ Forall (fun x => x = mkQuery Porter query [])
            (snd (search Toy.engine (exampleEnv noFault) "/data" exampleWorld
                    (queryOnly query))).
Proof.
  intros query.
  destruct (verbatim_query Toy.engine (exampleEnv noFault) "/data" exampleWorld
              (queryOnly query) query) as [H1 H2].
  - reflexivity.
  - reflexivity.
  - reflexivity.
  - destruct H2 as [H2 H3]; [vm_compute; lia |].
    split; [exact H1 |]. split; [exact H2 |]. apply H3. reflexivity.
Defined.



(** An error raised on the exact table is caught: the answer is the empty
    list. *)
Lemma exact_error_caught (engine : Engine) (env : Env) (DATA_DIR : string)
    (w : World) (req : Request) (query expandedQuery : string) (e : Error) :
  q req = Some query ->
  reaches w query = Some expandedQuery ->
  fst (getSearchResults engine (db w) req query (isAndSearchOf expandedQuery)
         Porter expandedQuery (offset req)) = Throw e ->
  fst (search engine env DATA_DIR w req) = Results [].
Proof.
  intros Hq Hreach Hthrow. unfold reaches in Hreach. unfold search. rewrite Hq.
  destruct (isIndexed w); [| discriminate]. cbn [negb andb] in *.
  destruct (Js.isEmpty (Js.trim query)); [discriminate |]. cbn [negb] in *.
  destruct (expandQuery query) as [e'|]; [| discriminate].
  destruct (Js.isEmpty _); [discriminate |]. injection Hreach as ->.
  destruct (getSearchResults engine (db w) req query (isAndSearchOf expandedQuery)
              Porter expandedQuery (offset req)) as [[results|e''] ran];
    [discriminate | reflexivity].
Qed.

(** ** The AND search on the example *)



(** In the example the AND search for Rick and Suds returns the two
    segments of the first file that say one of the two words, neither of
    which says both, and nothing from the second file, which says rick but
    never suds. *)
Example and_search_example :
  let r := search Toy.engine (exampleEnv noFault) "/data" exampleWorld
                  (queryOnly "Rick AND Suds") in
  map (fun h => (file (hit_doc (hit h)), text_content (hit_doc (hit h))))
      (resultsOf (fst r))
  = [("1999/neil-rogers-19990105.txt", " bye rick");
     ("1999/neil-rogers-19990105.txt", " suds here")]
  /\ snd r = [mkQuery Porter "(rick OR suds)" ["rick"; "suds"]]
  /\ map text_content (transcripts_fts (db exampleWorld))
     = [" hello jorge"; " bye rick"; " suds here"; " rick alone george";
        " reliance"; "1:23 best moment"].
Proof. vm_compute. repeat split. Qed.

(** The metadata pass on the example: of the two rows with the same date
    the later one is in the table, the row without date and the row whose
    URL is not an http URL are not. *)
Example syncLinks_example :
  map link_youtube_url (csvLinks exampleCsv) = ["http://a"; "http://b"]
  /\ map_to_list (show_links (db exampleWorld))
     = [("1999-01-05", mkLink "1999-01-05" "http://b" EmptyString EmptyString)].
Proof. vm_compute. repeat split. Qed.

(** A refused statement in the only [insertMany] of the example build:
    the transaction is rolled back, the build ends with the error, and
    both tables are as empty as before. *)
Example build_refused_statement :
  let r := buildIndex (exampleEnv (fun n => (n =? 5)%nat)) "/srv" "/data"
                      (startWorld emptyDb) in
  fst r = Throw SqliteError
  /\ transcripts_fts (db (snd r)) = []
  /\ transcripts_fts_trigram (db (snd r)) = []
  /\ executed (snd r) = 6%nat
  /\ isIndexed (snd r) = false.
Proof. vm_compute. repeat split. Qed.

(** * Further properties of the server *)

(** ** The best-of parser *)

Lemma tsMatch_nonblank (line : string) :
  Js.isEmpty line || String.eqb line "." = true -> tsMatch line = false.
Proof.
  intros H. apply orb_true_iff in H as [H | H].
  - destruct line; [reflexivity | discriminate].
  - apply String.eqb_eq in H as ->. reflexivity.
Qed.

Lemma bestOfLoop_from (relativePath date : string) (lines : list string) :
  forall (j : nat) (batch : list Doc),
    bestOfLoop relativePath date lines j batch
    = batch ++ bestOfFrom relativePath date j lines.
Proof.
  induction lines as [|raw rest IH]; intros j batch; cbn [bestOfLoop bestOfFrom].
  - now rewrite List.app_nil_r.
  - rewrite IH. unfold bestOfStep.
    destruct (Js.isEmpty (Js.trim raw) || String.eqb (Js.trim raw) ".") eqn:Hskip.
    + now rewrite (tsMatch_nonblank _ Hskip).
    + destruct (tsMatch (Js.trim raw)); [| reflexivity].
      now rewrite <- List.app_assoc.
Qed.

Lemma bestOfFrom_lines (relativePath date : string) (lines : list string) :
  forall j,
    Forall (fun d =>
              (j <= line d)%nat
              /\ text_content d = Js.trim (List.nth (line d - j) lines EmptyString)
              /\ tsMatch (text_content d) = true
              /\ file d = relativePath /\ type d = "best_of")
           (bestOfFrom relativePath date j lines).
Proof.
  induction lines as [|raw rest IH]; intros j; cbn [bestOfFrom]; [constructor |].
  assert (Hrest : Forall (fun d =>
              (j <= line d)%nat
              /\ text_content d = Js.trim (List.nth (line d - j) (raw :: rest) EmptyString)
              /\ tsMatch (text_content d) = true
              /\ file d = relativePath /\ type d = "best_of")
           (bestOfFrom relativePath date (S j) rest)).
  { eapply List.Forall_impl; [| apply (IH (S j))].
    intros d (Hle & Htext & Hts & Hfile & Htype). split; [lia |].
    split; [| auto]. rewrite Htext.
    replace (line d - j)%nat with (S (line d - S j)) by lia. reflexivity. }
  destruct (tsMatch (Js.trim raw)) eqn:Hts; [| exact Hrest].
  constructor; [| exact Hrest]. cbn [line text_content file type].
  rewrite Nat.sub_diag. auto.
Qed.

Lemma nth_skipn {A : Type} (k i : nat) (l : list A) (d : A) :
  List.nth i (List.skipn k l) d = List.nth (k + i) l d.
Proof.
  revert l. induction k as [|k IH]; intros [|x l]; simpl; auto.
  now destruct i.
Qed.

(** X1: the best-of branch adds to the batch one segment for every line
    from index 2 on that, trimmed, starts with a timestamp (one or two
    digits, a colon, two digits, optionally a colon and two digits, then
    whitespace), in source order; the segment has the line's index and the
    whole trimmed line, timestamp included, as its text.  The title and
    link lines (indices 0 and 1) never give a segment, and the tests for an
    empty line and for a lone full stop change nothing. *)
Theorem parseBestOf_segments (relativePath date : string) (lines : list string)
    (batch : list Doc) :
  parseBestOf relativePath date lines batch
  = batch ++ bestOfFrom relativePath date 2 (List.skipn 2 lines)
  /\ length (bestOfFrom relativePath date 2 (List.skipn 2 lines))
     = length (List.filter (fun raw => tsMatch (Js.trim raw)) (List.skipn 2 lines))
  /\ Forall (fun d =>
               (2 <= line d)%nat
               /\ text_content d = Js.trim (List.nth (line d) lines EmptyString)
               /\ tsMatch (text_content d) = true
               /\ file d = relativePath /\ type d = "best_of")
            (bestOfFrom relativePath date 2 (List.skipn 2 lines)).
Proof.
  split; [apply bestOfLoop_from |]. split.
  - generalize 2%nat at 1. induction (List.skipn 2 lines) as [|raw rest IH];
      intros j; cbn [bestOfFrom List.filter]; [reflexivity |].
    destruct (tsMatch (Js.trim raw)); cbn [length]; now rewrite IH.
  - eapply List.Forall_impl; [| apply bestOfFrom_lines].
    intros d (Hle & Htext & Hrest). split; [exact Hle |]. split; [| exact Hrest].
    rewrite Htext, nth_skipn. f_equal. f_equal. lia.
Qed.

(** ** The shape of a derived date *)

Lemma isoDate_shaped (d : string) :
  String.length d = 8%nat -> Js.sall Js.isDigit d = true ->
  isIsoShaped (isoDate d) = true.
Proof.
  intros Hlen Hdig.
  destruct d as [|c1 [|c2 [|c3 [|c4 [|c5 [|c6 [|c7 [|c8 [|c9 d]]]]]]]]];
    try discriminate.
  cbn [Js.sall] in Hdig.
  repeat (apply andb_true_iff in Hdig as [? Hdig]).
  unfold isIsoShaped, isoDate. cbv - [Js.isDigit].
  repeat match goal with H : Js.isDigit _ = true |- _ => rewrite H; clear H end.
  reflexivity.
Qed.

Lemma year_shaped (y : string) :
  String.length y = 4%nat -> Js.sall Js.isDigit y = true ->
  isIsoShaped (y +:+ "-12-31") = true.
Proof.
  intros Hlen Hdig.
  destruct y as [|c1 [|c2 [|c3 [|c4 [|c5 y]]]]]; try discriminate.
  cbn [Js.sall] in Hdig.
  repeat (apply andb_true_iff in Hdig as [? Hdig]).
  unfold isIsoShaped. cbv - [Js.isDigit].
  repeat match goal with H : Js.isDigit _ = true |- _ => rewrite H; clear H end.
  reflexivity.
Qed.

(** X2: whatever the file name, the derived date is either the unknown-date
    sentinel or ten characters of the form dddd-dd-dd; its first four
    characters are then the digits the year filter compares.  (The digits
    are taken as they stand: nothing checks that month and day exist.) *)
Theorem getDateFromFilename_shape (filename : string) :
  getDateFromFilename filename = unknownDate
  \/ isIsoShaped (getDateFromFilename filename) = true.
Proof.
  unfold getDateFromFilename.
  destruct (matchHostDate filename) as [d|] eqn:Hm.
  - right. apply matchHostDate_Some in Hm as (pre & (h & p & _ & _ & Hlen & Hdig) & _).
    now apply isoDate_shaped.
  - destruct (digitsPrefix 4 filename) as [y|] eqn:Hy; [| now left].
    right. apply digitsPrefix_iff in Hy as (t & _ & Hlen & Hdig).
    now apply year_shaped.
Qed.

(** ** Query expansion *)





















(** ** What a page of results looks like *)

Section Pages.

Context (engine : Engine) (env : Env) (DATA_DIR : string).

(** A search that answers with results answers with none or with the
    enriched rows of one SELECT. *)
Lemma search_results_select (w : World) (req : Request) (hits : list Enriched) :
  fst (search engine env DATA_DIR w req) = Results hits ->
  hits = []
  \/ exists t matchQuery clauses k page,
       runSelect engine (db w) t matchQuery clauses (typeValueOf req) (years req) k
       = Return page
       /\ hits = map (enrich env DATA_DIR) page.
Proof.
  assert (Hsel : forall query isAnd t queryString page,
    fst (getSearchResults engine (db w) req query isAnd t queryString (offset req))
    = Return page ->
    exists matchQuery clauses k,
      runSelect engine (db w) t matchQuery clauses (typeValueOf req) (years req) k
      = Return page).
  { intros query isAnd t queryString page. unfold getSearchResults.
    destruct (matchParams isAnd query queryString) as [[fm cl]|e]; [| discriminate].
    destruct (offset req) as [|k]; [discriminate |]. cbn [fst]. intros H.
    now exists fm, cl, k. }
  unfold search.
  destruct (negb (isIndexed w)); [discriminate |].
  destruct (q req) as [query|]; [| intros [= <-]; now left].
  destruct (Js.isEmpty (Js.trim query)); [intros [= <-]; now left |].
  destruct (expandQuery query) as [expandedQuery|e]; [| discriminate].
  destruct (Js.isEmpty _); [intros [= <-]; now left |].
  destruct (getSearchResults engine (db w) req query (isAndSearchOf expandedQuery)
              Porter expandedQuery (offset req)) as [[results|e] ran] eqn:E1;
    [| intros [= <-]; now left].
  apply (f_equal fst) in E1. cbn [fst] in E1.
  destruct (_ && _).
  - destruct (getSearchResults engine (db w) req query (isAndSearchOf expandedQuery)
                Trigram expandedQuery (offset req)) as [[fuzzy|e] ran'] eqn:E2;
      [| discriminate].
    apply (f_equal fst) in E2. cbn [fst] in E2.
    destruct (Hsel _ _ _ _ _ E2) as (fm & cl & k & H).
    intros [= <-]. right. now exists Trigram, fm, cl, k, fuzzy.
  - destruct (Hsel _ _ _ _ _ E1) as (fm & cl & k & H).
    intros [= <-]. right. now exists Porter, fm, cl, k, results.
Qed.

Lemma runSelect_length (d : Db) (t : Table) (matchQuery : string)
    (clauses : list string) (typeValue : string) (yearsParam : option string)
    (k : Z) (page : list Hit) :
  runSelect engine d t matchQuery clauses typeValue yearsParam k = Return page ->
  (length page <= limit)%nat.
Proof.
  unfold runSelect.
  destruct (compileOrThrow engine t matchQuery); [| discriminate].
  cbn [mbind outcome_bind].
  destruct (mapM (compileOrThrow engine t) clauses); [| discriminate].
  cbn [mbind outcome_bind]. intros [= <-].
  rewrite List.length_map, List.length_firstn. lia.
Qed.

End Pages.

(** X5: whatever the request and the state of the index, a search that
    answers with results answers with at most 100 of them. *)
Theorem search_page_size (engine : Engine) (env : Env) (DATA_DIR : string)
    (w : World) (req : Request) (hits : list Enriched) :
  fst (search engine env DATA_DIR w req) = Results hits ->
  (length hits <= 100)%nat.
Proof.
  intros H. apply search_results_select in H as [-> | (t & fm & cl & k & page & Hsel & ->)].
  - simpl. lia.
  - rewrite List.length_map. apply (runSelect_length _ _ _ _ _ _ _ _ _ Hsel).
Qed.

Lemma search_page_size_witness :
  (length (resultsOf (fst (search Toy.engine emptyEnv "/data" paginationWorld
                             (atOffset "reliance" 0)))) <= 100)%nat.
Proof.
  apply (search_page_size Toy.engine emptyEnv "/data" paginationWorld
           (atOffset "reliance" 0)).
  vm_compute. reflexivity.
Defined.

(** X6: every segment a search returns is a row of one of the two FTS5
    tables, has the requested content type (show when the request names
    none, so best-of segments come back only when asked for), and, when the
    request names years, has a date that LIKE matches one of them followed
    by a percent sign. *)
Theorem search_filters (engine : Engine) (env : Env) (DATA_DIR : string)
    (w : World) (req : Request) (hits : list Enriched) :
  fst (search engine env DATA_DIR w req) = Results hits ->
  forall h, In h hits ->
    (In (hit_doc (hit h)) (transcripts_fts (db w))
     \/ In (hit_doc (hit h)) (transcripts_fts_trigram (db w)))
    /\ type (hit_doc (hit h)) = typeValueOf req
    /\ (forall ys, years req = Some ys -> ys <> EmptyString ->
        exists y, In y (Js.splitComma ys)
                  /\ like engine (y +:+ "%") (date (hit_doc (hit h))) = true).
Proof.
  intros H h Hin.
  apply search_results_select in H as [-> | (t & fm & cl & k & page & Hsel & ->)];
    [destruct Hin |].
  apply in_map_iff in Hin as (r & <- & Hin). rewrite hit_enrich.
  destruct (runSelect_sound engine _ _ _ _ _ _ _ _ Hsel r Hin)
    as (Hrow & _ & _ & Htype & Hyear).
  split; [destruct t; auto |]. split; [exact Htype |].
  intros ys Hys Hne. unfold yearFilter in Hyear. rewrite Hys in Hyear.
  destruct ys as [|c ys]; [congruence |]. cbn [Js.isEmpty] in Hyear.
  apply existsb_exists in Hyear as (y & Hy & Hlike). now exists y.
Qed.

Lemma search_filters_witness :
  Forall (fun h => type (hit_doc (hit h)) = "best_of")
    (resultsOf (fst (search Toy.engine (exampleEnv noFault) "/data" exampleWorld
                       (mkRequest (Some "moment") (Some "1988") (Num 0)
                                  (Some "best_of"))))).
Proof.
  apply List.Forall_forall. intros h Hin.
  destruct (search_filters Toy.engine (exampleEnv noFault) "/data" exampleWorld
              (mkRequest (Some "moment") (Some "1988") (Num 0) (Some "best_of"))
              (resultsOf (fst (search Toy.engine (exampleEnv noFault) "/data"
                                 exampleWorld
                                 (mkRequest (Some "moment") (Some "1988") (Num 0)
                                            (Some "best_of"))))))
    with (h := h) as (_ & Ht & _).
  - vm_compute. reflexivity.
  - exact Hin.
  - exact Ht.
Defined.

(** ** Consecutive pages *)









(** ** The context lines of a hit *)

Lemma splitAt_nonempty (sep : ascii -> bool) (s : string) :
  (1 <= length (Js.splitAt sep s))%nat.
Proof.
  destruct s as [|c s]; cbn [Js.splitAt]; [simpl; lia |].
  destruct (sep c); [simpl; lia |].
  destruct (Js.splitAt sep s); simpl; lia.
Qed.

Lemma enrich_readable (env : Env) (DATA_DIR : string) (h : Hit) (content : string) :
  readFileSync env (getFullPath DATA_DIR (file (hit_doc h))) = Some content ->
  snippet (enrich env DATA_DIR h)
  = Js.join (String Js.LF EmptyString) (window (line (hit_doc h)) content).
Proof.
  intros Hr. unfold enrich, window. rewrite Hr. cbn [snippet].
  pose proof (splitAt_nonempty (fun c => Js.code c =? 10) content) as Hlen.
  fold (Js.splitLF content) in Hlen.
  set (lines := Js.splitLF content) in *. set (n := line (hit_doc h)).
  assert (E : List.firstn (S (Nat.min (length lines - 1) (n + 6)) - n) (List.skipn n lines)
              = List.firstn 7 (List.skipn n lines)).
  { destruct (Nat.le_gt_cases (n + 7) (length lines)) as [Hin | Hout].
    - f_equal. lia.
    - rewrite !List.firstn_all2; [reflexivity | |]; rewrite List.length_skipn; lia. }
  now rewrite E.
Qed.

Lemma window_cons (n : nat) (content : string) :
  (n < length (Js.splitLF content))%nat ->
  window n content
  = List.nth n (Js.splitLF content) EmptyString
    :: List.firstn 6 (List.skipn (S n) (Js.splitLF content)).
Proof.
  intros Hn. unfold window.
  destruct (List.skipn n (Js.splitLF content)) as [|first rest] eqn:Hskip.
  - exfalso. apply (f_equal (@length string)) in Hskip.
    rewrite List.length_skipn in Hskip. simpl in Hskip. lia.
  - assert (Hfirst : first = List.nth n (Js.splitLF content) EmptyString).
    { rewrite <- (Nat.add_0_r n), <- nth_skipn, Hskip. reflexivity. }
    assert (Hrest : rest = List.skipn (S n) (Js.splitLF content)).
    { replace (S n) with (1 + n)%nat by lia.
      rewrite <- List.skipn_skipn, Hskip. reflexivity. }
    now rewrite Hfirst, Hrest.
Qed.

(** X8: enriching a hit never fails and keeps the hit.  When the source
    file can be read the snippet is the file's lines from the hit's line
    on, seven at most and fewer when the file ends earlier (none when the
    line lies beyond the end), joined by line feeds; when it cannot be
    read the snippet is the indexed text. *)
Theorem enrich_window (env : Env) (DATA_DIR : string) (h : Hit) :
  hit (enrich env DATA_DIR h) = h
  /\ match readFileSync env (getFullPath DATA_DIR (file (hit_doc h))) with
     | Some content =>
         snippet (enrich env DATA_DIR h)
         = Js.join (String Js.LF EmptyString) (window (line (hit_doc h)) content)
         /\ (length (window (line (hit_doc h)) content) <= 7)%nat
         /\ ((length (Js.splitLF content) <= line (hit_doc h))%nat ->
             snippet (enrich env DATA_DIR h) = EmptyString)
     | None => snippet (enrich env DATA_DIR h) = text_content (hit_doc h)
     end.
Proof.
  split; [apply hit_enrich |].
  destruct (readFileSync env (getFullPath DATA_DIR (file (hit_doc h))))
    as [content|] eqn:Hr.
  - rewrite (enrich_readable env DATA_DIR h content Hr). split; [reflexivity |].
    unfold window. split.
    + rewrite List.length_firstn. lia.
    + intros Hbeyond. rewrite List.skipn_all2 by exact Hbeyond. reflexivity.
  - unfold enrich. now rewrite Hr.
Qed.

(** ** Line numbers in the build and in the search *)

Lemma srev_onto_app (s acc : string) :
  Js.srev_onto s acc = Js.srev_onto s EmptyString +:+ acc.
Proof.
  revert acc. induction s as [|c s IH]; intros acc; cbn [Js.srev_onto]; [reflexivity |].
  rewrite IH, (IH (String c EmptyString)), app_assoc. reflexivity.
Qed.

Lemma srev_onto_snoc (s : string) (c : ascii) (acc : string) :
  Js.srev_onto (s +:+ String c EmptyString) acc = String c (Js.srev_onto s acc).
Proof.
  revert acc. induction s as [|b s IH]; intros acc; [reflexivity |].
  rewrite app_cons. cbn [Js.srev_onto]. apply IH.
Qed.

Lemma srev_snoc (s : string) (c : ascii) :
  Js.srev (s +:+ String c EmptyString) = String c (Js.srev s).
Proof. unfold Js.srev. apply srev_onto_snoc. Qed.

Lemma trimEnd_snoc_ws (s : string) (c : ascii) :
  Js.isWhiteSpace c = true ->
  Js.trimEnd (s +:+ String c EmptyString) = Js.trimEnd s.
Proof.
  intros Hc. unfold Js.trimEnd. rewrite srev_snoc. cbn [Js.trimStart].
  now rewrite Hc.
Qed.

Lemma trimStart_snoc_ws (s : string) (c : ascii) :
  Js.isWhiteSpace c = true ->
  Js.trimStart (s +:+ String c EmptyString) = EmptyString
  \/ Js.trimStart (s +:+ String c EmptyString) = Js.trimStart s +:+ String c EmptyString.
Proof.
  intros Hc. induction s as [|b s IH].
  - left. rewrite app_nil_l. cbn [Js.trimStart]. now rewrite Hc.
  - rewrite app_cons. cbn [Js.trimStart]. destruct (Js.isWhiteSpace b); [exact IH |].
    right. now rewrite app_cons.
Qed.

Lemma trimStart_all_ws (s : string) (c : ascii) :
  Js.trimStart (s +:+ String c EmptyString) = EmptyString ->
  Js.trimStart s = EmptyString.
Proof.
  induction s as [|b s IH]; [reflexivity |].
  rewrite app_cons. cbn [Js.trimStart]. destruct (Js.isWhiteSpace b); [exact IH |].
  rewrite <- app_cons. destruct s; discriminate.
Qed.

Lemma trim_snoc_ws (s : string) (c : ascii) :
  Js.isWhiteSpace c = true ->
  Js.trim (s +:+ String c EmptyString) = Js.trim s.
Proof.
  intros Hc. unfold Js.trim.
  destruct (trimStart_snoc_ws s c Hc) as [E | E]; rewrite E.
  - now rewrite (trimStart_all_ws s c E).
  - now apply trimEnd_snoc_ws.
Qed.

Lemma sameLine_trim (a b : string) : sameLine a b -> Js.trim a = Js.trim b.
Proof.
  intros [-> | ->]; [reflexivity |]. now apply trim_snoc_ws.
Qed.

Lemma sameLine_cons (c : ascii) (a b : string) :
  sameLine a b -> sameLine (String c a) (String c b).
Proof. intros [-> | ->]; [now left | right; now rewrite app_cons]. Qed.

(** Cutting at line feeds, and cutting at line feeds with an optional
    carriage return before them, give the same lines in the same places,
    up to a carriage return at the end of a line. *)
Lemma splitLF_splitLines (s : string) :
  Forall2 sameLine (Js.splitLF s) (Js.splitLines s).
Proof.
  unfold Js.splitLF. induction s as [|c s IH]; cbn [Js.splitAt Js.splitLines].
  - constructor; [now left | constructor].
  - destruct (Js.code c =? 10) eqn:Hlf.
    + constructor; [now left | exact IH].
    + destruct ((Js.code c =? 13) && Js.startsWith s (String Js.LF EmptyString)) eqn:Hcr.
      * apply andb_true_iff in Hcr as [Hc Hs].
        apply startsWith_inv in Hs. rewrite Hs in IH |- *.
        change (String.length (String Js.LF EmptyString)) with 1%nat in *.
        rewrite app_cons, app_nil_l in IH |- *.
        cbn [Js.splitAt Js.splitLines] in IH |- *.
        change (Js.code Js.LF =? 10) with true in IH |- *. cbv iota in IH |- *.
        inversion IH as [|? ? ? ? _ Htl]; subst.
        constructor; [| exact Htl]. right.
        replace c with Js.CR; [reflexivity |].
        apply code_inj. apply N.eqb_eq in Hc. now rewrite Hc.
      * destruct (Js.splitAt (fun c0 => Js.code c0 =? 10) s) as [|p ps];
          destruct (Js.splitLines s) as [|p' ps']; inversion IH; subst.
        -- constructor; [now left | constructor].
        -- constructor; [now apply sameLine_cons | assumption].
Qed.

Lemma Forall2_nth_sameLine (l1 l2 : list string) (i : nat) :
  Forall2 sameLine l1 l2 ->
  sameLine (List.nth i l1 EmptyString) (List.nth i l2 EmptyString).
Proof.
  intros H. revert i. induction H as [|a b l1 l2 Hab _ IH]; intros [|i]; cbn [List.nth];
    auto; now left.
Qed.

Lemma segmentsFrom_markers (glue : list string -> string) (relativePath date : string)
    (lines : list string) :
  forall j,
    Forall (fun d =>
              (j <= line d)%nat /\ (line d - j < length lines)%nat
              /\ isMarkerLine (List.nth (line d - j) lines EmptyString) = true
              /\ file d = relativePath)
           (segmentsFrom glue relativePath date j lines).
Proof.
  induction lines as [|raw rest IH]; intros j; cbn [segmentsFrom]; [constructor |].
  assert (Hrest : Forall (fun d =>
              (j <= line d)%nat /\ (line d - j < length (raw :: rest))%nat
              /\ isMarkerLine (List.nth (line d - j) (raw :: rest) EmptyString) = true
              /\ file d = relativePath)
           (segmentsFrom glue relativePath date (S j) rest)).
  { eapply List.Forall_impl; [| apply (IH (S j))].
    intros d (Hle & Hlt & Hm & Hf). split; [lia |]. split; [simpl; lia |].
    split; [| exact Hf].
    replace (line d - j)%nat with (S (line d - S j)) by lia. exact Hm. }
  destruct (isMarkerLine raw) eqn:Hraw; [| exact Hrest].
  constructor; [| exact Hrest]. cbn [line file]. rewrite Nat.sub_diag.
  repeat split; [lia | simpl; lia | exact Hraw].
Qed.

Lemma parseShow_from (relativePath date : string) (lines : list string) :
  parseShow relativePath date lines []
  = segmentsFrom spacedLines relativePath date 0 lines.
Proof.
  unfold parseShow.
  pose proof (showLoop_segments relativePath date lines 0%nat None []) as H.
  destruct (showLoop relativePath date lines 0%nat (None, [])) as [c b].
  exact H.
Qed.

(** X9: the line number a show segment gets in the build, where the file
    is cut at line feeds with an optional carriage return, is a line
    number of the file as the search cuts it, at line feeds only; and the
    line there is the segment's marker line.  So the context shown for a
    hit of a show file starts with that segment's timestamp marker. *)
Theorem snippet_starts_at_marker (relativePath date content : string) (d : Doc) :
  In d (parseShow relativePath date (Js.splitLines content) []) ->
  exists first rest,
    window (line d) content = first :: rest
    /\ isMarkerLine first = true
    /\ sameLine first (List.nth (line d) (Js.splitLines content) EmptyString).
Proof.
  rewrite parseShow_from. intros Hin.
  pose proof (segmentsFrom_markers spacedLines relativePath date
                (Js.splitLines content) 0%nat) as Hall.
  rewrite List.Forall_forall in Hall. destruct (Hall d Hin) as (_ & Hlt & Hm & _).
  rewrite Nat.sub_0_r in Hlt, Hm.
  pose proof (splitLF_splitLines content) as H2.
  pose proof (Forall2_nth_sameLine _ _ (line d) H2) as Hsame.
  assert (Hlen : length (Js.splitLF content) = length (Js.splitLines content))
    by (eapply Forall2_length; exact H2).
  unfold window.
  destruct (List.skipn (line d) (Js.splitLF content)) as [|first rest] eqn:Hskip.
  - exfalso. apply (f_equal (@length string)) in Hskip.
    rewrite List.length_skipn in Hskip. simpl in Hskip. lia.
  - assert (Hfirst : first = List.nth (line d) (Js.splitLF content) EmptyString).
    { rewrite <- (Nat.add_0_r (line d)), <- nth_skipn, Hskip. reflexivity. }
    exists first, (List.firstn 6 rest). split; [reflexivity |].
    rewrite Hfirst. split; [| exact Hsame].
    unfold isMarkerLine in *. now rewrite (sameLine_trim _ _ Hsame).
Qed.

Lemma snippet_starts_at_marker_witness :
  let content := "intro" +:+ String Js.CR (String Js.LF "[00:00 --> 00:05]")
                 +:+ String Js.CR (String Js.LF "hello") in
  let d := {| id := "f.txt::1"; file := "f.txt"; line := 1; date := "d";
              text_content := " hello"; type := "show" |} in
  In d (parseShow "f.txt" "d" (Js.splitLines content) [])
  /\ exists first rest,
       window 1 content = first :: rest /\ isMarkerLine first = true.
Proof.
  intros content d.
  assert (Hin : In d (parseShow "f.txt" "d" (Js.splitLines content) []))
    by (vm_compute; left; reflexivity).
  split; [exact Hin |].
  destruct (snippet_starts_at_marker "f.txt" "d" content d Hin)
    as (first & rest & Hw & Hm & _).
  now exists first, rest.
Defined.

(** ** From the indexed path back to the file *)

Lemma splitAt_plain (sep : ascii -> bool) (s : string) :
  Js.sall (fun c => negb (sep c)) s = true -> Js.splitAt sep s = [s].
Proof.
  induction s as [|c s IH]; cbn [Js.sall Js.splitAt]; [reflexivity |].
  intros H. apply andb_true_iff in H as [Hc Hs].
  apply negb_true_iff in Hc. rewrite Hc, (IH Hs). reflexivity.
Qed.

Lemma splitAt_last (sep : ascii -> bool) (x name : string) (c : ascii) :
  sep c = true -> Js.sall (fun c => negb (sep c)) name = true ->
  exists p front, Js.splitAt sep (x +:+ String c name) = (p :: front) ++ [name].
Proof.
  intros Hc Hname. induction x as [|b x (p & front & IH)].
  - rewrite app_nil_l. cbn [Js.splitAt]. rewrite Hc, (splitAt_plain _ _ Hname).
    now exists EmptyString, [].
  - rewrite app_cons. cbn [Js.splitAt]. rewrite IH. destruct (sep b).
    + now exists EmptyString, (p :: front).
    + now exists (String b p), front.
Qed.

Lemma basename_app (dir name : string) :
  Js.sall (fun c => negb (isSlash c)) name = true ->
  basename (dir +:+ "/" +:+ name) = name.
Proof.
  intros Hname. unfold basename.
  destruct (splitAt_last isSlash dir name "/"%char eq_refl Hname) as (p & front & E).
  change ("/" +:+ name) with (String "/"%char name).
  unfold isSlash in E. rewrite E. apply List.last_last.
Qed.

Lemma relative_app (dir rel : string) : relative dir (dir +:+ "/" +:+ rel) = rel.
Proof.
  unfold relative. rewrite <- app_assoc, startsWith_app.
  replace (S (String.length dir)) with (String.length (dir +:+ "/"))
    by (rewrite length_app; simpl; lia).
  apply drop_app.
Qed.

Lemma app_inv_head (s t u : string) : s +:+ t = s +:+ u -> t = u.
Proof. intros H. now destruct (app_inv_length s s t u H eq_refl). Qed.

(** X10: a show file found under the timestamps directory is indexed
    under its path relative to that directory, in every segment and in its
    row of [shows]; and [getFullPath] leads from that relative path back to
    the file exactly when the relative path does not begin with
    [best-of/].  A show file in a subdirectory [best-of] of the timestamps
    directory is looked up in the best-of directory instead. *)
Theorem show_file_resolves (DATA_DIR rel content : string) :
  let fileInfo := mkFileInfo (TRANSCRIPTS_DIR DATA_DIR +:+ "/" +:+ rel) show in
  let r := ingest DATA_DIR fileInfo content [] [] in
  Forall (fun d => file d = rel) (fst r)
  /\ map show_file (snd r) = [rel]
  /\ (getFullPath DATA_DIR rel = path fileInfo
      <-> Js.startsWith rel "best-of/" = false)
  /\ (Js.startsWith rel "best-of/" = true ->
      getFullPath DATA_DIR rel
      = BEST_OF_DIR DATA_DIR +:+ "/" +:+ Js.drop 8 rel).
Proof.
  intros fileInfo r. subst r fileInfo. unfold ingest. cbn [path ftype fst snd].
  rewrite relative_app, parseShow_from. split; [| split; [reflexivity |]].
  - eapply List.Forall_impl; [| apply segmentsFrom_markers]. now intros d (_ & _ & _ & H).
  - unfold getFullPath. destruct (Js.startsWith rel "best-of/") eqn:Hb.
    + apply startsWith_inv in Hb. split; [split; [| discriminate] |].
      * intros H. exfalso. unfold TRANSCRIPTS_DIR in H. rewrite app_assoc in H.
        apply app_inv_head in H. rewrite Hb in H. discriminate H.
      * intros _. rewrite Hb at 1. unfold BEST_OF_DIR.
        rewrite !app_assoc. reflexivity.
    + split; [now split | discriminate].
Qed.

(** X11: a best-of file, whose name has no slash, is indexed as
    [best-of/] followed by its name, in every segment and in its row of
    [shows], and [getFullPath] leads from there back to the file. *)
Theorem bestof_file_resolves (DATA_DIR name content : string) :
  Js.sall (fun c => negb (isSlash c)) name = true ->
  let fileInfo := mkFileInfo (BEST_OF_DIR DATA_DIR +:+ "/" +:+ name) best_of in
  let r := ingest DATA_DIR fileInfo content [] [] in
  Forall (fun d => getFullPath DATA_DIR (file d) = path fileInfo) (fst r)
  /\ Forall (fun s => getFullPath DATA_DIR (show_file s) = path fileInfo) (snd r)
  /\ map show_file (snd r) = ["best-of/" +:+ name].
Proof.
  intros Hname fileInfo r. subst r fileInfo. unfold ingest. cbn [path ftype fst snd].
  rewrite (basename_app _ _ Hname).
  assert (Hfull : getFullPath DATA_DIR ("best-of/" +:+ name)
                  = BEST_OF_DIR DATA_DIR +:+ "/" +:+ name).
  { unfold getFullPath. rewrite startsWith_app. unfold BEST_OF_DIR.
    rewrite !app_assoc. reflexivity. }
  split; [| split; [| reflexivity]].
  - unfold parseBestOf. rewrite bestOfLoop_from. cbn [List.app].
    eapply List.Forall_impl; [| apply bestOfFrom_lines].
    intros d (_ & _ & _ & -> & _). exact Hfull.
  - cbn [List.app]. constructor; [exact Hfull | constructor].
Qed.

Lemma bestof_file_resolves_witness :
  let fileInfo := mkFileInfo ("/data/transcripts/best-of/1999-moments.md") best_of in
  let r := ingest "/data" fileInfo
             ("Moments" +:+ String Js.LF ("https://youtu.be/x" +:+ String Js.LF "0:15 Rick calls"))
             [] [] in
  Forall (fun d => getFullPath "/data" (file d) = path fileInfo) (fst r)
  /\ Forall (fun s => getFullPath "/data" (show_file s) = path fileInfo) (snd r)
  /\ map show_file (snd r) = ["best-of/1999-moments.md"].
Proof.
  exact (bestof_file_resolves "/data" "1999-moments.md" _ eq_refl).
Defined.

(** ** Reading back a written CSV line *)

Lemma includes_char_false (s : string) (c : ascii) :
  Js.includes s (String c EmptyString) = false ->
  Js.sall (fun b => negb (Js.code b =? Js.code c)) s = true.
Proof.
  induction s as [|b s IH]; [reflexivity |].
  cbn [Js.includes Js.startsWith Js.sall]. intros H.
  apply orb_false_iff in H as [Hb Hs]. rewrite andb_true_r in Hb.
  rewrite N.eqb_sym, Hb. exact (IH Hs).
Qed.

Lemma snoc_app (cur p : string) (b : ascii) :
  (cur +:+ String b EmptyString) +:+ p = cur +:+ String b p.
Proof. now rewrite app_assoc, app_cons, app_nil_l. Qed.

Lemma csvFields_plain (p tail cur : string) (parts : list string) :
  Js.sall (fun b => negb (Js.code b =? 44)) p = true ->
  Js.sall (fun b => negb (Js.code b =? 34)) p = true ->
  csvFields (p +:+ tail) false cur false parts
  = csvFields tail false (cur +:+ p) false parts.
Proof.
  revert cur. induction p as [|b p IH]; intros cur Hcomma Hquote.
  - now rewrite app_nil_l, app_nil_r.
  - cbn [Js.sall] in Hcomma, Hquote.
    apply andb_true_iff in Hcomma as [Hb1 Hcomma].
    apply andb_true_iff in Hquote as [Hb2 Hquote].
    apply negb_true_iff in Hb1, Hb2.
    rewrite app_cons. cbn [csvFields]. rewrite Hb1, Hb2. cbn [andb].
    rewrite (IH _ Hcomma Hquote), snoc_app. reflexivity.
Qed.

Lemma csvFields_quoted (p tail cur : string) (parts : list string) :
  Js.startsWith tail Js.quote = false ->
  csvFields (doubleQuotes p +:+ Js.quote +:+ tail) false cur true parts
  = csvFields tail false (cur +:+ p) false parts.
Proof.
  intros Htail. revert cur. induction p as [|b p IH]; intros cur.
  - cbn [doubleQuotes]. rewrite app_nil_l, app_nil_r.
    unfold Js.quote at 1. rewrite app_cons, app_nil_l. cbn [csvFields].
    change (Js.code Js.DQUOTE =? 34) with true. cbv iota.
    rewrite Htail. reflexivity.
  - cbn [doubleQuotes]. destruct (Js.code b =? 34) eqn:Hb.
    + rewrite !app_cons. cbn [csvFields]. rewrite Hb.
      assert (Eb : b = Js.DQUOTE) by (apply code_inj; apply N.eqb_eq in Hb; now rewrite Hb).
      replace (Js.startsWith (String b (doubleQuotes p +:+ Js.quote +:+ tail)) Js.quote)
        with true by (rewrite Eb; reflexivity).
      cbn [andb]. rewrite IH. unfold Js.quote. rewrite snoc_app, Eb. reflexivity.
    + rewrite app_cons. cbn [csvFields]. rewrite Hb, andb_false_r.
      rewrite IH, snoc_app. reflexivity.
Qed.

Lemma csvFields_field (p tail cur : string) (parts : list string) :
  Js.startsWith tail Js.quote = false ->
  csvFields (stringifyField p +:+ tail) false cur false parts
  = csvFields tail false (cur +:+ p) false parts.
Proof.
  intros Htail. unfold stringifyField.
  destruct (Js.includes p ",") eqn:Hcomma; cbn [orb];
    [| destruct (Js.includes p Js.quote) eqn:Hquote].
  1, 2: unfold Js.quote at 1; rewrite !app_assoc, app_cons, app_nil_l;
    cbn [csvFields]; change (Js.code Js.DQUOTE =? 34) with true; cbn [andb];
    cbv iota; now apply csvFields_quoted.
  apply csvFields_plain.
  - apply includes_char_false in Hcomma. exact Hcomma.
  - apply includes_char_false in Hquote. exact Hquote.
Qed.

Lemma csvFields_line (p : string) (rest parts : list string) :
  csvFields (Js.join "," (map stringifyField (p :: rest))) false EmptyString false parts
  = parts ++ p :: rest.
Proof.
  revert p parts. induction rest as [|q rest IH]; intros p parts.
  - cbn [map Js.join]. rewrite <- (app_nil_r (stringifyField p)).
    rewrite csvFields_field by reflexivity. now rewrite app_nil_l.
  - change (Js.join "," (map stringifyField (p :: q :: rest)))
      with (stringifyField p +:+ "," +:+ Js.join "," (map stringifyField (q :: rest))).
    rewrite app_cons, app_nil_l. rewrite csvFields_field by reflexivity.
    rewrite app_nil_l. cbn [csvFields].
    change (Js.code "," =? 34) with false. change (Js.code "," =? 44) with true.
    cbn [andb negb]. cbv iota. rewrite IH, <- List.app_assoc. reflexivity.
Qed.

(** X12: a line written by [stringifyLine] from a non-empty list of
    fields is read back by the CSV loop as exactly those fields, whatever
    characters they hold (commas and double quotes included); the line
    written from no field at all is read as one empty field. *)
Theorem csv_round_trip (parts : list string) :
  parseCsvLine (stringifyLine parts)
  = match parts with [] => [EmptyString] | _ => parts end.
Proof.
  destruct parts as [|p rest]; [reflexivity |].
  unfold parseCsvLine, stringifyLine. apply csvFields_line.
Qed.

Lemma csvFields_unquoted (line cur : string) (parts : list string) :
  Js.sall (fun b => negb (Js.code b =? 34)) line = true ->
  csvFields line false cur false parts
  = parts ++ match Js.splitComma line with
             | first :: others => (cur +:+ first) :: others
             | [] => [cur]
             end.
Proof.
  unfold Js.splitComma.
  revert cur parts. induction line as [|b line IH]; intros cur parts Hq.
  - cbn [csvFields Js.splitAt]. now rewrite app_nil_r.
  - cbn [Js.sall] in Hq. apply andb_true_iff in Hq as [Hb Hq].
    apply negb_true_iff in Hb. cbn [csvFields Js.splitAt]. rewrite Hb.
    destruct (Js.code b =? 44); cbn [andb negb].
    + rewrite (IH _ _ Hq), app_nil_r, <- List.app_assoc.
      pose proof (splitAt_nonempty (fun c => Js.code c =? 44) line) as Hne.
      destruct (Js.splitAt (fun c => Js.code c =? 44) line) as [|f o];
        [simpl in Hne; lia |].
      now rewrite app_nil_l.
    + rewrite (IH _ _ Hq).
      destruct (Js.splitAt (fun c => Js.code c =? 44) line) as [|f o].
      * reflexivity.
      * now rewrite snoc_app.
Qed.

(** X13: on a line without a double quote the CSV loop cuts exactly as
    [line.split(',')] does. *)
Theorem parseCsvLine_unquoted (line : string) :
  Js.sall (fun b => negb (Js.code b =? 34)) line = true ->
  parseCsvLine line = Js.splitComma line.
Proof.
  intros Hq. unfold parseCsvLine. rewrite (csvFields_unquoted _ _ _ Hq).
  pose proof (splitAt_nonempty (fun c => Js.code c =? 44) line) as Hne.
  unfold Js.splitComma.
  destruct (Js.splitAt (fun c => Js.code c =? 44) line) as [|f o];
    [simpl in Hne; lia |].
  now rewrite app_nil_l.
Qed.

Lemma parseCsvLine_unquoted_witness :
  parseCsvLine "1988-01-05,NRS,https://youtu.be/a,,,Neil"
  = Js.splitComma "1988-01-05,NRS,https://youtu.be/a,,,Neil".
Proof. exact (parseCsvLine_unquoted "1988-01-05,NRS,https://youtu.be/a,,,Neil" eq_refl). Defined.

(** ** The version marker and the link table over a whole build *)

Section Side.

Context (env : Env) (DIRNAME DATA_DIR : string).

Lemma insertMany_side (docs : list Doc) (shows : list Show) (w : World) :
  let w' := snd (insertMany env docs shows [] w) in
  isIndexed w' = isIndexed w
  /\ metadata (db w') = metadata (db w)
  /\ show_links (db w') = show_links (db w).
Proof.
  rewrite insertMany_runAll.
  destruct (transaction_runAll_cases env (manyStatements docs shows []) w)
    as [(Hi & _) [[_ Hd] | [_ Hd]]]; cbv zeta; rewrite Hd, Hi.
  - destruct (keepsSide_many docs shows (db w)) as [-> ->]. auto.
  - auto.
Qed.

Lemma syncLinks_links (w : World) :
  let w' := snd (syncLinks env DIRNAME w) in
  show_links (db w') = show_links (db w)
  \/ (existsSync env (csvFile DIRNAME) = true
      /\ fst (syncLinks env DIRNAME w) = Return ()
      /\ exists csvData,
           readFileSync env (csvFile DIRNAME) = Some csvData
           /\ show_links (db w') = linkTable (csvLinks csvData)).
Proof.
  cbv zeta. destruct (existsSync env (csvFile DIRNAME)) eqn:He.
  - destruct (readFileSync env (csvFile DIRNAME)) as [csvData|] eqn:Hr.
    + destruct (syncLinks_outcome env DIRNAME csvData w He Hr) as [[Ho Hd] | [_ Hd]].
      * right. split; [reflexivity |]. split; [exact Ho |].
        exists csvData. split; [reflexivity |]. now rewrite Hd.
      * left. now rewrite Hd.
    + left. unfold syncLinks. rewrite He.
      cbv [mbind build_bind log readFile]. now rewrite Hr.
  - left. unfold syncLinks. now rewrite He.
Qed.

(** What the part of the build after the loop leaves of the marker and of
    the link table. *)
Lemma finish_side (pending : list Doc * list Show) (w : World) :
  let r := finish env DIRNAME pending w in
  match fst r with
  | Return _ =>
      isIndexed (snd r) = true
      /\ metadata (db (snd r)) = <[versionKey := "true"]> (metadata (db w))
  | Throw _ =>
      isIndexed (snd r) = isIndexed w /\ metadata (db (snd r)) = metadata (db w)
  end
  /\ (show_links (db (snd r)) = show_links (db w)
      \/ (existsSync env (csvFile DIRNAME) = true
          /\ exists csvData,
               readFileSync env (csvFile DIRNAME) = Some csvData
               /\ show_links (db (snd r)) = linkTable (csvLinks csvData))).
Proof.
  destruct pending as [batch showsBatch]. cbv zeta. unfold finish.
  set (first := if (0 <? length batch)%nat || (0 <? length showsBatch)%nat
                then insertMany env batch showsBatch [] else mret ()).
  assert (H1 : isIndexed (snd (first w)) = isIndexed w
               /\ metadata (db (snd (first w))) = metadata (db w)
               /\ show_links (db (snd (first w))) = show_links (db w)).
  { subst first. destruct ((0 <? length batch)%nat || (0 <? length showsBatch)%nat);
      [apply insertMany_side | auto]. }
  destruct H1 as (Hi1 & Hm1 & Hl1).
  rewrite bind_unfold. destruct (first w) as [[[]|e] w1]; cbn [fst snd] in *;
    [| now auto].
  pose proof (syncLinks_world env DIRNAME w1) as (_ & _ & _ & Hm2 & Hi2 & _).
  pose proof (syncLinks_links w1) as Hl2. cbv zeta in Hl2.
  assert (Hlinks : forall d,
            show_links d = show_links (db (snd (syncLinks env DIRNAME w1))) ->
            show_links d = show_links (db w)
            \/ (existsSync env (csvFile DIRNAME) = true
                /\ exists csvData,
                     readFileSync env (csvFile DIRNAME) = Some csvData
                     /\ show_links d = linkTable (csvLinks csvData))).
  { intros d Hd. destruct Hl2 as [Hl2 | (He & _ & csvData & Hr & Hl2)].
    - left. now rewrite Hd, Hl2.
    - right. split; [exact He |]. exists csvData. split; [exact Hr |].
      now rewrite Hd. }
  rewrite bind_unfold.
  destruct (syncLinks env DIRNAME w1) as [[[]|e] w2]; cbn [fst snd] in *.
  - rewrite bind_unfold, run_unfold. destruct (fault env (executed w2)).
    + cbn. split; [split; congruence | now apply Hlinks].
    + cbv [mbind build_bind setIsIndexed log tick withDb setMetadata].
      cbn [fst snd isIndexed db metadata show_links].
      split; [split; [reflexivity | congruence] | now apply Hlinks].
  - split; [split; congruence | now apply Hlinks].
Qed.

Lemma buildIndex_side (w : World) :
  isIndexed w = false ->
  let r := buildIndex env DIRNAME DATA_DIR w in
  match fst r with
  | Return _ =>
      isIndexed (snd r) = true
      /\ metadata (db (snd r)) = <[versionKey := "true"]> (metadata (db w))
  | Throw _ =>
      isIndexed (snd r) = false /\ metadata (db (snd r)) = metadata (db w)
  end
  /\ (show_links (db (snd r)) = show_links (db w)
      \/ (existsSync env (csvFile DIRNAME) = true
          /\ exists csvData,
               readFileSync env (csvFile DIRNAME) = Some csvData
               /\ show_links (db (snd r)) = linkTable (csvLinks csvData))).
Proof.
  intros Hw. cbv zeta. rewrite (buildIndex_unfold env DIRNAME DATA_DIR w Hw), bind_unfold.
  pose proof (stable_fileLoop env DATA_DIR (notCompleted w)
                (notCompleted_quiet w) (notCompleted_survives w)
                (allFiles env) 0%nat (length (allFiles env)) [] []
                (loopStart env w) (loopStart_notCompleted env w Hw)) as (Hi & Hm & Hl).
  destruct (fileLoop env DATA_DIR (allFiles env) 0 (length (allFiles env)) [] []
              (loopStart env w)) as [[pending|e] w1]; cbn [fst snd] in *.
  - pose proof (finish_side pending w1) as H. cbv zeta in H.
    rewrite Hi, Hm, Hl in H. exact H.
  - auto.
Qed.

End Side.

(** X14: whatever is refused or cannot be read during a build, the build
    sets [isIndexed] exactly when it returns normally, and the version
    marker is written exactly then: [metadata] is as before but for the
    marker, which reads true, when [isIndexed] is set, and untouched when
    it is not. *)
Theorem build_marker (env : Env) (DIRNAME DATA_DIR : string) (w : World) :
  isIndexed w = false ->
  let r := buildIndex env DIRNAME DATA_DIR w in
  (isIndexed (snd r) = true <-> fst r = Return ())
  /\ metadata (db (snd r))
     = (if isIndexed (snd r) then <[versionKey := "true"]> (metadata (db w))
        else metadata (db w))
  /\ (initiallyIndexed (db (snd r)) = true <->
      isIndexed (snd r) = true \/ initiallyIndexed (db w) = true).
Proof.
  intros Hw. cbv zeta.
  pose proof (proj1 (buildIndex_side env DIRNAME DATA_DIR w Hw)) as H. cbv zeta in H.
  destruct (buildIndex env DIRNAME DATA_DIR w) as [[[]|e] w1]; cbn [fst snd] in *;
    destruct H as [Hi Hm]; rewrite Hi.
  - split; [tauto |]. split; [exact Hm |].
    unfold initiallyIndexed at 1. rewrite Hm, lookup_insert_eq. cbn. tauto.
  - split; [split; discriminate |]. split; [exact Hm |].
    unfold initiallyIndexed. rewrite Hm. split; [now right | now intros [? | ?]].
Qed.

Lemma build_marker_witness :
  let r := buildIndex (exampleEnv (fun n => (n =? 5)%nat)) "/srv" "/data"
                      (startWorld emptyDb) in
  fst r = Throw SqliteError
  /\ isIndexed (snd r) = false
  /\ metadata (db (snd r)) = metadata emptyDb.
Proof.
  intros r.
  pose proof (build_marker (exampleEnv (fun n => (n =? 5)%nat)) "/srv" "/data"
                (startWorld emptyDb) eq_refl) as H.
  cbv zeta in H. fold r in H. destruct H as (Hiff & Hm & _).
  assert (E : fst r = Throw SqliteError) by (vm_compute; reflexivity).
  assert (Hi : isIndexed (snd r) = false).
  { destruct (isIndexed (snd r)); [| reflexivity].
    rewrite (proj1 Hiff eq_refl) in E. discriminate E. }
  rewrite Hi in Hm. auto.
Defined.

(** X15: the link table after a build is the one before it, or the one
    read from the metadata CSV; it is the one before whenever the CSV does
    not exist. *)
Theorem build_links (env : Env) (DIRNAME DATA_DIR : string) (w : World) :
  isIndexed w = false ->
  let w' := snd (buildIndex env DIRNAME DATA_DIR w) in
  (show_links (db w') = show_links (db w)
   \/ exists csvData,
        readFileSync env (csvFile DIRNAME) = Some csvData
        /\ show_links (db w') = linkTable (csvLinks csvData))
  /\ (existsSync env (csvFile DIRNAME) = false ->
      show_links (db w') = show_links (db w)).
Proof.
  intros Hw. cbv zeta.
  destruct (buildIndex_side env DIRNAME DATA_DIR w Hw) as [_ [H | (He & csvData & Hr & H)]].
  - split; [now left | now intros _].
  - split; [right; now exists csvData | intros Hn; congruence].
Qed.

Lemma build_links_witness :
  let w' := snd (buildIndex (exampleEnv noFault) "/srv" "/data" (startWorld emptyDb)) in
  show_links (db w') = show_links emptyDb
  \/ exists csvData,
       readFileSync (exampleEnv noFault) (csvFile "/srv") = Some csvData
       /\ show_links (db w') = linkTable (csvLinks csvData).
Proof.
  exact (proj1 (build_links (exampleEnv noFault) "/srv" "/data" (startWorld emptyDb)
                  eq_refl)).
Defined.



(** ** The tables after a complete build *)

Lemma parseShow_batch (relativePath date : string) (lines : list string)
    (batch : list Doc) :
  parseShow relativePath date lines batch
  = batch ++ parseShow relativePath date lines [].
Proof.
  rewrite parseShow_from. unfold parseShow.
  pose proof (showLoop_segments relativePath date lines 0%nat None batch) as H.
  destruct (showLoop relativePath date lines 0%nat (None, batch)) as [c b].
  exact H.
Qed.

Lemma ingest_app (DATA_DIR : string) (f : FileInfo) (content : string)
    (batch : list Doc) (showsBatch : list Show) :
  ingest DATA_DIR f content batch showsBatch
  = (batch ++ fst (ingest DATA_DIR f content [] []),
     showsBatch ++ snd (ingest DATA_DIR f content [] [])).
Proof.
  unfold ingest. destruct (ftype f); cbn [fst snd List.app].
  - now rewrite parseShow_batch.
  - unfold parseBestOf. now rewrite !bestOfLoop_from.
Qed.

Lemma applyAll_shows (rows : list Show) (d : Db) :
  applyAll (map insertShow rows) d
  = mkDb (transcripts_fts d) (transcripts_fts_trigram d)
         (addShows rows (shows d)) (show_links d) (metadata d).
Proof.
  revert d. induction rows as [|s rows IH]; intros d; [now destruct d |].
  change (applyAll (map insertShow (s :: rows)) d)
    with (applyAll (map insertShow rows) (insertShow s d)).
  rewrite IH. reflexivity.
Qed.

Lemma applyAll_many (docs : list Doc) (rows : list Show) (d : Db) :
  applyAll (manyStatements docs rows []) d
  = mkDb (transcripts_fts d ++ docs) (transcripts_fts_trigram d ++ docs)
         (addShows rows (shows d)) (show_links d) (metadata d).
Proof.
  unfold manyStatements. cbn [map]. rewrite List.app_nil_r, applyAll_app.
  rewrite applyAll_docs, applyAll_shows. reflexivity.
Qed.

Lemma addShows_app (xs ys : list Show) (m : gmap string Show) :
  addShows (xs ++ ys) m = addShows ys (addShows xs m).
Proof. apply List.fold_left_app. Qed.

Section Complete.

Context (env : Env) (DIRNAME DATA_DIR : string).
Context (Hno : forall n, fault env n = false).

Lemma insertMany_commits (docs : list Doc) (rows : list Show) (w : World) :
  fst (insertMany env docs rows [] w) = Return ()
  /\ db (snd (insertMany env docs rows [] w))
     = applyAll (manyStatements docs rows []) (db w).
Proof.
  pose proof (insertMany_noFault env docs rows [] w Hno) as Hret.
  split; [exact Hret |]. rewrite insertMany_runAll in *.
  destruct (transaction_runAll_cases env (manyStatements docs rows []) w)
    as [_ [[_ Hd] | [Ht _]]]; [exact Hd | congruence].
Qed.

Lemma fileLoop_step (f : FileInfo) (rest : list FileInfo) (i total : nat)
    (batch : list Doc) (showsBatch : list Show) (w : World) (content : string) :
  readFileSync env (path f) = Some content ->
  exists w2,
    db w2 = db w /\ isIndexed w2 = isIndexed w
    /\ progress_current w2 = S i /\ progress_total w2 = progress_total w
    /\ fileLoop env DATA_DIR (f :: rest) i total batch showsBatch w
       = (let '(batch1, shows1) := ingest DATA_DIR f content batch showsBatch in
          if (50 <=? length shows1)%nat then
            insertMany env batch1 shows1 [] ;;
            log (LogIndexed (S i) total) ;;
            fileLoop env DATA_DIR rest (S i) total [] []
          else fileLoop env DATA_DIR rest (S i) total batch1 shows1) w2.
Proof.
  intros Hr.
  exists (snd ((if (i mod 50 =? 0)%nat then yield else mret ())
                 (snd (setCurrent (S i) w)))).
  split; [now destruct (i mod 50 =? 0)%nat |].
  split; [now destruct (i mod 50 =? 0)%nat |].
  split; [now destruct (i mod 50 =? 0)%nat |].
  split; [now destruct (i mod 50 =? 0)%nat |].
  cbn [fileLoop]. rewrite bind_unfold.
  change (setCurrent (S i) w) with (@Return unit (), snd (setCurrent (S i) w)).
  cbv iota beta. rewrite bind_unfold.
  set (pause := if (i mod 50 =? 0)%nat then yield else mret ()).
  assert (Ep : pause (snd (setCurrent (S i) w))
                = (Return (), snd (pause (snd (setCurrent (S i) w)))))
    by (subst pause; now destruct (i mod 50 =? 0)%nat).
  rewrite Ep. cbv iota beta. rewrite bind_unfold. unfold readFile at 1.
  rewrite Hr. reflexivity.
Qed.

(** The loop with every statement accepted and every file readable: what
    is in the tables together with what is still pending is what was there
    together with what the files contribute, in order. *)
Lemma fileLoop_content (files : list FileInfo) :
  Forall (readable env) files ->
  forall i total batch showsBatch w,
    exists batch' shows' w',
      fileLoop env DATA_DIR files i total batch showsBatch w
      = (Return (batch', shows'), w')
      /\ transcripts_fts (db w') ++ batch'
         = transcripts_fts (db w) ++ batch ++ flat_map (segmentsOf env DATA_DIR) files
      /\ transcripts_fts_trigram (db w') ++ batch'
         = transcripts_fts_trigram (db w) ++ batch
           ++ flat_map (segmentsOf env DATA_DIR) files
      /\ addShows shows' (shows (db w'))
         = addShows (showsBatch ++ flat_map (showRowsOf env DATA_DIR) files)
                    (shows (db w))
      /\ isIndexed w' = isIndexed w.
Proof.
  induction 1 as [|f files Hf _ IH]; intros i total batch showsBatch w.
  - exists batch, showsBatch, w. cbn [flat_map]. rewrite !List.app_nil_r. auto.
  - unfold readable in Hf.
    destruct (readFileSync env (path f)) as [content|] eqn:Hr; [| contradiction].
    destruct (fileLoop_step f files i total batch showsBatch w content Hr)
      as (w2 & Hd2 & Hi2 & _ & _ & ->).
    assert (Hseg : segmentsOf env DATA_DIR f = fst (ingest DATA_DIR f content [] []))
      by (unfold segmentsOf, contentOf; now rewrite Hr).
    assert (Hrow : showRowsOf env DATA_DIR f = snd (ingest DATA_DIR f content [] []))
      by (unfold showRowsOf, contentOf; now rewrite Hr).
    rewrite ingest_app, <- Hseg, <- Hrow. cbv iota beta. cbn [flat_map].
    destruct (50 <=? length (showsBatch ++ showRowsOf env DATA_DIR f))%nat.
    + rewrite bind_unfold.
      destruct (insertMany_commits (batch ++ segmentsOf env DATA_DIR f)
                  (showsBatch ++ showRowsOf env DATA_DIR f) w2) as [Hret Hdb].
      pose proof (insertMany_side env (batch ++ segmentsOf env DATA_DIR f)
                    (showsBatch ++ showRowsOf env DATA_DIR f) w2) as (Hi & _).
      destruct (insertMany env (batch ++ segmentsOf env DATA_DIR f)
                  (showsBatch ++ showRowsOf env DATA_DIR f) [] w2)
        as [[[]|e] w4]; cbn [fst snd] in *; [| discriminate].
      rewrite bind_unfold.
      change (log (LogIndexed (S i) total) w4)
        with (@Return unit (), snd (log (LogIndexed (S i) total) w4)).
      cbv iota beta.
      destruct (IH (S i) total [] [] (snd (log (LogIndexed (S i) total) w4)))
        as (b' & s' & w' & E & H1 & H2 & H3 & H4).
      exists b', s', w'. split; [exact E |].
      change (db (snd (log (LogIndexed (S i) total) w4))) with (db w4) in *.
      change (isIndexed (snd (log (LogIndexed (S i) total) w4)))
        with (isIndexed w4) in *.
      rewrite Hdb, applyAll_many in H1, H2, H3.
      cbn [transcripts_fts transcripts_fts_trigram shows List.app] in H1, H2, H3.
      rewrite Hd2 in H1, H2, H3. rewrite H1, H2, H3, H4, Hi, Hi2.
      rewrite !addShows_app, <- !List.app_assoc. auto.
    + destruct (IH (S i) total (batch ++ segmentsOf env DATA_DIR f)
                  (showsBatch ++ showRowsOf env DATA_DIR f) w2)
        as (b' & s' & w' & E & H1 & H2 & H3 & H4).
      exists b', s', w'. split; [exact E |].
      rewrite Hd2 in H1, H2, H3. rewrite H1, H2, H3, H4, Hi2.
      rewrite <- !List.app_assoc. auto.
Qed.

Lemma finish_content (batch : list Doc) (rows : list Show) (w : World) :
  (existsSync env (csvFile DIRNAME) = true ->
   readFileSync env (csvFile DIRNAME) <> None) ->
  let r := finish env DIRNAME (batch, rows) w in
  fst r = Return ()
  /\ transcripts_fts (db (snd r)) = transcripts_fts (db w) ++ batch
  /\ transcripts_fts_trigram (db (snd r)) = transcripts_fts_trigram (db w) ++ batch
  /\ shows (db (snd r)) = addShows rows (shows (db w)).
Proof.
  intros Hcsv. cbv zeta. unfold finish.
  set (first := if (0 <? length batch)%nat || (0 <? length rows)%nat
                then insertMany env batch rows [] else mret ()).
  assert (H1 : fst (first w) = Return ()
               /\ db (snd (first w)) = applyAll (manyStatements batch rows []) (db w)).
  { subst first.
    destruct ((0 <? length batch)%nat || (0 <? length rows)%nat) eqn:Hc.
    - apply insertMany_commits.
    - apply orb_false_iff in Hc as [Hb Hs].
      destruct batch; [| discriminate]. destruct rows; [| discriminate].
      split; reflexivity. }
  destruct H1 as [Hr1 Hd1]. rewrite bind_unfold.
  destruct (first w) as [[[]|e] w1]; cbn [fst snd] in *; [| discriminate].
  pose proof (syncLinks_world env DIRNAME w1) as (Hp & Ht & Hs & _).
  pose proof (syncLinks_returns env DIRNAME w1 Hno Hcsv) as Hr2.
  rewrite bind_unfold.
  destruct (syncLinks env DIRNAME w1) as [[[]|e] w2]; cbn [fst snd] in *;
    [| discriminate].
  rewrite bind_unfold, run_unfold, Hno.
  cbv [mbind build_bind setIsIndexed log tick withDb setMetadata].
  cbn [fst snd db transcripts_fts transcripts_fts_trigram shows].
  rewrite Hp, Ht, Hs, Hd1, applyAll_many. auto.
Qed.

End Complete.

Lemma loopStart_tables (env : Env) (w : World) :
  db (loopStart env w) = resetTables (db w).
Proof.
  unfold loopStart, prelude.
  now destruct (length (allFiles env) =? 0)%nat, (bestOfDirExists env).
Qed.

(** X17: when no statement is refused, every enumerated file can be
    read and the metadata CSV, if there is one, can be read, a build
    returns normally and leaves in both FTS5 tables exactly the segments
    of all files, file after file in the order of enumeration (show files
    before best-of files) and segment after segment within a file; and in
    [shows] one row per indexed path, holding what the last file of that
    path gave.  Committing in batches of 50 files shows in nothing. *)
Theorem complete_build (env : Env) (DIRNAME DATA_DIR : string) (w : World) :
  isIndexed w = false ->
  (forall n, fault env n = false) ->
  Forall (readable env) (allFiles env) ->
  (existsSync env (csvFile DIRNAME) = true ->
   readFileSync env (csvFile DIRNAME) <> None) ->
  let r := buildIndex env DIRNAME DATA_DIR w in
  fst r = Return ()
  /\ transcripts_fts (db (snd r)) = flat_map (segmentsOf env DATA_DIR) (allFiles env)
  /\ transcripts_fts_trigram (db (snd r))
     = flat_map (segmentsOf env DATA_DIR) (allFiles env)
  /\ shows (db (snd r))
     = addShows (flat_map (showRowsOf env DATA_DIR) (allFiles env)) ∅.
Proof.
  intros Hw Hno Hread Hcsv. cbv zeta.
  rewrite (buildIndex_unfold env DIRNAME DATA_DIR w Hw), bind_unfold.
  destruct (fileLoop_content env DATA_DIR Hno (allFiles env) Hread 0%nat
              (length (allFiles env)) [] [] (loopStart env w))
    as (b' & s' & w' & -> & H1 & H2 & H3 & _).
  rewrite loopStart_tables in H1, H2, H3.
  cbn [resetTables transcripts_fts transcripts_fts_trigram shows List.app] in H1, H2, H3.
  destruct (finish_content env DIRNAME Hno b' s' w' Hcsv) as (Hr & Hf & Ht & Hs).
  rewrite Hr, Hf, Ht, Hs, H1, H2, H3. auto.
Qed.

Lemma complete_build_witness :
  let env := exampleEnv noFault in
  let r := buildIndex env "/srv" "/data" (startWorld emptyDb) in
  fst r = Return ()
  /\ transcripts_fts (db (snd r)) = flat_map (segmentsOf env "/data") (allFiles env)
  /\ transcripts_fts_trigram (db (snd r))
     = flat_map (segmentsOf env "/data") (allFiles env)
  /\ shows (db (snd r)) = addShows (flat_map (showRowsOf env "/data") (allFiles env)) ∅.
Proof.
  apply (complete_build (exampleEnv noFault) "/srv" "/data" (startWorld emptyDb)).
  - reflexivity.
  - intros n. reflexivity.
  - repeat constructor; unfold readable; vm_compute; discriminate.
  - intros _. vm_compute. discriminate.
Defined.

(** ** Whole files only *)

Section Prefix.

Context (env : Env) (DIRNAME DATA_DIR : string).

Lemma holdsFiles_commit (committed pending : list FileInfo) (d : Db) :
  holdsFiles env DATA_DIR committed d ->
  holdsFiles env DATA_DIR (committed ++ pending)
    (applyAll (manyStatements (flat_map (segmentsOf env DATA_DIR) pending)
        (flat_map (showRowsOf env DATA_DIR) pending) []) d).
Proof.
  intros (Hp & Ht & Hs). rewrite applyAll_many. unfold holdsFiles.
  cbn [transcripts_fts transcripts_fts_trigram shows].
  rewrite Hp, Ht, Hs, !List.flat_map_app, addShows_app. auto.
Qed.

Lemma holdsFiles_same (files : list FileInfo) (d d' : Db) :
  transcripts_fts d' = transcripts_fts d ->
  transcripts_fts_trigram d' = transcripts_fts_trigram d ->
  shows d' = shows d ->
  holdsFiles env DATA_DIR files d -> holdsFiles env DATA_DIR files d'.
Proof. unfold holdsFiles. intros -> -> ->. auto. Qed.

Lemma flat_map_snoc {A B : Type} (g : A -> list B) (xs : list A) (x : A) :
  flat_map g (xs ++ [x]) = flat_map g xs ++ g x.
Proof. rewrite List.flat_map_app. cbn [flat_map]. now rewrite List.app_nil_r. Qed.

(** The loop keeps in the tables the contribution of a prefix of the
    files, and in its two batches the contribution of the files that
    follow that prefix up to the current one. *)
Lemma fileLoop_prefix (files : list FileInfo) :
  forall i total committed pending w,
    holdsFiles env DATA_DIR committed (db w) ->
    let r := fileLoop env DATA_DIR files i total
               (flat_map (segmentsOf env DATA_DIR) pending)
                   (flat_map (showRowsOf env DATA_DIR) pending) w in
    match fst r with
    | Return (batch', shows') =>
        exists committed' pending',
          committed' ++ pending' = committed ++ pending ++ files
          /\ holdsFiles env DATA_DIR committed' (db (snd r))
          /\ batch' = flat_map (segmentsOf env DATA_DIR) pending' /\ shows' =
              flat_map (showRowsOf env DATA_DIR) pending'
    | Throw _ =>
        exists committed' rest,
          committed' ++ rest = committed ++ pending ++ files
          /\ rest <> []
          /\ holdsFiles env DATA_DIR committed' (db (snd r))
    end.
Proof.
  induction files as [|f files IH]; intros i total committed pending w Hw; cbv zeta.
  - cbn [fileLoop mret build_ret fst snd]. exists committed, pending.
    rewrite List.app_nil_r. auto.
  - destruct (readFileSync env (path f)) as [content|] eqn:Hr.
    + destruct (fileLoop_step env DATA_DIR f files i total
        (flat_map (segmentsOf env DATA_DIR) pending)
                  (flat_map (showRowsOf env DATA_DIR) pending) w content Hr)
        as (w2 & Hd2 & _ & _ & _ & ->).
      assert (Hseg : (segmentsOf env DATA_DIR) f = fst (ingest DATA_DIR f content [] []))
        by (unfold segmentsOf, contentOf; now rewrite Hr).
      assert (Hrow : (showRowsOf env DATA_DIR) f = snd (ingest DATA_DIR f content [] []))
        by (unfold showRowsOf, contentOf; now rewrite Hr).
      rewrite ingest_app, <- Hseg, <- Hrow, <- !flat_map_snoc. cbv iota beta.
      rewrite <- Hd2 in Hw.
      destruct (50 <=? length (flat_map (showRowsOf env DATA_DIR) (pending ++ [f])))%nat.
      * rewrite bind_unfold, insertMany_runAll.
        destruct (transaction_runAll_cases env
                    (manyStatements (flat_map (segmentsOf env DATA_DIR) (pending ++ [f]))
                       (flat_map (showRowsOf env DATA_DIR) (pending ++ [f])) []) w2)
          as [_ [[Hret Hdb] | [Hret Hdb]]].
        -- destruct (transaction _ w2) as [[[]|e] w4]; cbn [fst snd] in *;
             [| discriminate].
           rewrite bind_unfold.
           change (log (LogIndexed (S i) total) w4)
             with (@Return unit (), snd (log (LogIndexed (S i) total) w4)).
           cbv iota beta.
           assert (H4 : holdsFiles env DATA_DIR (committed ++ pending ++ [f])
                          (db (snd (log (LogIndexed (S i) total) w4)))).
           { change (db (snd (log (LogIndexed (S i) total) w4))) with (db w4).
             rewrite Hdb. now apply holdsFiles_commit. }
           specialize (IH (S i) total (committed ++ pending ++ [f]) [] _ H4).
           cbv zeta in IH. cbn [flat_map] in IH.
           destruct (fileLoop env DATA_DIR files (S i) total [] []
                       (snd (log (LogIndexed (S i) total) w4))) as [[[b' s']|e] w'];
             cbn [fst snd] in *.
           ++ destruct IH as (c' & p' & E & H). exists c', p'.
              split; [| exact H]. rewrite E. cbn [List.app].
              now rewrite <- !List.app_assoc.
           ++ destruct IH as (c' & r' & E & H). exists c', r'.
              split; [| exact H]. rewrite E. cbn [List.app].
              now rewrite <- !List.app_assoc.
        -- destruct (transaction _ w2) as [[[]|e] w4]; cbn [fst snd] in *;
             [discriminate |].
           exists committed, (pending ++ f :: files).
           split; [reflexivity |]. split; [now destruct pending |].
           now rewrite Hdb.
      * specialize (IH (S i) total committed (pending ++ [f]) w2 Hw). cbv zeta in IH.
        destruct (fileLoop env DATA_DIR files (S i) total
                    (flat_map (segmentsOf env DATA_DIR) (pending ++ [f]))
                        (flat_map (showRowsOf env DATA_DIR) (pending ++ [f])) w2)
          as [[[b' s']|e] w']; cbn [fst snd] in *.
        -- destruct IH as (c' & p' & E & H). exists c', p'.
           split; [| exact H]. rewrite E. now rewrite <- !List.app_assoc.
        -- destruct IH as (c' & r' & E & H). exists c', r'.
           split; [| exact H]. rewrite E. now rewrite <- !List.app_assoc.
    + destruct (fileLoop_unreadable env DATA_DIR f files Hr i total
                  (flat_map (segmentsOf env DATA_DIR) pending)
                      (flat_map (showRowsOf env DATA_DIR) pending) w)
        as (Hret & Hdb & _).
      rewrite Hret. exists committed, (pending ++ f :: files).
      split; [reflexivity |]. split; [now destruct pending |]. now rewrite Hdb.
Qed.

Lemma finish_prefix (committed pending : list FileInfo) (w : World) :
  holdsFiles env DATA_DIR committed (db w) ->
  let r := finish env DIRNAME (flat_map (segmentsOf env DATA_DIR) pending,
      flat_map (showRowsOf env DATA_DIR) pending) w in
  match fst r with
  | Return _ => holdsFiles env DATA_DIR (committed ++ pending) (db (snd r))
  | Throw _ =>
      holdsFiles env DATA_DIR committed (db (snd r))
      \/ holdsFiles env DATA_DIR (committed ++ pending) (db (snd r))
  end.
Proof.
  intros Hw. cbv zeta. unfold finish.
  set (first := if (0 <? length (flat_map (segmentsOf env DATA_DIR) pending))%nat
                   || (0 <? length (flat_map (showRowsOf env DATA_DIR) pending))%nat
                then insertMany env (flat_map (segmentsOf env DATA_DIR) pending)
                    (flat_map (showRowsOf env DATA_DIR) pending) []
                else mret ()).
  assert (H1 : match fst (first w) with
               | Return _ => holdsFiles env DATA_DIR (committed ++ pending)
                               (db (snd (first w)))
               | Throw _ => holdsFiles env DATA_DIR committed (db (snd (first w)))
               end).
  { subst first.
    destruct ((0 <? length (flat_map (segmentsOf env DATA_DIR) pending))%nat
              || (0 <? length (flat_map (showRowsOf env DATA_DIR) pending))%nat) eqn:Hc.
    - rewrite insertMany_runAll.
      destruct (transaction_runAll_cases env
                  (manyStatements (flat_map (segmentsOf env DATA_DIR) pending)
                      (flat_map (showRowsOf env DATA_DIR) pending) []) w)
        as [_ [[-> ->] | [-> ->]]]; [now apply holdsFiles_commit | exact Hw].
    - apply orb_false_iff in Hc as [Hb Hs].
      pose proof (holdsFiles_commit committed pending (db w) Hw) as H.
      destruct (flat_map (segmentsOf env DATA_DIR) pending); [| discriminate].
      destruct (flat_map (showRowsOf env DATA_DIR) pending); [| discriminate]. exact H. }
  rewrite bind_unfold.
  destruct (first w) as [[[]|e] w1]; cbn [fst snd] in *; [| now left].
  pose proof (syncLinks_world env DIRNAME w1) as (Hp & Ht & Hs & _).
  assert (H2 : holdsFiles env DATA_DIR (committed ++ pending)
                 (db (snd (syncLinks env DIRNAME w1))))
    by (eapply holdsFiles_same; eassumption).
  rewrite bind_unfold.
  destruct (syncLinks env DIRNAME w1) as [[[]|e] w2]; cbn [fst snd] in *;
    [| now right].
  rewrite bind_unfold, run_unfold. destruct (fault env (executed w2)).
  - right. exact H2.
  - exact H2.
Qed.

(** Whatever happens during a build, it leaves in the tables the
    contribution of a prefix of the enumerated files. *)
Lemma buildIndex_prefix (w : World) :
  isIndexed w = false ->
  let r := buildIndex env DIRNAME DATA_DIR w in
  exists committed rest,
    committed ++ rest = allFiles env
    /\ holdsFiles env DATA_DIR committed (db (snd r))
    /\ (fst r = Return () -> rest = []).
Proof.
  intros Hw. cbv zeta.
  rewrite (buildIndex_unfold env DIRNAME DATA_DIR w Hw), bind_unfold.
  assert (H0 : holdsFiles env DATA_DIR [] (db (loopStart env w)))
    by (rewrite loopStart_tables; repeat split).
  pose proof (fileLoop_prefix (allFiles env) 0%nat (length (allFiles env)) [] []
                (loopStart env w) H0) as H. cbv zeta in H. cbn [flat_map List.app] in H.
  destruct (fileLoop env DATA_DIR (allFiles env) 0 (length (allFiles env)) [] []
              (loopStart env w)) as [[[b' s']|e] w1]; cbn [fst snd] in *.
  - destruct H as (c' & p' & E & Hc & -> & ->).
    pose proof (finish_prefix c' p' w1 Hc) as Hf. cbv zeta in Hf.
    destruct (finish env DIRNAME (flat_map (segmentsOf env DATA_DIR) p',
        flat_map (showRowsOf env DATA_DIR) p') w1)
      as [[[]|e] w2]; cbn [fst snd] in *.
    + exists (c' ++ p'), []. rewrite List.app_nil_r. auto.
    + destruct Hf as [Hf | Hf].
      * exists c', p'. split; [exact E |]. split; [exact Hf | discriminate].
      * exists (c' ++ p'), []. rewrite List.app_nil_r.
        split; [exact E |]. split; [exact Hf | discriminate].
  - destruct H as (c' & r' & E & _ & Hc). exists c', r'.
    split; [exact E |]. split; [exact Hc | discriminate].
Qed.

End Prefix.

(** X18: whatever is refused or cannot be read, a build leaves in the
    FTS5 tables and in [shows] what the first [k] enumerated files
    contribute, for some [k], and nothing else: no file is indexed in
    part, none is skipped before a later one.  When the build returns
    normally [k] is the number of files. *)
Theorem build_whole_files (env : Env) (DIRNAME DATA_DIR : string) (w : World) :
  isIndexed w = false ->
  let r := buildIndex env DIRNAME DATA_DIR w in
  exists k,
    (k <= length (allFiles env))%nat
    /\ holdsFiles env DATA_DIR (List.firstn k (allFiles env)) (db (snd r))
    /\ (fst r = Return () -> k = length (allFiles env)).
Proof.
  intros Hw. cbv zeta.
  destruct (buildIndex_prefix env DIRNAME DATA_DIR w Hw) as (c & rest & E & H & Hret).
  exists (length c). rewrite <- E, List.length_app, List.firstn_app, Nat.sub_diag.
  rewrite List.firstn_all. cbn [List.firstn]. rewrite List.app_nil_r.
  split; [lia |]. split; [exact H |].
  intros Hr. rewrite (Hret Hr). simpl. lia.
Qed.

Lemma build_whole_files_witness :
  let r := buildIndex (exampleEnv (fun n => (n =? 5)%nat)) "/srv" "/data"
                      (startWorld emptyDb) in
  exists k,
    (k <= 3)%nat
    /\ holdsFiles (exampleEnv (fun n => (n =? 5)%nat)) "/data"
         (List.firstn k (allFiles (exampleEnv (fun n => (n =? 5)%nat)))) (db (snd r)).
Proof.
  destruct (build_whole_files (exampleEnv (fun n => (n =? 5)%nat)) "/srv" "/data"
              (startWorld emptyDb) eq_refl) as (k & Hk & H & _).
  exists k. split; [exact Hk | exact H].
Defined.

Lemma addShows_keeps (rs : list Show) (m : gmap string Show) (k : string) :
  is_Some (m !! k) -> is_Some (addShows rs m !! k).
Proof.
  revert m. induction rs as [|s rs IH]; intros m H; [exact H |].
  apply IH. apply lookup_insert_is_Some.
  destruct (decide (show_file s = k)); [now left | now right].
Qed.

Lemma addShows_lookup (rs : list Show) (m : gmap string Show) (s : Show) :
  In s rs -> is_Some (addShows rs m !! show_file s).
Proof.
  revert m. induction rs as [|a rs IH]; intros m Hin; [destruct Hin |].
  destruct Hin as [-> | H]; cbn [addShows List.fold_left].
  - apply addShows_keeps. apply lookup_insert_is_Some. now left.
  - now apply IH.
Qed.

Lemma segmentsOf_file (env : Env) (DATA_DIR : string) (f : FileInfo) (d : Doc) :
  In d (segmentsOf env DATA_DIR f) ->
  exists s, In s (showRowsOf env DATA_DIR f) /\ show_file s = file d.
Proof.
  unfold segmentsOf, showRowsOf, ingest.
  destruct (ftype f); cbn [fst snd List.app]; intros Hin.
  - rewrite parseShow_from in Hin.
    pose proof (segmentsFrom_markers spacedLines
                  (relative (TRANSCRIPTS_DIR DATA_DIR) (path f))
                  (getDateFromFilename (basename (path f)))
                  (Js.splitLines (contentOf env f)) 0%nat) as Hall.
    rewrite List.Forall_forall in Hall. destruct (Hall d Hin) as (_ & _ & _ & Hf).
    eexists. split; [left; reflexivity |]. now rewrite Hf.
  - unfold parseBestOf in Hin. rewrite bestOfLoop_from in Hin. cbn [List.app] in Hin.
    pose proof (bestOfFrom_lines ("best-of/" +:+ basename (path f))
                  (getDateFromFilename (basename (path f)))
                  (List.skipn 2 (Js.splitLines (contentOf env f))) 2%nat) as Hall.
    rewrite List.Forall_forall in Hall. destruct (Hall d Hin) as (_ & _ & _ & Hf & _).
    eexists. split; [left; reflexivity |]. now rewrite Hf.
Qed.

(** X19: whatever is refused or cannot be read during a build, every row
    it leaves in either FTS5 table has a row in [shows] under the same
    file, so the LEFT JOIN of the search on [shows] finds a row for every
    hit. *)
Theorem build_registry (env : Env) (DIRNAME DATA_DIR : string) (w : World) (t : Table)
    (d : Doc) :
  isIndexed w = false ->
  In d (rowsOf t (db (snd (buildIndex env DIRNAME DATA_DIR w)))) ->
  is_Some (shows (db (snd (buildIndex env DIRNAME DATA_DIR w))) !! file d).
Proof.
  intros Hw Hin.
  destruct (buildIndex_prefix env DIRNAME DATA_DIR w Hw)
    as (c & _ & _ & (Hp & Ht & Hs) & _).
  assert (Hd : In d (flat_map (segmentsOf env DATA_DIR) c))
    by (destruct t; cbn [rowsOf] in Hin; congruence).
  apply List.in_flat_map in Hd as (f & Hf & Hd).
  destruct (segmentsOf_file env DATA_DIR f d Hd) as (s & Hsr & <-).
  rewrite Hs. apply addShows_lookup. apply List.in_flat_map. now exists f.
Qed.

Lemma build_registry_witness :
  let r := buildIndex (exampleEnv noFault) "/srv" "/data" (startWorld emptyDb) in
  Forall (fun d => is_Some (shows (db (snd r)) !! file d)) (rowsOf Porter (db (snd r))).
Proof.
  intros r. apply List.Forall_forall. intros d Hd.
  exact (build_registry (exampleEnv noFault) "/srv" "/data" (startWorld emptyDb)
           Porter d eq_refl Hd).
Defined.

(** ** The listing of shows *)

Lemma In_insertSorted {A : Type} (le : A -> A -> bool) (x y : A) (l : list A) :
  In y (insertSorted le x l) <-> y = x \/ In y l.
Proof.
  induction l as [|a l IH]; cbn [insertSorted].
  - simpl. intuition.
  - destruct (le x a); simpl; [intuition |]. rewrite IH. intuition.
Qed.

Lemma In_sortBy {A : Type} (le : A -> A -> bool) (y : A) (l : list A) :
  In y (sortBy le l) <-> In y l.
Proof.
  induction l as [|a l IH]; [reflexivity |].
  cbn [sortBy List.fold_right]. fold (sortBy le l).
  rewrite In_insertSorted, IH. simpl. intuition.
Qed.

Lemma length_insertSorted {A : Type} (le : A -> A -> bool) (x : A) (l : list A) :
  length (insertSorted le x l) = S (length l).
Proof.
  induction l as [|b l IH]; [reflexivity |].
  cbn [insertSorted]. destruct (le x b); simpl; [reflexivity | now rewrite IH].
Qed.

Lemma length_sortBy {A : Type} (le : A -> A -> bool) (l : list A) :
  length (sortBy le l) = length l.
Proof.
  induction l as [|a l IH]; [reflexivity |].
  cbn [sortBy List.fold_right]. fold (sortBy le l).
  rewrite length_insertSorted, IH. reflexivity.
Qed.

Lemma dateLe_total (a b : Show) : dateLe a b = false -> dateLe b a = true.
Proof.
  unfold dateLe. rewrite (String.compare_antisym (show_date a) (show_date b)).
  now destruct (String.compare (show_date b) (show_date a)).
Qed.

Lemma sortBy_sorted (l : list Show) :
  Sorted (fun a b => dateLe a b = true) (sortBy dateLe l).
Proof.
  induction l as [|x l IH]; [constructor |].
  cbn [sortBy List.fold_right]. fold (sortBy dateLe l).
  induction IH as [|y s Hs IHs Hhd]; cbn [insertSorted]; [repeat constructor |].
  destruct (dateLe x y) eqn:Hxy.
  - constructor; [now constructor | now constructor].
  - constructor; [exact IHs |].
    destruct s as [|z s]; cbn [insertSorted].
    + constructor. now apply dateLe_total.
    + destruct (dateLe x z); constructor; [now apply dateLe_total |].
      now inversion Hhd.
Qed.

Lemma Sorted_map {A B : Type} (R : B -> B -> Prop) (g : A -> B) (l : list A) :
  Sorted (fun a b => R (g a) (g b)) l -> Sorted R (map g l).
Proof.
  induction 1 as [|a l _ IH Hhd]; cbn [map]; constructor; [exact IH |].
  destruct Hhd; cbn [map]; now constructor.
Qed.

(** X20: the listing answers 503 while the index is not built; otherwise
    it returns, without any limit, exactly the rows of [shows] whose type
    is the requested one (show when none is given) and whose date is LIKE
    one of the requested years, each once, in ascending order of date.  A
    row takes URL, host and title from the link of its date only when its
    type is show; a row of any other type keeps its own URL and title and
    has no host. *)
Theorem listShows_rows (engine : Engine) (w : World) (yearsParam typeParam : option string) :
  match listShows engine w yearsParam typeParam with
  | ShowsIndexing => isIndexed w = false
  | Listing listed =>
      isIndexed w = true
      /\ (forall r, In r listed <->
            exists k s, shows (db w) !! k = Some s
                        /\ show_type s = listedType typeParam
                        /\ showYearFilter engine yearsParam s = true
                        /\ r = listRow (db w) s)
      /\ Sorted (fun a b => dateLe (listed_show a) (listed_show b) = true) listed
      /\ (length listed <= size (shows (db w)))%nat
      /\ (forall r, In r listed -> show_type (listed_show r) <> "show" ->
            listed_youtube_url r = show_youtube_url (listed_show r)
            /\ listed_custom_title r = show_custom_title (listed_show r)
            /\ listed_host r = None)
  end.
Proof.
  unfold listShows. destruct (isIndexed w); cbn [negb]; [| reflexivity].
  split; [reflexivity |]. split; [| split; [| split]].
  - intros r. rewrite List.in_map_iff. split.
    + intros (s & <- & Hs). apply In_sortBy, List.filter_In in Hs as [Hin Hk].
      apply andb_true_iff in Hk as [Ht Hy]. apply String.eqb_eq in Ht.
      apply List.in_map_iff in Hin as ([k s'] & Es & Hin). cbn [snd] in Es. subst s'.
      apply list_elem_of_In, elem_of_map_to_list in Hin.
      exists k, s. auto.
    + intros (k & s & Hk & Ht & Hy & ->). exists s. split; [reflexivity |].
      apply In_sortBy, List.filter_In. split.
      * apply List.in_map_iff. exists (k, s). split; [reflexivity |].
        now apply list_elem_of_In, elem_of_map_to_list.
      * apply andb_true_iff. split; [now apply String.eqb_eq | exact Hy].
  - apply Sorted_map. cbn [listRow listed_show]. apply sortBy_sorted.
  - rewrite List.length_map, length_sortBy.
    etransitivity; [apply List.filter_length_le |].
    rewrite List.length_map. unfold size, map_size.
    rewrite length_map_to_list. reflexivity.
  - intros r Hin Hty. apply List.in_map_iff in Hin as (s & <- & _).
    cbn [listRow listed_show] in *. unfold listRow, linkFor.
    destruct (String.eqb (show_type s) "show") eqn:E.
    + apply String.eqb_eq in E. contradiction.
    + repeat split.
Qed.

(** ** Segment ids *)

Lemma ofNat_inj (n m : nat) : Js.ofNat n = Js.ofNat m -> n = m.
Proof.
  unfold Js.ofNat. intros H.
  apply (f_equal NilEmpty.uint_of_string) in H. rewrite !NilEmpty.usu in H.
  injection H as H. apply (f_equal Nat.of_uint) in H.
  now rewrite !Unsigned.of_to in H.
Qed.

Lemma ofNat_noColon (n : nat) : Js.sall noColon (Js.ofNat n) = true.
Proof.
  unfold Js.ofNat. generalize (Nat.to_uint n). intros d.
  induction d; cbn [NilEmpty.string_of_uint Js.sall]; [reflexivity | exact IHd ..].
Qed.

Lemma colon_inside (u v : string) : Js.sall noColon (u +:+ String ":" v) = false.
Proof.
  induction u as [|c u IH]; [reflexivity |].
  rewrite app_cons. cbn [Js.sall]. rewrite IH. apply andb_false_r.
Qed.

(** A string is cut in one way only into a path, two colons and a
    number. *)
Lemma id_parts (x y a b : string) :
  Js.sall noColon a = true -> Js.sall noColon b = true ->
  x +:+ String ":" (String ":" a) = y +:+ String ":" (String ":" b) ->
  x = y /\ a = b.
Proof.
  intros Ha Hb. revert y. induction x as [|c x IH]; intros [|c' y] H.
  - rewrite !app_nil_l in H. split; [reflexivity |]. now injection H.
  - exfalso. rewrite app_nil_l, app_cons in H. injection H as _ H.
    destruct y as [|c'' y].
    + rewrite app_nil_l in H. injection H as H. subst a. discriminate Ha.
    + rewrite app_cons in H. injection H as _ H. subst a.
      now rewrite colon_inside in Ha.
  - exfalso. rewrite app_nil_l, app_cons in H. injection H as _ H.
    destruct x as [|c'' x].
    + rewrite app_nil_l in H. injection H as H. subst b. discriminate Hb.
    + rewrite app_cons in H. injection H as _ H. subst b.
      now rewrite colon_inside in Hb.
  - rewrite !app_cons in H. injection H as -> H.
    destruct (IH y H) as [-> ->]. now split.
Qed.

Lemma segmentsFrom_ids (glue : list string -> string) (relativePath date : string)
    (lines : list string) :
  forall j,
    Forall (fun d => (j <= line d)%nat
                     /\ id d = relativePath +:+ "::" +:+ Js.ofNat (line d))
           (segmentsFrom glue relativePath date j lines)
    /\ List.NoDup (map line (segmentsFrom glue relativePath date j lines)).
Proof.
  induction lines as [|raw rest IH]; intros j; cbn [segmentsFrom].
  - split; constructor.
  - destruct (IH (S j)) as [Hall Hnd].
    assert (Hall' : Forall (fun d => (j <= line d)%nat
                     /\ id d = relativePath +:+ "::" +:+ Js.ofNat (line d))
                     (segmentsFrom glue relativePath date (S j) rest)).
    { eapply List.Forall_impl; [| exact Hall]. intros d [Hle Hid]. split; [lia | exact Hid]. }
    destruct (isMarkerLine raw); [| now split].
    split; [constructor; [now split | exact Hall'] |].
    cbn [map line]. apply List.NoDup_cons_iff. split; [| exact Hnd].
    intros Hin. apply List.in_map_iff in Hin as (d & Hd & Hin).
    rewrite List.Forall_forall in Hall. destruct (Hall d Hin) as [Hle _]. lia.
Qed.

Lemma bestOfFrom_ids (relativePath date : string) (lines : list string) :
  forall j,
    Forall (fun d => (j <= line d)%nat
                     /\ id d = relativePath +:+ "::" +:+ Js.ofNat (line d))
           (bestOfFrom relativePath date j lines)
    /\ List.NoDup (map line (bestOfFrom relativePath date j lines)).
Proof.
  induction lines as [|raw rest IH]; intros j; cbn [bestOfFrom].
  - split; constructor.
  - destruct (IH (S j)) as [Hall Hnd].
    assert (Hall' : Forall (fun d => (j <= line d)%nat
                     /\ id d = relativePath +:+ "::" +:+ Js.ofNat (line d))
                     (bestOfFrom relativePath date (S j) rest)).
    { eapply List.Forall_impl; [| exact Hall]. intros d [Hle Hid]. split; [lia | exact Hid]. }
    destruct (tsMatch (Js.trim raw)); [| now split].
    split; [constructor; [now split | exact Hall'] |].
    cbn [map line]. apply List.NoDup_cons_iff. split; [| exact Hnd].
    intros Hin. apply List.in_map_iff in Hin as (d & Hd & Hin).
    rewrite List.Forall_forall in Hall. destruct (Hall d Hin) as [Hle _]. lia.
Qed.

(** The segments of one file carry the file's indexed path and pairwise
    different line numbers. *)
Lemma segmentsOf_ids (env : Env) (DATA_DIR : string) (f : FileInfo) :
  Forall (fun d => id d = indexedPath DATA_DIR f +:+ "::" +:+ Js.ofNat (line d))
         (segmentsOf env DATA_DIR f)
  /\ List.NoDup (map line (segmentsOf env DATA_DIR f)).
Proof.
  unfold segmentsOf, ingest, indexedPath. destruct (ftype f); cbn [fst].
  - rewrite parseShow_from.
    destruct (segmentsFrom_ids spacedLines
                (relative (TRANSCRIPTS_DIR DATA_DIR) (path f))
                (getDateFromFilename (basename (path f)))
                (Js.splitLines (contentOf env f)) 0%nat) as [Hall Hnd].
    split; [| exact Hnd]. eapply List.Forall_impl; [| exact Hall]. now intros d [_ H].
  - unfold parseBestOf. rewrite bestOfLoop_from. cbn [List.app].
    destruct (bestOfFrom_ids ("best-of/" +:+ basename (path f))
                (getDateFromFilename (basename (path f)))
                (List.skipn 2 (Js.splitLines (contentOf env f))) 2%nat) as [Hall Hnd].
    split; [| exact Hnd]. eapply List.Forall_impl; [| exact Hall]. now intros d [_ H].
Qed.

Lemma ids_unique (env : Env) (DATA_DIR : string) (files : list FileInfo) :
  List.NoDup (map (indexedPath DATA_DIR) files) ->
  List.NoDup (map id (flat_map (segmentsOf env DATA_DIR) files)).
Proof.
  induction files as [|f files IH]; cbn [map flat_map]; [constructor |].
  intros H. apply List.NoDup_cons_iff in H as [Hf Hfiles].
  destruct (segmentsOf_ids env DATA_DIR f) as [Hall Hnd].
  rewrite List.Forall_forall in Hall.
  rewrite List.map_app. apply List.NoDup_app.
  - apply List.NoDup_map_NoDup_ForallPairs;
      [| eapply List.NoDup_map_inv; exact Hnd].
    intros d1 d2 H1 H2 E. rewrite (Hall d1 H1), (Hall d2 H2) in E.
    apply id_parts in E as [_ E]; try apply ofNat_noColon.
    apply ofNat_inj in E.
    clear - Hnd H1 H2 E. induction (segmentsOf env DATA_DIR f) as [|a l IHl];
      [destruct H1 |].
    cbn [map] in Hnd. apply List.NoDup_cons_iff in Hnd as [Ha Hl].
    destruct H1 as [-> | H1], H2 as [-> | H2]; [reflexivity | | | now apply IHl].
    + exfalso. apply Ha. rewrite E. now apply List.in_map.
    + exfalso. apply Ha. rewrite <- E. now apply List.in_map.
  - now apply IH.
  - intros i H1 H2. apply List.in_map_iff in H1 as (d1 & <- & H1).
    apply List.in_map_iff in H2 as (d2 & E & H2).
    apply List.in_flat_map in H2 as (f' & Hf' & H2).
    destruct (segmentsOf_ids env DATA_DIR f') as [Hall' _].
    rewrite List.Forall_forall in Hall'.
    rewrite (Hall d1 H1), (Hall' d2 H2) in E.
    apply id_parts in E as [E _]; try apply ofNat_noColon.
    apply Hf. rewrite <- E. now apply List.in_map.
Qed.

(** X21: when the enumerated files are indexed under pairwise different
    paths, the ids of the rows a build leaves in either FTS5 table are
    pairwise different, whatever was refused or could not be read: an id
    is cut in one way only into the path and the line number it was made
    of. *)
Theorem build_ids_unique (env : Env) (DIRNAME DATA_DIR : string) (w : World) (t : Table) :
  isIndexed w = false ->
  List.NoDup (map (indexedPath DATA_DIR) (allFiles env)) ->
  List.NoDup (map id (rowsOf t (db (snd (buildIndex env DIRNAME DATA_DIR w))))).
Proof.
  intros Hw Hnd.
  destruct (buildIndex_prefix env DIRNAME DATA_DIR w Hw)
    as (c & rest & E & (Hp & Ht & _) & _).
  rewrite <- E, List.map_app in Hnd. apply List.NoDup_app_remove_r in Hnd.
  destruct t; cbn [rowsOf]; [rewrite Hp | rewrite Ht]; now apply ids_unique.
Qed.

Lemma build_ids_unique_witness :
  List.NoDup
    (map id (rowsOf Trigram
               (db (snd (buildIndex (exampleEnv noFault) "/srv" "/data"
                                    (startWorld emptyDb)))))).
Proof.
  apply build_ids_unique; [reflexivity |].
  apply NoDup_ListNoDup. apply (bool_decide_unpack _). vm_compute. exact I.
Defined.

(** ** The progress counters *)

Section Progress.

Context (env : Env) (DIRNAME DATA_DIR : string).

Lemma insertMany_progress (docs : list Doc) (rows : list Show) (w : World) :
  progress_current (snd (insertMany env docs rows [] w)) = progress_current w
  /\ progress_total (snd (insertMany env docs rows [] w)) = progress_total w.
Proof.
  rewrite insertMany_runAll.
  destruct (transaction_runAll_cases env (manyStatements docs rows []) w)
    as [(_ & Hc & Ht & _) _]. now split.
Qed.

Lemma syncLinks_progress (w : World) :
  progress_current (snd (syncLinks env DIRNAME w)) = progress_current w
  /\ progress_total (snd (syncLinks env DIRNAME w)) = progress_total w.
Proof.
  destruct (existsSync env (csvFile DIRNAME)) eqn:He.
  - destruct (readFileSync env (csvFile DIRNAME)) as [csvData|] eqn:Hr.
    + rewrite (syncLinks_unfold env DIRNAME csvData w He Hr), bind_unfold.
      destruct (transaction_runAll_cases env (syncStatements (csvLinks csvData))
                  (snd (log LogSyncing w))) as [(_ & Hc & Ht & _) _].
      destruct (transaction (runAll env (syncStatements (csvLinks csvData)))
                  (snd (log LogSyncing w))) as [[[]|e] w1]; cbn [fst snd] in *;
        split; assumption.
    + unfold syncLinks. rewrite He.
      cbv [mbind build_bind log readFile]. rewrite Hr. now split.
  - unfold syncLinks. rewrite He. now split.
Qed.

Lemma fileLoop_progress (files : list FileInfo) :
  forall i total batch showsBatch w,
    let r := fileLoop env DATA_DIR files i total batch showsBatch w in
    progress_total (snd r) = progress_total w
    /\ ((files = [] /\ progress_current (snd r) = progress_current w)
        \/ (i < progress_current (snd r) <= i + length files)%nat)
    /\ (forall p, fst r = Return p ->
          files = [] \/ progress_current (snd r) = (i + length files)%nat).
Proof.
  induction files as [|f files IH]; intros i total batch showsBatch w; cbv zeta.
  - cbn [fileLoop mret build_ret fst snd]. auto.
  - assert (Hstep : forall m : Build (list Doc * list Show),
              (forall w2, progress_total (snd (m w2)) = progress_total w2
                 /\ (progress_current w2 = S i ->
                     (i < progress_current (snd (m w2)) <= i + S (length files))%nat
                     /\ (forall p, fst (m w2) = Return p ->
                           progress_current (snd (m w2)) = (i + S (length files))%nat))) ->
              forall w2, progress_current w2 = S i ->
                         progress_total w2 = progress_total w ->
              progress_total (snd (m w2)) = progress_total w
              /\ ((f :: files = [] /\ progress_current (snd (m w2)) = progress_current w)
                  \/ (i < progress_current (snd (m w2)) <= i + length (f :: files))%nat)
              /\ (forall p, fst (m w2) = Return p ->
                    f :: files = []
                    \/ progress_current (snd (m w2)) = (i + length (f :: files))%nat)).
    { intros m Hm w2 Hc Ht. destruct (Hm w2) as [Ht' H]. destruct (H Hc) as [Hb Hr].
      cbn [length]. split; [congruence |]. split; [now right |].
      intros p Hp. right. exact (Hr p Hp). }
    assert (Hrest : forall batch1 shows1 w3,
              progress_total (snd (fileLoop env DATA_DIR files (S i) total batch1 shows1 w3))
              = progress_total w3
              /\ (progress_current w3 = S i ->
                  (i < progress_current
                         (snd (fileLoop env DATA_DIR files (S i) total batch1 shows1 w3))
                   <= i + S (length files))%nat
                  /\ (forall p,
                        fst (fileLoop env DATA_DIR files (S i) total batch1 shows1 w3)
                        = Return p ->
                        progress_current
                          (snd (fileLoop env DATA_DIR files (S i) total batch1 shows1 w3))
                        = (i + S (length files))%nat))).
    { intros batch1 shows1 w3.
      destruct (IH (S i) total batch1 shows1 w3) as (Ht & Hb & Hr). cbv zeta in *.
      split; [exact Ht |]. intros Hc. split.
      - destruct Hb as [[-> Hb] | Hb]; [rewrite Hb, Hc; simpl; lia | lia].
      - intros p Hp. destruct (Hr p Hp) as [-> | E]; [| lia].
        destruct Hb as [[_ Hb] | Hb]; [rewrite Hb, Hc; simpl; lia | simpl in Hb; lia]. }
    destruct (readFileSync env (path f)) as [content|] eqn:Hread.
    + destruct (fileLoop_step env DATA_DIR f files i total batch showsBatch w content Hread)
        as (w2 & _ & _ & Hc2 & Ht2 & ->).
      apply Hstep; [| exact Hc2 | exact Ht2]. clear w2 Hc2 Ht2. intros w2.
      destruct (ingest DATA_DIR f content batch showsBatch) as [batch1 shows1].
      destruct (50 <=? length shows1)%nat; [| apply Hrest].
      rewrite bind_unfold.
      destruct (insertMany_progress batch1 shows1 w2) as [Hc4 Ht4].
      destruct (insertMany env batch1 shows1 [] w2) as [[[]|e] w4]; cbn [fst snd] in *.
      * rewrite bind_unfold.
        change (log (LogIndexed (S i) total) w4)
          with (@Return unit (), snd (log (LogIndexed (S i) total) w4)).
        cbv iota beta.
        destruct (Hrest [] [] (snd (log (LogIndexed (S i) total) w4))) as [Ht5 H5].
        change (progress_total (snd (log (LogIndexed (S i) total) w4)))
          with (progress_total w4) in Ht5.
        change (progress_current (snd (log (LogIndexed (S i) total) w4)))
          with (progress_current w4) in H5.
        split; [congruence |]. intros Hc. apply H5. congruence.
      * split; [exact Ht4 |]. intros Hc. split; [lia | discriminate].
    + assert (E : fileLoop env DATA_DIR (f :: files) i total batch showsBatch w
                  = (Throw (ReadError (path f)),
                     snd ((if (i mod 50 =? 0)%nat then yield else mret ())
                            (snd (setCurrent (S i) w))))).
      { cbn [fileLoop]. cbv [mbind build_bind setCurrent yield readFile mret build_ret].
        rewrite Hread. now destruct (i mod 50 =? 0)%nat. }
      rewrite E. cbn [fst snd length].
      split; [now destruct (i mod 50 =? 0)%nat |]. split; [| discriminate].
      right. destruct (i mod 50 =? 0)%nat; cbn; lia.
Qed.

Lemma finish_progress (pending : list Doc * list Show) (w : World) :
  progress_current (snd (finish env DIRNAME pending w)) = progress_current w
  /\ progress_total (snd (finish env DIRNAME pending w)) = progress_total w.
Proof.
  destruct pending as [batch showsBatch]. unfold finish.
  set (first := if (0 <? length batch)%nat || (0 <? length showsBatch)%nat
                then insertMany env batch showsBatch [] else mret ()).
  assert (H1 : progress_current (snd (first w)) = progress_current w
               /\ progress_total (snd (first w)) = progress_total w).
  { subst first. destruct ((0 <? length batch)%nat || (0 <? length showsBatch)%nat);
      [apply insertMany_progress | now split]. }
  destruct H1 as [Hc1 Ht1]. rewrite bind_unfold.
  destruct (first w) as [[[]|e] w1]; cbn [fst snd] in *; [| now split].
  destruct (syncLinks_progress w1) as [Hc2 Ht2]. rewrite bind_unfold.
  destruct (syncLinks env DIRNAME w1) as [[[]|e] w2]; cbn [fst snd] in *;
    [| split; congruence].
  rewrite bind_unfold, run_unfold. destruct (fault env (executed w2)).
  - cbn. split; congruence.
  - cbv [mbind build_bind setIsIndexed log tick withDb].
    cbn [fst snd progress_current progress_total]. split; congruence.
Qed.

End Progress.

(** X22: in a build that starts with the counter at zero, the total is
    set to the number of enumerated files and the counter of files begun
    never ends above it; and when the build returns normally the two are
    equal. *)
Theorem build_progress (env : Env) (DIRNAME DATA_DIR : string) (w : World) :
  isIndexed w = false ->
  progress_current w = 0%nat ->
  let r := buildIndex env DIRNAME DATA_DIR w in
  progress_total (snd r) = length (allFiles env)
  /\ (progress_current (snd r) <= progress_total (snd r))%nat
  /\ (fst r = Return () -> progress_current (snd r) = progress_total (snd r)).
Proof.
  intros Hw Hc. cbv zeta.
  rewrite (buildIndex_unfold env DIRNAME DATA_DIR w Hw), bind_unfold.
  assert (H0 : progress_total (loopStart env w) = length (allFiles env)
               /\ progress_current (loopStart env w) = 0%nat).
  { unfold loopStart, prelude.
    destruct (length (allFiles env) =? 0)%nat, (bestOfDirExists env); now split. }
  destruct H0 as [Ht0 Hc0].
  destruct (fileLoop_progress env DATA_DIR (allFiles env) 0%nat (length (allFiles env))
              [] [] (loopStart env w)) as (Ht & Hb & Hr). cbv zeta in *.
  destruct (fileLoop env DATA_DIR (allFiles env) 0 (length (allFiles env)) [] []
              (loopStart env w)) as [[pending|e] w1]; cbn [fst snd] in *.
  - destruct (finish_progress env DIRNAME pending w1) as [Hc2 Ht2].
    rewrite Hc2, Ht2, Ht, Ht0.
    assert (E : progress_current w1 = length (allFiles env)).
    { destruct (Hr pending eq_refl) as [E | E]; [| exact E].
      destruct Hb as [[_ Hb] | Hb]; [| rewrite E in Hb; simpl in Hb; lia].
      rewrite Hb, Hc0, E. reflexivity. }
    rewrite E. auto.
  - rewrite Ht, Ht0. split; [reflexivity |]. split; [| discriminate].
    destruct Hb as [[_ Hb] | Hb]; [rewrite Hb, Hc0 |]; lia.
Qed.

Lemma build_progress_witness :
  let r := buildIndex unreadableEnv "/srv" "/data" (startWorld emptyDb) in
  progress_total (snd r) = 3%nat
  /\ (progress_current (snd r) <= progress_total (snd r))%nat.
Proof.
  destruct (build_progress unreadableEnv "/srv" "/data" (startWorld emptyDb)
              eq_refl eq_refl) as (H1 & H2 & _).
  split; [exact H1 | exact H2].
Defined.

(** ** From the build to what a search shows *)

(** X23: the line number a best-of segment gets in the build is a line
    number of the file as the search cuts it, and the line there, trimmed,
    is the segment's text: the context shown for a best-of hit starts with
    the line that was indexed. *)
Theorem bestof_snippet_starts_at_text (relativePath date content : string) (d : Doc) :
  In d (parseBestOf relativePath date (Js.splitLines content) []) ->
  exists first rest,
    window (line d) content = first :: rest
    /\ Js.trim first = text_content d.
Proof.
  unfold parseBestOf. rewrite bestOfLoop_from. cbn [List.app]. intros Hin.
  pose proof (bestOfFrom_lines relativePath date
                (List.skipn 2 (Js.splitLines content)) 2%nat) as Hall.
  rewrite List.Forall_forall in Hall. destruct (Hall d Hin) as (Hle & Htext & Hts & _).
  rewrite nth_skipn in Htext.
  replace (2 + (line d - 2))%nat with (line d) in Htext by lia.
  pose proof (splitLF_splitLines content) as H2.
  pose proof (Forall2_nth_sameLine _ _ (line d) H2) as Hsame.
  assert (Hlen : length (Js.splitLF content) = length (Js.splitLines content))
    by (eapply Forall2_length; exact H2).
  assert (Hlt : (line d < length (Js.splitLF content))%nat).
  { destruct (Nat.lt_ge_cases (line d) (length (Js.splitLF content))) as [H | H];
      [exact H | exfalso].
    rewrite List.nth_overflow in Htext by lia.
    rewrite Htext in Hts. discriminate Hts. }
  rewrite (window_cons _ _ Hlt). eexists _, _. split; [reflexivity |].
  now rewrite (sameLine_trim _ _ Hsame).
Qed.

Lemma bestof_snippet_starts_at_text_witness :
  let content := "Moments" +:+ String Js.LF ("https://youtu.be/x" +:+ String Js.CR
                   (String Js.LF ("  0:15 Rick calls" +:+ String Js.CR EmptyString))) in
  exists first rest,
    window 2 content = first :: rest /\ Js.trim first = "0:15 Rick calls".
Proof.
  intros content.
  assert (Hin : In (mkDoc "best-of/m.md::2" "best-of/m.md" 2 "1999-12-31"
                          "0:15 Rick calls" "best_of")
                   (parseBestOf "best-of/m.md" "1999-12-31" (Js.splitLines content) []))
    by (vm_compute; left; reflexivity).
  exact (bestof_snippet_starts_at_text "best-of/m.md" "1999-12-31" content _ Hin).
Defined.

Lemma segmentsOf_path (env : Env) (DATA_DIR : string) (f : FileInfo) :
  Forall (fun d => file d = indexedPath DATA_DIR f) (segmentsOf env DATA_DIR f).
Proof.
  unfold segmentsOf, ingest, indexedPath. destruct (ftype f); cbn [fst].
  - rewrite parseShow_from.
    eapply List.Forall_impl; [| apply segmentsFrom_markers]. now intros d (_ & _ & _ & H).
  - unfold parseBestOf. rewrite bestOfLoop_from. cbn [List.app].
    eapply List.Forall_impl; [| apply bestOfFrom_lines].
    now intros d (_ & _ & _ & H & _).
Qed.

(** X24: every hit of a search on what a build left is a segment of one
    of the enumerated files; and when that file's indexed path leads back
    to it and the file can still be read, the snippet sent is the file's
    lines from the segment's line on, seven at most, joined by line
    feeds. *)
Theorem search_after_build (engine : Engine) (env : Env) (DIRNAME DATA_DIR : string)
    (w : World) (req : Request) (hits : list Enriched) (e : Enriched) :
  isIndexed w = false ->
  fst (search engine env DATA_DIR (snd (buildIndex env DIRNAME DATA_DIR w)) req)
  = Results hits ->
  In e hits ->
  exists f,
    In f (allFiles env)
    /\ In (hit_doc (hit e)) (segmentsOf env DATA_DIR f)
    /\ (wellPlaced DATA_DIR f -> readable env f ->
        snippet e
        = Js.join (String Js.LF EmptyString)
            (window (line (hit_doc (hit e))) (contentOf env f))).
Proof.
  intros Hw Hs Hin.
  apply search_results_select in Hs as [-> | (t & fm & cl & k & page & Hsel & ->)];
    [destruct Hin |].
  apply in_map_iff in Hin as (h & <- & Hin). rewrite hit_enrich.
  destruct (runSelect_sound engine _ _ _ _ _ _ _ _ Hsel h Hin) as (Hrow & _).
  destruct (buildIndex_prefix env DIRNAME DATA_DIR w Hw)
    as (c & rest & E & (Hp & Ht & _) & _).
  assert (Hd : In (hit_doc h) (flat_map (segmentsOf env DATA_DIR) c))
    by (destruct t; cbn [rowsOf] in Hrow; congruence).
  apply List.in_flat_map in Hd as (f & Hf & Hd).
  exists f. split; [rewrite <- E; apply in_or_app; now left |].
  split; [exact Hd |]. intros Hplaced Hread.
  pose proof (segmentsOf_path env DATA_DIR f) as Hpath.
  rewrite List.Forall_forall in Hpath. specialize (Hpath _ Hd).
  unfold readable in Hread. unfold contentOf.
  destruct (readFileSync env (path f)) as [content|] eqn:Hr; [| contradiction].
  apply enrich_readable. rewrite Hpath, Hplaced. exact Hr.
Qed.

Lemma search_after_build_witness :
  Forall (fun e =>
            exists f,
              In f (allFiles (exampleEnv noFault))
              /\ In (hit_doc (hit e)) (segmentsOf (exampleEnv noFault) "/data" f)
              /\ snippet e
                 = Js.join (String Js.LF EmptyString)
                     (window (line (hit_doc (hit e))) (contentOf (exampleEnv noFault) f)))
    (resultsOf (fst (search Toy.engine (exampleEnv noFault) "/data" exampleWorld
                       (queryOnly "rick")))).
Proof.
  apply List.Forall_forall. intros e Hin.
  destruct (search_after_build Toy.engine (exampleEnv noFault) "/srv" "/data"
              (startWorld emptyDb) (queryOnly "rick")
              (resultsOf (fst (search Toy.engine (exampleEnv noFault) "/data"
                                 exampleWorld (queryOnly "rick")))) e)
    as (f & Hf & Hd & Himp).
  - reflexivity.
  - vm_compute. reflexivity.
  - exact Hin.
  - exists f. split; [exact Hf |]. split; [exact Hd |].
    assert (Hall : wellPlaced "/data" f /\ readable (exampleEnv noFault) f).
    { clear - Hf. vm_compute in Hf.
      destruct Hf as [<- | [<- | [<- | []]]];
        (split; [vm_compute; reflexivity | vm_compute; discriminate]). }
    destruct Hall as (H1 & H2). exact (Himp H1 H2).
Defined.


